(** * Process support of the OS/161 shell project

    A shallow embedding of [kern/proc/proc.c] (built with [OPT_SHELL]):
    the process table with its circular pid allocation, creation and
    destruction of process control blocks, the wait/exit rendezvous and
    the duplication and teardown of per-process file tables.

    The kernel heap is explicit: every [struct proc *] or
    [struct openfile *] is an address, and reading or writing through an
    address that holds no live object is undefined behaviour.  C functions
    become computations in a state-and-error monad over the kernel
    state. *)

From Stdlib Require Import ZArith Lia List.
From stdpp Require Import base gmap sets list strings fin_maps.

Local Open Scope Z_scope.

(** ** Outcomes and the kernel monad *)

(** What running a piece of kernel code can lead to: a normal return, a
    failed [KASSERT] or [panic], undefined behaviour (a wild pointer, an
    index outside an array), a loop that never exits, or a thread that
    sleeps with nobody left to wake it. *)
Inductive result (A : Type) : Type :=
  | Ok (a : A)
  | Panic
  | Undefined
  | Diverges
  | Blocks.

Arguments Ok {A} a.
Arguments Panic {A}.
Arguments Undefined {A}.
Arguments Diverges {A}.
Arguments Blocks {A}.

Definition M (St A : Type) : Type := St -> result (A * St).

Definition ret {St A : Type} (a : A) : M St A := fun s => Ok (a, s).

Definition bind {St A B : Type} (m : M St A) (f : A -> M St B) : M St B :=
  fun s =>
    match m s with
    | Ok (a, s') => f a s'
    | Panic => Panic
    | Undefined => Undefined
    | Diverges => Diverges
    | Blocks => Blocks
    end.

Notation "'let*' x ':=' m 'in' k" := (bind m (fun x => k))
  (at level 10, x binder, k at level 200, right associativity).
Notation "m '>>' k" := (bind m (fun _ => k))
  (at level 100, k at level 200, right associativity).

Definition fail_with {St A : Type} (r : result (A * St)) : M St A := fun _ => r.

(** [KASSERT(b)] *)
Definition KASSERT {St : Type} (b : bool) : M St unit :=
  if b then ret tt else fail_with Panic.

(** [for (i = lo; i < lo + n; i++) body(i)] *)
Fixpoint for_loop {St : Type} (lo : nat) (n : nat) (body : nat -> M St unit)
  : M St unit :=
  match n with
  | O => ret tt
  | S n' => body lo >> for_loop (S lo) n' body
  end.

(** ** Constants *)

(** Addresses of kernel objects.  A C pointer is an [option ptr], with
    [None] for [NULL]. *)
Abbreviation ptr := positive.

(** [#define MAX_PROC 100] *)
Definition MAX_PROC : Z := 100.

(** The constants that [proc.c] takes from headers outside this file:
    [PID_MIN] and [OPEN_MAX] (kern/limits.h) and the switch
    [USE_SEMAPHORE_FOR_WAITPID] (proc.h).  They stay parameters of the
    whole development. *)
Class Config : Type := {
  PID_MIN : Z;
  OPEN_MAX : nat;
  USE_SEMAPHORE_FOR_WAITPID : bool
}.

(** Range of the C type [int] on the 32-bit target. *)
Definition INT_MIN : Z := - 2 ^ 31.
Definition INT_MAX : Z := 2 ^ 31 - 1.
Definition is_int (z : Z) : Prop := INT_MIN <= z <= INT_MAX.

(** ** Data *)

(** Modelled from the spec: [struct openfile] is declared outside this
    file.  The spec gives an open-file handle a file-system node, an
    access mode, an offset, a reference count and a guarding lock;
    [proc.c] uses the fields [vn], [countRef] and [of_lock]. *)
Record openfile : Type := {
  vn : option ptr;
  of_mode : Z;
  of_offset : Z;
  countRef : Z;
  of_lock : option ptr
}.

(** [struct proc], with the fields [proc.c] reads and writes.  The
    spinlock [p_lock] is embedded in the structure; the model keeps
    whether it is initialised. *)
Record proc : Type := {
  p_name : option ptr;
  p_lock : bool;
  p_numthreads : Z;
  p_addrspace : option ptr;
  p_cwd : option ptr;
  p_pid : Z;
  p_status : Z;
  p_exited : Z;
  parent_proc : option ptr;
  p_sem : option ptr;
  p_cv : option ptr;
  p_cv_lock : option ptr;
  ft_lock : option ptr;
  fileTable : list (option ptr)
}.

(** [static struct _processTable]: the array [proc[MAX_PROC+1]] is a
    finite map from index to address, an absent key being a [NULL]
    entry; indices outside [0 .. MAX_PROC] are rejected by the accessors
    below. *)
Record _processTable : Type := {
  pt_proc : gmap Z ptr;
  last_i : Z;
  is_full : bool
}.

(** Calls into the subsystems that [proc.c] only uses: the vnode layer,
    the VFS and the address spaces.  [Call_vfs_close] also records the
    handle on whose behalf the node is closed. *)
Inductive event : Type :=
  | Call_VOP_INCREF (v : ptr)
  | Call_VOP_DECREF (v : ptr)
  | Call_vfs_close (h : ptr) (v : ptr)
  | Call_as_deactivate
  | Call_as_destroy (a : ptr)
  | Call_spinlock_cleanup (p : ptr)
  | Call_sft_init.

Global Instance event_eq_dec : EqDecision event.
Proof. solve_decision. Defined.

(** The kernel state seen by [proc.c]. *)
Record kstate : Type := {
  processTable : _processTable;
  ft_copy_lock : option ptr;
  kproc : option ptr;
  curproc : option ptr;
  procs : gmap ptr proc;          (* live PCBs *)
  names : gmap ptr string;        (* live strings made by kstrdup *)
  locks : gmap ptr bool;          (* live sleep locks; [true] when held *)
  sems : gmap ptr Z;              (* live semaphores and their counts *)
  cvs : gset ptr;                 (* live condition variables *)
  openfiles : gmap ptr openfile;  (* entries of the system file table *)
  kmalloc_oracle : list bool;     (* outcomes of the coming allocations *)
  trace : list event              (* calls made so far, oldest first *)
}.

Abbreviation K := (M kstate).

(** *** Field updates *)

Definition set_p_name (v : option ptr) (p : proc) : proc :=
  {| p_name := v; p_lock := p_lock p; p_numthreads := p_numthreads p;
     p_addrspace := p_addrspace p; p_cwd := p_cwd p; p_pid := p_pid p;
     p_status := p_status p; p_exited := p_exited p;
     parent_proc := parent_proc p; p_sem := p_sem p; p_cv := p_cv p;
     p_cv_lock := p_cv_lock p; ft_lock := ft_lock p;
     fileTable := fileTable p |}.

Definition set_p_lock (v : bool) (p : proc) : proc :=
  {| p_name := p_name p; p_lock := v; p_numthreads := p_numthreads p;
     p_addrspace := p_addrspace p; p_cwd := p_cwd p; p_pid := p_pid p;
     p_status := p_status p; p_exited := p_exited p;
     parent_proc := parent_proc p; p_sem := p_sem p; p_cv := p_cv p;
     p_cv_lock := p_cv_lock p; ft_lock := ft_lock p;
     fileTable := fileTable p |}.

Definition set_p_numthreads (v : Z) (p : proc) : proc :=
  {| p_name := p_name p; p_lock := p_lock p; p_numthreads := v;
     p_addrspace := p_addrspace p; p_cwd := p_cwd p; p_pid := p_pid p;
     p_status := p_status p; p_exited := p_exited p;
     parent_proc := parent_proc p; p_sem := p_sem p; p_cv := p_cv p;
     p_cv_lock := p_cv_lock p; ft_lock := ft_lock p;
     fileTable := fileTable p |}.

Definition set_p_addrspace (v : option ptr) (p : proc) : proc :=
  {| p_name := p_name p; p_lock := p_lock p; p_numthreads := p_numthreads p;
     p_addrspace := v; p_cwd := p_cwd p; p_pid := p_pid p;
     p_status := p_status p; p_exited := p_exited p;
     parent_proc := parent_proc p; p_sem := p_sem p; p_cv := p_cv p;
     p_cv_lock := p_cv_lock p; ft_lock := ft_lock p;
     fileTable := fileTable p |}.

Definition set_p_cwd (v : option ptr) (p : proc) : proc :=
  {| p_name := p_name p; p_lock := p_lock p; p_numthreads := p_numthreads p;
     p_addrspace := p_addrspace p; p_cwd := v; p_pid := p_pid p;
     p_status := p_status p; p_exited := p_exited p;
     parent_proc := parent_proc p; p_sem := p_sem p; p_cv := p_cv p;
     p_cv_lock := p_cv_lock p; ft_lock := ft_lock p;
     fileTable := fileTable p |}.

Definition set_p_pid (v : Z) (p : proc) : proc :=
  {| p_name := p_name p; p_lock := p_lock p; p_numthreads := p_numthreads p;
     p_addrspace := p_addrspace p; p_cwd := p_cwd p; p_pid := v;
     p_status := p_status p; p_exited := p_exited p;
     parent_proc := parent_proc p; p_sem := p_sem p; p_cv := p_cv p;
     p_cv_lock := p_cv_lock p; ft_lock := ft_lock p;
     fileTable := fileTable p |}.

Definition set_p_status (v : Z) (p : proc) : proc :=
  {| p_name := p_name p; p_lock := p_lock p; p_numthreads := p_numthreads p;
     p_addrspace := p_addrspace p; p_cwd := p_cwd p; p_pid := p_pid p;
     p_status := v; p_exited := p_exited p;
     parent_proc := parent_proc p; p_sem := p_sem p; p_cv := p_cv p;
     p_cv_lock := p_cv_lock p; ft_lock := ft_lock p;
     fileTable := fileTable p |}.

Definition set_p_exited (v : Z) (p : proc) : proc :=
  {| p_name := p_name p; p_lock := p_lock p; p_numthreads := p_numthreads p;
     p_addrspace := p_addrspace p; p_cwd := p_cwd p; p_pid := p_pid p;
     p_status := p_status p; p_exited := v;
     parent_proc := parent_proc p; p_sem := p_sem p; p_cv := p_cv p;
     p_cv_lock := p_cv_lock p; ft_lock := ft_lock p;
     fileTable := fileTable p |}.

Definition set_parent_proc (v : option ptr) (p : proc) : proc :=
  {| p_name := p_name p; p_lock := p_lock p; p_numthreads := p_numthreads p;
     p_addrspace := p_addrspace p; p_cwd := p_cwd p; p_pid := p_pid p;
     p_status := p_status p; p_exited := p_exited p;
     parent_proc := v; p_sem := p_sem p; p_cv := p_cv p;
     p_cv_lock := p_cv_lock p; ft_lock := ft_lock p;
     fileTable := fileTable p |}.

Definition set_p_sem (v : option ptr) (p : proc) : proc :=
  {| p_name := p_name p; p_lock := p_lock p; p_numthreads := p_numthreads p;
     p_addrspace := p_addrspace p; p_cwd := p_cwd p; p_pid := p_pid p;
     p_status := p_status p; p_exited := p_exited p;
     parent_proc := parent_proc p; p_sem := v; p_cv := p_cv p;
     p_cv_lock := p_cv_lock p; ft_lock := ft_lock p;
     fileTable := fileTable p |}.

Definition set_p_cv (v : option ptr) (p : proc) : proc :=
  {| p_name := p_name p; p_lock := p_lock p; p_numthreads := p_numthreads p;
     p_addrspace := p_addrspace p; p_cwd := p_cwd p; p_pid := p_pid p;
     p_status := p_status p; p_exited := p_exited p;
     parent_proc := parent_proc p; p_sem := p_sem p; p_cv := v;
     p_cv_lock := p_cv_lock p; ft_lock := ft_lock p;
     fileTable := fileTable p |}.

Definition set_p_cv_lock (v : option ptr) (p : proc) : proc :=
  {| p_name := p_name p; p_lock := p_lock p; p_numthreads := p_numthreads p;
     p_addrspace := p_addrspace p; p_cwd := p_cwd p; p_pid := p_pid p;
     p_status := p_status p; p_exited := p_exited p;
     parent_proc := parent_proc p; p_sem := p_sem p; p_cv := p_cv p;
     p_cv_lock := v; ft_lock := ft_lock p;
     fileTable := fileTable p |}.

Definition set_ft_lock (v : option ptr) (p : proc) : proc :=
  {| p_name := p_name p; p_lock := p_lock p; p_numthreads := p_numthreads p;
     p_addrspace := p_addrspace p; p_cwd := p_cwd p; p_pid := p_pid p;
     p_status := p_status p; p_exited := p_exited p;
     parent_proc := parent_proc p; p_sem := p_sem p; p_cv := p_cv p;
     p_cv_lock := p_cv_lock p; ft_lock := v;
     fileTable := fileTable p |}.

Definition set_fileTable (v : list (option ptr)) (p : proc) : proc :=
  {| p_name := p_name p; p_lock := p_lock p; p_numthreads := p_numthreads p;
     p_addrspace := p_addrspace p; p_cwd := p_cwd p; p_pid := p_pid p;
     p_status := p_status p; p_exited := p_exited p;
     parent_proc := parent_proc p; p_sem := p_sem p; p_cv := p_cv p;
     p_cv_lock := p_cv_lock p; ft_lock := ft_lock p;
     fileTable := v |}.

Definition set_countRef (v : Z) (o : openfile) : openfile :=
  {| vn := vn o; of_mode := of_mode o; of_offset := of_offset o;
     countRef := v; of_lock := of_lock o |}.

Definition with_processTable (v : _processTable) (s : kstate) : kstate :=
  {| processTable := v; ft_copy_lock := ft_copy_lock s; kproc := kproc s;
     curproc := curproc s; procs := procs s; names := names s;
     locks := locks s; sems := sems s; cvs := cvs s;
     openfiles := openfiles s; kmalloc_oracle := kmalloc_oracle s;
     trace := trace s |}.

Definition with_ft_copy_lock (v : option ptr) (s : kstate) : kstate :=
  {| processTable := processTable s; ft_copy_lock := v; kproc := kproc s;
     curproc := curproc s; procs := procs s; names := names s;
     locks := locks s; sems := sems s; cvs := cvs s;
     openfiles := openfiles s; kmalloc_oracle := kmalloc_oracle s;
     trace := trace s |}.

Definition with_kproc (v : option ptr) (s : kstate) : kstate :=
  {| processTable := processTable s; ft_copy_lock := ft_copy_lock s;
     kproc := v; curproc := curproc s; procs := procs s; names := names s;
     locks := locks s; sems := sems s; cvs := cvs s;
     openfiles := openfiles s; kmalloc_oracle := kmalloc_oracle s;
     trace := trace s |}.

Definition with_procs (v : gmap ptr proc) (s : kstate) : kstate :=
  {| processTable := processTable s; ft_copy_lock := ft_copy_lock s;
     kproc := kproc s; curproc := curproc s; procs := v; names := names s;
     locks := locks s; sems := sems s; cvs := cvs s;
     openfiles := openfiles s; kmalloc_oracle := kmalloc_oracle s;
     trace := trace s |}.

Definition with_names (v : gmap ptr string) (s : kstate) : kstate :=
  {| processTable := processTable s; ft_copy_lock := ft_copy_lock s;
     kproc := kproc s; curproc := curproc s; procs := procs s; names := v;
     locks := locks s; sems := sems s; cvs := cvs s;
     openfiles := openfiles s; kmalloc_oracle := kmalloc_oracle s;
     trace := trace s |}.

Definition with_locks (v : gmap ptr bool) (s : kstate) : kstate :=
  {| processTable := processTable s; ft_copy_lock := ft_copy_lock s;
     kproc := kproc s; curproc := curproc s; procs := procs s;
     names := names s; locks := v; sems := sems s; cvs := cvs s;
     openfiles := openfiles s; kmalloc_oracle := kmalloc_oracle s;
     trace := trace s |}.

Definition with_sems (v : gmap ptr Z) (s : kstate) : kstate :=
  {| processTable := processTable s; ft_copy_lock := ft_copy_lock s;
     kproc := kproc s; curproc := curproc s; procs := procs s;
     names := names s; locks := locks s; sems := v; cvs := cvs s;
     openfiles := openfiles s; kmalloc_oracle := kmalloc_oracle s;
     trace := trace s |}.

Definition with_cvs (v : gset ptr) (s : kstate) : kstate :=
  {| processTable := processTable s; ft_copy_lock := ft_copy_lock s;
     kproc := kproc s; curproc := curproc s; procs := procs s;
     names := names s; locks := locks s; sems := sems s; cvs := v;
     openfiles := openfiles s; kmalloc_oracle := kmalloc_oracle s;
     trace := trace s |}.

Definition with_openfiles (v : gmap ptr openfile) (s : kstate) : kstate :=
  {| processTable := processTable s; ft_copy_lock := ft_copy_lock s;
     kproc := kproc s; curproc := curproc s; procs := procs s;
     names := names s; locks := locks s; sems := sems s; cvs := cvs s;
     openfiles := v; kmalloc_oracle := kmalloc_oracle s;
     trace := trace s |}.

Definition with_kmalloc_oracle (v : list bool) (s : kstate) : kstate :=
  {| processTable := processTable s; ft_copy_lock := ft_copy_lock s;
     kproc := kproc s; curproc := curproc s; procs := procs s;
     names := names s; locks := locks s; sems := sems s; cvs := cvs s;
     openfiles := openfiles s; kmalloc_oracle := v;
     trace := trace s |}.

Definition with_trace (v : list event) (s : kstate) : kstate :=
  {| processTable := processTable s; ft_copy_lock := ft_copy_lock s;
     kproc := kproc s; curproc := curproc s; procs := procs s;
     names := names s; locks := locks s; sems := sems s; cvs := cvs s;
     openfiles := openfiles s; kmalloc_oracle := kmalloc_oracle s;
     trace := v |}.

(** ** Primitive operations on the kernel state *)

Definition get_state : K kstate := fun s => Ok (s, s).
Definition modify (f : kstate -> kstate) : K unit := fun s => Ok (tt, f s).

Definition emit (e : event) : K unit :=
  modify (fun s => with_trace (trace s ++ [e]) s).

(** *** Dereferencing *)

(** Reading [*p] for a [struct proc *p]. *)
Definition load_proc (p : ptr) : K proc :=
  fun s =>
    match procs s !! p with
    | Some pr => Ok (pr, s)
    | None => Undefined
    end.

(** An assignment [p->field = v]. *)
Definition update_proc (p : ptr) (f : proc -> proc) : K unit :=
  let* pr := load_proc p in
  modify (fun s => with_procs (<[p := f pr]> (procs s)) s).

Definition load_openfile (h : ptr) : K openfile :=
  fun s =>
    match openfiles s !! h with
    | Some o => Ok (o, s)
    | None => Undefined
    end.

Definition update_openfile (h : ptr) (f : openfile -> openfile) : K unit :=
  let* o := load_openfile h in
  modify (fun s => with_openfiles (<[h := f o]> (openfiles s)) s).

(** [p->fileTable[fd]], as a right value and as a left value. *)
Definition ft_get (p : ptr) (fd : nat) : K (option ptr) :=
  let* pr := load_proc p in
  match fileTable pr !! fd with
  | Some slot => ret slot
  | None => fail_with Undefined
  end.

Definition ft_set (p : ptr) (fd : nat) (v : option ptr) : K unit :=
  let* pr := load_proc p in
  if bool_decide (fd < length (fileTable pr))%nat
  then update_proc p (set_fileTable (<[fd := v]> (fileTable pr)))
  else fail_with Undefined.

(** *** The process table *)

Definition in_table_bounds (i : Z) : bool := (0 <=? i) && (i <=? MAX_PROC).

Definition set_pt_proc (v : gmap Z ptr) (t : _processTable) : _processTable :=
  {| pt_proc := v; last_i := last_i t; is_full := is_full t |}.

Definition set_last_i (v : Z) (t : _processTable) : _processTable :=
  {| pt_proc := pt_proc t; last_i := v; is_full := is_full t |}.

Definition set_is_full (v : bool) (t : _processTable) : _processTable :=
  {| pt_proc := pt_proc t; last_i := last_i t; is_full := v |}.

Definition modify_table (f : _processTable -> _processTable) : K unit :=
  modify (fun s => with_processTable (f (processTable s)) s).

(** [processTable.proc[i]] *)
Definition table_get (i : Z) : K (option ptr) :=
  fun s =>
    if in_table_bounds i
    then Ok (pt_proc (processTable s) !! i, s)
    else Undefined.

(** [processTable.proc[i] = v] *)
Definition table_set (i : Z) (v : option ptr) : K unit :=
  if in_table_bounds i
  then modify_table (fun t =>
         set_pt_proc
           match v with
           | Some p => <[i := p]> (pt_proc t)
           | None => delete i (pt_proc t)
           end t)
  else fail_with Undefined.

(** [spinlock_acquire] and [spinlock_release] on a lock that the running
    thread may take: a sequential run goes straight through them. *)
Definition spinlock_acquire : K unit := ret tt.
Definition spinlock_release : K unit := ret tt.

(** [spinlock_init(&p->p_lock)] and [spinlock_cleanup(&p->p_lock)] *)
Definition spinlock_init (p : ptr) : K unit := update_proc p (set_p_lock true).

Definition spinlock_cleanup (p : ptr) : K unit :=
  update_proc p (set_p_lock false) >> emit (Call_spinlock_cleanup p).

(** *** Allocation *)

(** The addresses in use. *)
Definition allocated (s : kstate) : gset ptr :=
  dom (procs s) ∪ dom (names s) ∪ dom (locks s) ∪ dom (sems s) ∪ cvs s
  ∪ dom (openfiles s).

Definition fresh_addr (s : kstate) : ptr := fresh (allocated s).

(** Whether the next allocation finds memory; an exhausted oracle means
    memory is plentiful. *)
Definition kmalloc_succeeds : K bool :=
  fun s =>
    match kmalloc_oracle s with
    | [] => Ok (true, s)
    | b :: rest => Ok (b, with_kmalloc_oracle rest s)
    end.

(** The contents of a PCB fresh from [kmalloc]: the model fills the
    indeterminate fields with zeroes. *)
Definition raw_proc {cfg : Config} : proc :=
  {| p_name := None; p_lock := false; p_numthreads := 0;
     p_addrspace := None; p_cwd := None; p_pid := 0; p_status := 0;
     p_exited := 0; parent_proc := None; p_sem := None; p_cv := None;
     p_cv_lock := None; ft_lock := None;
     fileTable := replicate OPEN_MAX None |}.

(** [kmalloc(sizeof(struct proc))] *)
Definition kmalloc_proc {cfg : Config} : K (option ptr) :=
  let* ok := kmalloc_succeeds in
  if ok
  then fun s =>
         let a := fresh_addr s in
         Ok (Some a, with_procs (<[a := raw_proc]> (procs s)) s)
  else ret None.

(** [kstrdup(name)] *)
Definition kstrdup (name : string) : K (option ptr) :=
  let* ok := kmalloc_succeeds in
  if ok
  then fun s =>
         let a := fresh_addr s in
         Ok (Some a, with_names (<[a := name]> (names s)) s)
  else ret None.

(** [kfree(proc)] *)
Definition kfree_proc (p : ptr) : K unit :=
  load_proc p >> modify (fun s => with_procs (delete p (procs s)) s).

(** [kfree(proc->p_name)]; freeing [NULL] does nothing. *)
Definition kfree_name (n : option ptr) : K unit :=
  match n with
  | None => ret tt
  | Some a =>
    fun s =>
      match names s !! a with
      | Some _ => Ok (tt, with_names (delete a (names s)) s)
      | None => Undefined
      end
  end.

(** *** Sleep locks, semaphores and condition variables *)

(** Modelled from the spec: the synchronisation primitives are external
    to [proc.c].  Creating one allocates it and gives [NULL] when the
    allocation fails: one answer of the oracle stands for the allocations
    of one creation.  A lock is created free, is taken by [lock_acquire]
    and given back by [lock_release]; taking a lock that is already held
    puts the caller to sleep.  The functions that use a primitive assert
    that it is not [NULL]. *)
Definition lock_create : K (option ptr) :=
  let* ok := kmalloc_succeeds in
  if ok
  then fun s =>
         let a := fresh_addr s in
         Ok (Some a, with_locks (<[a := false]> (locks s)) s)
  else ret None.

Definition lock_acquire (l : option ptr) : K unit :=
  match l with
  | None => fail_with Panic
  | Some a =>
    fun s =>
      match locks s !! a with
      | Some false => Ok (tt, with_locks (<[a := true]> (locks s)) s)
      | Some true => Blocks
      | None => Undefined
      end
  end.

Definition lock_release (l : option ptr) : K unit :=
  match l with
  | None => fail_with Panic
  | Some a =>
    fun s =>
      match locks s !! a with
      | Some true => Ok (tt, with_locks (<[a := false]> (locks s)) s)
      | Some false => Panic
      | None => Undefined
      end
  end.

Definition lock_destroy (l : option ptr) : K unit :=
  match l with
  | None => fail_with Panic
  | Some a =>
    fun s =>
      match locks s !! a with
      | Some false => Ok (tt, with_locks (delete a (locks s)) s)
      | Some true => Panic
      | None => Undefined
      end
  end.

(** Modelled from the spec: a counting semaphore; [P] takes one unit and
    sleeps while there is none, [V] posts one. *)
Definition sem_create (count : Z) : K (option ptr) :=
  let* ok := kmalloc_succeeds in
  if ok
  then fun s =>
         let a := fresh_addr s in
         Ok (Some a, with_sems (<[a := count]> (sems s)) s)
  else ret None.

Definition P (sem : option ptr) : K unit :=
  match sem with
  | None => fail_with Panic
  | Some a =>
    fun s =>
      match sems s !! a with
      | Some c =>
        if 0 <? c
        then Ok (tt, with_sems (<[a := c - 1]> (sems s)) s)
        else Blocks
      | None => Undefined
      end
  end.

Definition V (sem : option ptr) : K unit :=
  match sem with
  | None => fail_with Panic
  | Some a =>
    fun s =>
      match sems s !! a with
      | Some c => Ok (tt, with_sems (<[a := c + 1]> (sems s)) s)
      | None => Undefined
      end
  end.

Definition sem_destroy (sem : option ptr) : K unit :=
  match sem with
  | None => fail_with Panic
  | Some a =>
    fun s =>
      match sems s !! a with
      | Some _ => Ok (tt, with_sems (delete a (sems s)) s)
      | None => Undefined
      end
  end.

(** Modelled from the spec: a condition variable; [cv_wait] sleeps until
    a later [cv_signal], and a signal with no sleeper is lost. *)
Definition cv_create : K (option ptr) :=
  let* ok := kmalloc_succeeds in
  if ok
  then fun s =>
         let a := fresh_addr s in
         Ok (Some a, with_cvs ({[a]} ∪ cvs s) s)
  else ret None.

Definition cv_wait (cv : option ptr) : K unit :=
  match cv with
  | None => fail_with Panic
  | Some a => fun s => if bool_decide (a ∈ cvs s) then Blocks else Undefined
  end.

Definition cv_signal (cv : option ptr) : K unit :=
  match cv with
  | None => fail_with Panic
  | Some a =>
    fun s => if bool_decide (a ∈ cvs s) then Ok (tt, s) else Undefined
  end.

Definition cv_destroy (cv : option ptr) : K unit :=
  match cv with
  | None => fail_with Panic
  | Some a =>
    fun s =>
      if bool_decide (a ∈ cvs s)
      then Ok (tt, with_cvs (cvs s ∖ {[a]}) s)
      else Undefined
  end.

(** *** Vnodes, files and address spaces *)

(** Modelled from the spec: [VOP_INCREF] and [VOP_DECREF] change the
    reference count kept by the vnode layer, [vfs_close] closes a node,
    [as_deactivate] and [as_destroy] belong to the VM system.  The model
    records the calls; a [NULL] vnode or address space is an error. *)
Definition VOP_INCREF (v : option ptr) : K unit :=
  match v with
  | Some a => emit (Call_VOP_INCREF a)
  | None => fail_with Panic
  end.

Definition VOP_DECREF (v : option ptr) : K unit :=
  match v with
  | Some a => emit (Call_VOP_DECREF a)
  | None => fail_with Panic
  end.

Definition vfs_close (h : ptr) (v : ptr) : K unit := emit (Call_vfs_close h v).

Definition as_deactivate : K unit := emit Call_as_deactivate.

Definition as_destroy (a : option ptr) : K unit :=
  match a with
  | Some a => emit (Call_as_destroy a)
  | None => fail_with Undefined
  end.

Definition sft_init : K unit := emit Call_sft_init.

(** Modelled from the spec: [openfileIncrRefCount] is defined with the
    file system calls; it "increments the handle's reference count". *)
Definition openfileIncrRefCount (h : ptr) : K unit :=
  update_openfile h (fun o => set_countRef (countRef o + 1) o).

(** [--x] on an [int]: leaving the range of [int] is undefined. *)
Definition int_pred (x : Z) : K Z :=
  if x =? INT_MIN then fail_with Undefined else ret (x - 1).

(** ** The functions of proc.c *)

Section proc_c.
Context {cfg : Config}.

(** Return the value of [processTable.is_full]. *)
Definition is_proc_table_full : K bool :=
  spinlock_acquire >>
  let* s := get_state in
  let tmp := is_full (processTable s) in
  spinlock_release >>
  ret tmp.

(** One turn of the loop of [proc_rm_parent_link]. *)
Definition proc_rm_parent_link_body (pid : Z) (i : nat) : K unit :=
  let* p := table_get (Z.of_nat i) in
  match p with
  | None => ret tt
  | Some p =>
    let* pr := load_proc p in
    match parent_proc pr with
    | None => ret tt
    | Some parent =>
      let* parent_r := load_proc parent in
      if p_pid parent_r =? pid
      then update_proc p (set_parent_proc None)
      else ret tt
    end
  end.

(** Remove the link to the parent from children processes. *)
Definition proc_rm_parent_link (pid : Z) : K unit :=
  KASSERT (negb ((pid <? PID_MIN) || (pid >? MAX_PROC))) >>
  spinlock_acquire >>
  for_loop 1 (Z.to_nat MAX_PROC) (proc_rm_parent_link_body pid) >>
  spinlock_release.

Definition proc_search_pid (pid : Z) : K (option ptr) :=
  if (pid <? PID_MIN) || (pid >? MAX_PROC)
  then ret None
  else
    spinlock_acquire >>
    let* p := table_get pid in
    spinlock_release >>
    match p with
    | Some a => (let* pr := load_proc a in KASSERT (p_pid pr =? pid))
    | None => ret tt
    end >>
    ret p.

(** [i++; if (i > MAX_PROC) i = 1;] *)
Definition next_index (i : Z) : Z :=
  let i := i + 1 in
  if i >? MAX_PROC then 1 else i.

(** The [while (i != processTable.last_i)] loop of [proc_init_waitpid].
    Every turn probes one slot; [fuel] bounds the number of turns. *)
Fixpoint proc_init_waitpid_scan (fuel : nat) (proc : ptr) (i : Z) : K unit :=
  match fuel with
  | O => fail_with Diverges
  | S fuel' =>
    let* s := get_state in
    if i =? last_i (processTable s)
    then ret tt
    else
      let* slot := table_get i in
      match slot with
      | None =>
        table_set i (Some proc) >>
        modify_table (set_last_i i) >>
        update_proc proc (set_p_pid i)
      | Some _ => proc_init_waitpid_scan fuel' proc (next_index i)
      end
  end.

(** The turns given to the scan: one more than the table has slots in
    use, after which the probes only repeat. *)
Definition scan_fuel : nat := S (Z.to_nat MAX_PROC).

(** Initialize support for pid/waitpid. *)
Definition proc_init_waitpid (proc : ptr) (name : string) : K unit :=
  spinlock_acquire >>
  let* s := get_state in
  let i := last_i (processTable s) + 1 in
  update_proc proc (set_p_pid 0) >>
  let i := if i >? MAX_PROC then 1 else i in
  proc_init_waitpid_scan scan_fuel proc i >>
  let* pr := load_proc proc in
  if p_pid pr =? 0
  then
    modify_table (set_is_full true) >>
    spinlock_release
  else
    spinlock_release >>
    update_proc proc (set_p_status 0) >>
    if USE_SEMAPHORE_FOR_WAITPID
    then
      let* sem := sem_create 0 in
      update_proc proc (set_p_sem sem)
    else
      let* cv := cv_create in
      update_proc proc (set_p_cv cv) >>
      let* l := lock_create in
      update_proc proc (set_p_cv_lock l).

(** Terminate support for pid/waitpid. *)
Definition proc_end_waitpid (proc : ptr) : K unit :=
  spinlock_acquire >>
  let* pr := load_proc proc in
  let i := p_pid pr in
  KASSERT ((0 <? i) && (i <=? MAX_PROC)) >>
  table_set i None >>
  modify_table (set_is_full false) >>
  spinlock_release >>
  if USE_SEMAPHORE_FOR_WAITPID
  then sem_destroy (p_sem pr)
  else
    cv_destroy (p_cv pr) >>
    lock_destroy (p_cv_lock pr).

(** [bzero(proc->fileTable, OPEN_MAX * sizeof(struct openfile * ))] *)
Definition bzero_fileTable (proc : ptr) : K unit :=
  update_proc proc (set_fileTable (replicate OPEN_MAX None)).

(** Create a proc structure. *)
Definition proc_create (name : string) : K (option ptr) :=
  let* p := kmalloc_proc in
  match p with
  | None => ret None
  | Some proc =>
    let* nm := kstrdup name in
    update_proc proc (set_p_name nm) >>
    match nm with
    | None => kfree_proc proc >> ret None
    | Some _ =>
      update_proc proc (set_p_numthreads 0) >>
      spinlock_init proc >>
      update_proc proc (set_p_addrspace None) >>
      update_proc proc (set_p_cwd None) >>
      update_proc proc (set_p_exited 0) >>
      update_proc proc (set_parent_proc None) >>
      let* l := lock_create in
      update_proc proc (set_ft_lock l) >>
      proc_init_waitpid proc name >>
      let* full := is_proc_table_full in
      if full
      then
        let* pr := load_proc proc in
        kfree_name (p_name pr) >>
        spinlock_cleanup proc >>
        lock_destroy (ft_lock pr) >>
        kfree_proc proc >>
        ret None
      else
        bzero_fileTable proc >>
        ret (Some proc)
    end
  end.

(** Change the address space of the current process; return the old
    one. *)
Definition proc_setas (newas : option ptr) : K (option ptr) :=
  let* s := get_state in
  match curproc s with
  | None => fail_with Panic
  | Some proc =>
    spinlock_acquire >>
    let* pr := load_proc proc in
    let oldas := p_addrspace pr in
    update_proc proc (set_p_addrspace newas) >>
    spinlock_release >>
    ret oldas
  end.

(** Fetch the address space of the current process. *)
Definition proc_getas : K (option ptr) :=
  let* s := get_state in
  match curproc s with
  | None => ret None
  | Some proc =>
    spinlock_acquire >>
    let* pr := load_proc proc in
    spinlock_release >>
    ret (p_addrspace pr)
  end.

(** One turn of the file-table loop of [proc_destroy]. *)
Definition proc_destroy_fd (proc : ptr) (fd : nat) : K unit :=
  let* slot := ft_get proc fd in
  match slot with
  | Some h =>
    let* o := load_openfile h in
    lock_acquire (of_lock o) >>
    let* c := int_pred (countRef o) in
    update_openfile h (set_countRef c) >>
    if c =? 0
    then
      match vn o with
      | Some v => vfs_close h v
      | None => ret tt
      end >>
      lock_release (of_lock o) >>
      lock_destroy (of_lock o)
    else lock_release (of_lock o)
  | None => ret tt
  end >>
  ft_set proc fd None.

(** Destroy a proc structure. *)
Definition proc_destroy (proc : option ptr) : K unit :=
  match proc with
  | None => fail_with Panic
  | Some proc =>
    let* s := get_state in
    KASSERT (negb (bool_decide (Some proc = kproc s))) >>
    let* pr := load_proc proc in
    match p_cwd pr with
    | Some cwd =>
      VOP_DECREF (Some cwd) >>
      update_proc proc (set_p_cwd None)
    | None => ret tt
    end >>
    let* pr := load_proc proc in
    match p_addrspace pr with
    | Some _ =>
      let* s := get_state in
      let* a :=
        (if bool_decide (Some proc = curproc s)
         then
           let* a := proc_setas None in
           as_deactivate >>
           ret a
         else
           let* pr := load_proc proc in
           update_proc proc (set_p_addrspace None) >>
           ret (p_addrspace pr)) in
      as_destroy a
    | None => ret tt
    end >>
    let* pr := load_proc proc in
    KASSERT (p_numthreads pr =? 0) >>
    spinlock_cleanup proc >>
    proc_end_waitpid proc >>
    for_loop 0 OPEN_MAX (proc_destroy_fd proc) >>
    let* pr := load_proc proc in
    lock_destroy (ft_lock pr) >>
    kfree_name (p_name pr) >>
    kfree_proc proc
  end.

(** Create the process structure for the kernel. *)
Definition proc_bootstrap : K unit :=
  let* k := proc_create "[kernel]" in
  modify (with_kproc k) >>
  match k with
  | None => fail_with Panic
  | Some _ =>
    modify_table (set_is_full false) >>
    sft_init >>
    let* l := lock_create in
    modify (with_ft_copy_lock l)
  end.

(** Create a fresh proc for use by runprogram. *)
Definition proc_create_runprogram (name : string) : K (option ptr) :=
  let* np := proc_create name in
  match np with
  | None => ret None
  | Some newproc =>
    update_proc newproc (set_p_addrspace None) >>
    let* s := get_state in
    match curproc s with
    | None => fail_with Undefined
    | Some cur =>
      spinlock_acquire >>
      let* cr := load_proc cur in
      match p_cwd cr with
      | Some cwd =>
        VOP_INCREF (Some cwd) >>
        update_proc newproc (set_p_cwd (Some cwd))
      | None => ret tt
      end >>
      spinlock_release >>
      ret (Some newproc)
    end
  end.

(** The rendezvous of [proc_wait]: a semaphore or a condition
    variable. *)
Definition proc_wait (proc : option ptr) : K Z :=
  match proc with
  | None => fail_with Panic
  | Some proc =>
    let* s := get_state in
    KASSERT (negb (bool_decide (Some proc = kproc s))) >>
    let* pr := load_proc proc in
    (if USE_SEMAPHORE_FOR_WAITPID
     then P (p_sem pr)
     else
       lock_acquire (p_cv_lock pr) >>
       cv_wait (p_cv pr) >>
       lock_release (p_cv_lock pr)) >>
    let* pr := load_proc proc in
    let return_status := p_status pr in
    proc_destroy (Some proc) >>
    ret return_status
  end.

Definition proc_signal_end (proc : ptr) : K unit :=
  let* pr := load_proc proc in
  if USE_SEMAPHORE_FOR_WAITPID
  then V (p_sem pr)
  else
    lock_acquire (p_cv_lock pr) >>
    cv_signal (p_cv pr) >>
    lock_release (p_cv_lock pr).

(** One turn of the loop of [proc_file_table_copy]. *)
Definition proc_file_table_copy_fd (psrc pdest : ptr) (fd : nat) : K unit :=
  let* h := ft_get psrc fd in
  ft_set pdest fd h >>
  match h with
  | Some h =>
    let* o := load_openfile h in
    VOP_INCREF (vn o) >>
    openfileIncrRefCount h
  | None => ret tt
  end.

Definition proc_file_table_copy (psrc pdest : ptr) : K unit :=
  let* s := get_state in
  lock_acquire (ft_copy_lock s) >>
  let* ps := load_proc psrc in
  lock_acquire (ft_lock ps) >>
  let* pd := load_proc pdest in
  lock_acquire (ft_lock pd) >>
  for_loop 0 OPEN_MAX (proc_file_table_copy_fd psrc pdest) >>
  let* pd := load_proc pdest in
  lock_release (ft_lock pd) >>
  let* ps := load_proc psrc in
  lock_release (ft_lock ps) >>
  let* s := get_state in
  lock_release (ft_copy_lock s).

End proc_c.

(** The state at power-on: statics are zero. *)
Definition boot_state : kstate :=
  {| processTable := {| pt_proc := ∅; last_i := 0; is_full := false |};
     ft_copy_lock := None; kproc := None; curproc := None;
     procs := ∅; names := ∅; locks := ∅; sems := ∅; cvs := ∅;
     openfiles := ∅; kmalloc_oracle := []; trace := [] |}.

(** ** Threads and their process *)

(** Modelled from the spec: [struct thread] is declared outside proc.c.
    Of a thread this file uses only [t_proc], the back-reference to the
    process it is attached to.  A kernel with threads is a kernel state
    together with the [t_proc] of every thread. *)
Record tstate : Type := {
  kern : kstate;
  t_proc : gmap ptr (option ptr)
}.

Abbreviation T := (M tstate).

Definition with_kern (v : kstate) (ts : tstate) : tstate :=
  {| kern := v; t_proc := t_proc ts |}.

Definition with_t_proc (v : gmap ptr (option ptr)) (ts : tstate) : tstate :=
  {| kern := kern ts; t_proc := v |}.

(** A function of the kernel state, run in a kernel with threads. *)
Definition lift {A : Type} (m : K A) : T A :=
  fun ts =>
    match m (kern ts) with
    | Ok (a, s') => Ok (a, with_kern s' ts)
    | Panic => Panic
    | Undefined => Undefined
    | Diverges => Diverges
    | Blocks => Blocks
    end.

(** [t->t_proc], as a right value and as a left value. *)
Definition load_t_proc (t : ptr) : T (option ptr) :=
  fun ts =>
    match t_proc ts !! t with
    | Some v => Ok (v, ts)
    | None => Undefined
    end.

Definition store_t_proc (t : ptr) (v : option ptr) : T unit :=
  fun ts =>
    match t_proc ts !! t with
    | Some _ => Ok (tt, with_t_proc (<[t := v]> (t_proc ts)) ts)
    | None => Undefined
    end.

(** Modelled from the spec: [splhigh] masks the interrupts of the local
    processor and returns the old level, [splx] sets the level back.  A
    single thread of control sees no effect of either. *)
Definition splhigh : T Z := ret 0.
Definition splx (spl : Z) : T unit := ret tt.

(** Modelled from the spec: proc.h, which declares [p_numthreads], is
    not among the sources.  The counter has a largest value
    [NUMTHREADS_MAX]; what [++] does there depends on its type: an
    unsigned counter wraps to 0, on a signed one the behaviour is
    undefined. *)
Class Counter : Type := {
  NUMTHREADS_MAX : Z;
  numthreads_wraps : bool
}.

(** [x++] on the counter. *)
Definition numthreads_succ {cnt : Counter} (x : Z) : K Z :=
  if x =? NUMTHREADS_MAX
  then if numthreads_wraps then ret 0 else fail_with Undefined
  else ret (x + 1).

(** Add a thread to a process. *)
Definition proc_addthread {cnt : Counter} (proc : ptr) (t : ptr) : T Z :=
  let* tp := load_t_proc t in
  KASSERT (bool_decide (tp = None)) >>
  lift (spinlock_acquire >>
        (let* pr := load_proc proc in
         let* n := numthreads_succ (p_numthreads pr) in
         update_proc proc (set_p_numthreads n)) >>
        spinlock_release) >>
  let* spl := splhigh in
  store_t_proc t (Some proc) >>
  splx spl >>
  ret 0.

(** Remove a thread from its process. *)
Definition proc_remthread (t : ptr) : T unit :=
  let* tp := load_t_proc t in
  match tp with
  | None => fail_with Panic
  | Some proc =>
    lift (spinlock_acquire >>
          (let* pr := load_proc proc in
           KASSERT (0 <? p_numthreads pr) >>
           update_proc proc (set_p_numthreads (p_numthreads pr - 1))) >>
          spinlock_release) >>
    let* spl := splhigh in
    store_t_proc t None >>
    splx spl
  end.

Global Arguments bind : simpl never.
Global Arguments for_loop : simpl never.
Global Arguments proc_init_waitpid_scan : simpl never.
Global Arguments fresh_addr : simpl never.

(** ** Specification vocabulary *)

(** *** The circular scan *)

(** The scan of [proc_init_waitpid] as a function of the table alone:
    the slot it settles on, if any. *)
Fixpoint scan_pure (fuel : nat) (t : gmap Z ptr) (last i : Z)
  : result (option Z) :=
  match fuel with
  | O => Diverges
  | S fuel' =>
    if i =? last then Ok None
    else if in_table_bounds i
    then match t !! i with
         | None => Ok (Some i)
         | Some _ => scan_pure fuel' t last (next_index i)
         end
    else Undefined
  end.

Global Arguments scan_pure : simpl never.

(** Where the scan starts. *)
Definition scan_start (last : Z) : Z :=
  let i := last + 1 in if i >? MAX_PROC then 1 else i.

(** What [proc_init_waitpid] finds in a given table: [Ok (Some j)] when
    it settles on slot [j], [Ok None] when it reports the table full. *)
Definition find_free_pid (t : _processTable) : result (option Z) :=
  scan_pure scan_fuel (pt_proc t) (last_i t) (scan_start (last_i t)).

(** Number of probes from [i] until the scan is back at [last]. *)
Definition probes_left (last i : Z) : Z :=
  if i <=? last then last - i else MAX_PROC - i + last.

(** The slots the scan visits from [i] before it is back at [last]. *)
Definition to_visit (last i k : Z) : Prop :=
  if i <=? last then i <= k < last
  else i <= k <= MAX_PROC \/ 1 <= k < last.

(** The state after a registration that found no slot. *)
Definition registration_failed (p : ptr) (pr : proc) (s : kstate) : kstate :=
  with_processTable (set_is_full true (processTable s))
    (with_procs (<[p := set_p_pid 0 pr]> (procs s)) s).

(** *** The process table *)

(** Every occupied slot of [1 .. MAX_PROC] holds the address of a live
    PCB whose [p_pid] is the index of the slot. *)
Definition table_inv (s : kstate) : Prop :=
  map_Forall
    (fun i p => 1 <= i <= MAX_PROC -> p_pid <$> procs s !! p = Some i)
    (pt_proc (processTable s)).

(** No slot of the table holds [p]. *)
Definition unregistered (s : kstate) (p : ptr) : Prop :=
  map_Forall (fun (_ : Z) q => q <> p) (pt_proc (processTable s)).

(** The values [last_i] takes: [0] before the first registration, when
    slot 1 is still free, and the last slot given out afterwards. *)
Definition last_i_ok (t : _processTable) : Prop :=
  1 <= last_i t <= MAX_PROC \/ (last_i t = 0 /\ pt_proc t !! 1 = None).

(** The rendezvous object of a registered process is there to be
    destroyed. *)
Definition rendezvous_live {cfg : Config} (s : kstate) (pr : proc) : bool :=
  if USE_SEMAPHORE_FOR_WAITPID
  then match p_sem pr with
       | Some a => bool_decide (is_Some (sems s !! a))
       | None => false
       end
  else match p_cv pr, p_cv_lock pr with
       | Some c, Some l =>
         bool_decide (c ∈ cvs s) && bool_decide (locks s !! l = Some false)
       | _, _ => false
       end.

(** Process [p] sits in slot [id] of the table and carries [id]. *)
Definition registered_as (s : kstate) (p : ptr) (id : Z) : Prop :=
  pt_proc (processTable s) !! id = Some p /\
  p_pid <$> procs s !! p = Some id.

(** Calls of the table's operations that leave the registration of [p]
    alone: they neither register nor release [p], and a release is made
    on a process that holds the slot of its own [p_pid]. *)
Inductive table_run {cfg : Config} (p : ptr) : kstate -> kstate -> Prop :=
  | run_done s : table_run p s s
  | run_register s q name s1 s2 :
      q <> p ->
      proc_init_waitpid q name s = Ok (tt, s1) ->
      table_run p s1 s2 ->
      table_run p s s2
  | run_release s q pr s1 s2 :
      q <> p ->
      procs s !! q = Some pr ->
      pt_proc (processTable s) !! p_pid pr = Some q ->
      proc_end_waitpid q s = Ok (tt, s1) ->
      table_run p s1 s2 ->
      table_run p s s2
  | run_rm_parent_link s pid s1 s2 :
      proc_rm_parent_link pid s = Ok (tt, s1) ->
      table_run p s1 s2 ->
      table_run p s s2
  | run_search s pid r s1 s2 :
      proc_search_pid pid s = Ok (r, s1) ->
      table_run p s1 s2 ->
      table_run p s s2
  | run_is_full s b s1 s2 :
      is_proc_table_full s = Ok (b, s1) ->
      table_run p s1 s2 ->
      table_run p s s2.

(** The table and the identifier of every PCB are the same in [s] and
    [s']. *)
Definition same_pids (s s' : kstate) : Prop :=
  processTable s' = processTable s /\
  forall q, p_pid <$> procs s' !! q = p_pid <$> procs s !! q.

(** *** Concrete kernels *)

(** A build of the shell project: pids start at 1 as the spec has it,
    128 descriptors per process, semaphores for waitpid. *)
Definition shell_config : Config :=
  {| PID_MIN := 1; OPEN_MAX := 128; USE_SEMAPHORE_FOR_WAITPID := true |}.

(** The state a computation leaves behind ([s] itself when it does not
    return). *)
Definition run_from {A : Type} (m : K A) (s : kstate) : kstate :=
  match m s with
  | Ok (_, s') => s'
  | _ => s
  end.

Fixpoint create_many {cfg : Config} (n : nat) : K unit :=
  match n with
  | O => ret tt
  | S n' => proc_create "sh" >> create_many n'
  end.

(** After boot and one [proc_create], with a further PCB allocated but
    not yet registered (at address 10). *)
Definition two_procs_and_raw : kstate :=
  run_from
    (proc_bootstrap (cfg := shell_config) >>
     proc_create (cfg := shell_config) "sh" >>
     kmalloc_proc (cfg := shell_config)) boot_state.

(** After boot and 99 calls of [proc_create]: pids 1 to 100 are taken. *)
Definition table_filled : kstate :=
  run_from
    (proc_bootstrap (cfg := shell_config) >>
     create_many (cfg := shell_config) 99) boot_state.

(** Then the process with pid 100, the last one given out, is
    destroyed. *)
Definition last_pid_released : kstate :=
  run_from
    (proc_destroy (cfg := shell_config)
       (pt_proc (processTable table_filled) !! 100)) table_filled.

(** The raw PCB of [two_procs_and_raw] registered (it gets pid 3), and
    then the process of pid 2 released. *)
Definition third_registered : kstate :=
  run_from (proc_init_waitpid (cfg := shell_config) 10 "sh") two_procs_and_raw.

Definition second_released : kstate :=
  run_from (proc_end_waitpid (cfg := shell_config) 6) third_registered.

(** *** Parent links *)

(** Whether the parent back-reference of [pr] points at a PCB whose
    identifier is [pid]. *)
Definition parent_has_pid (m : gmap ptr proc) (pid : Z) (pr : proc) : bool :=
  match parent_proc pr with
  | Some parent =>
    match m !! parent with
    | Some r => p_pid r =? pid
    | None => false
    end
  | None => false
  end.

(** [q] is in one of the slots [1 .. k-1] of the table [t]. *)
Definition in_slots_below (t : gmap Z ptr) (k : Z) (q : ptr) : Prop :=
  map_Exists (fun i x => 1 <= i < k /\ x = q) t.

(** [q] is a registered process. *)
Definition in_table (s : kstate) (q : ptr) : Prop :=
  in_slots_below (pt_proc (processTable s)) (MAX_PROC + 1) q.

(** The PCBs after the loop of [proc_rm_parent_link] has dealt with the
    slots below [k]. *)
Definition sever (t : gmap Z ptr) (m : gmap ptr proc) (pid k : Z)
  : gmap ptr proc :=
  map_imap
    (fun q pr =>
       Some (if bool_decide (in_slots_below t k q) && parent_has_pid m pid pr
             then set_parent_proc None pr
             else pr)) m.

(** The PCB at [p] is live and so is the parent it names, if any. *)
Definition pcb_links_ok (m : gmap ptr proc) (p : ptr) : bool :=
  match m !! p with
  | Some pr =>
    match parent_proc pr with
    | Some parent => bool_decide (is_Some (m !! parent))
    | None => true
    end
  | None => false
  end.

(** No registered process is, or names as its parent, a freed PCB. *)
Definition links_ok (s : kstate) : Prop :=
  map_Forall
    (fun i p => 1 <= i <= MAX_PROC -> pcb_links_ok (procs s) p = true)
    (pt_proc (processTable s)).

(** In [two_procs_and_raw], the process of pid 2 (at address 6) made a
    child of the kernel process (at address 1, pid 1). *)
Definition child_of_kernel : kstate :=
  run_from (update_proc 6 (set_parent_proc (Some 1%positive)))
    two_procs_and_raw.

(** *** File tables and reference counts *)

(** Number of slots of the file table [ft] that hold the handle [h]. *)
Fixpoint refs_in (h : ptr) (ft : list (option ptr)) : nat :=
  match ft with
  | [] => 0
  | x :: ft' => (if bool_decide (x = Some h) then 1 else 0) + refs_in h ft'
  end.

(** Number of slots that hold [h], over the file tables of all PCBs. *)
Definition total_refs (m : gmap ptr proc) (h : ptr) : nat :=
  map_fold (fun _ pr acc => (refs_in h (fileTable pr) + acc)%nat) 0%nat m.

(** The reference count of every open-file handle is the number of
    file-table slots that hold it. *)
Definition refcount_inv (s : kstate) : Prop :=
  map_Forall
    (fun h o => countRef o = Z.of_nat (total_refs (procs s) h))
    (openfiles s).

(** Number of [vfs_close] calls made for handle [h] in a trace. *)
Fixpoint closes (h : ptr) (tr : list event) : nat :=
  match tr with
  | [] => 0
  | Call_vfs_close h' _ :: tr' =>
    (if bool_decide (h' = h) then 1 else 0) + closes h tr'
  | _ :: tr' => closes h tr'
  end.

(** Only the PCBs, the handles, the locks and the trace may differ
    between [s] and [s']. *)
Definition files_frame (s s' : kstate) : Prop :=
  processTable s' = processTable s /\ ft_copy_lock s' = ft_copy_lock s /\
  kproc s' = kproc s /\ curproc s' = curproc s /\ names s' = names s /\
  sems s' = sems s /\ cvs s' = cvs s /\
  kmalloc_oracle s' = kmalloc_oracle s.

(** The lock [l] exists and nobody holds it. *)
Definition lock_free (s : kstate) (l : option ptr) : bool :=
  match l with
  | Some a => bool_decide (locks s !! a = Some false)
  | None => false
  end.

(** A slot is empty, or holds a live handle with a vnode. *)
Definition handle_has_node (s : kstate) (x : option ptr) : bool :=
  match x with
  | None => true
  | Some h =>
    match openfiles s !! h with
    | Some o => bool_decide (is_Some (vn o))
    | None => false
    end
  end.

(** What [proc_file_table_copy] needs to run to its end: two distinct
    live PCBs with full-size file tables, the three locks it takes
    existing, free and distinct, and live handles with a vnode in the
    source. *)
Definition copy_ready {cfg : Config} (s : kstate) (psrc pdest : ptr) : bool :=
  match procs s !! psrc, procs s !! pdest with
  | Some ps, Some pd =>
    negb (bool_decide (psrc = pdest))
    && bool_decide (length (fileTable ps) = OPEN_MAX)
    && bool_decide (length (fileTable pd) = OPEN_MAX)
    && lock_free s (ft_copy_lock s)
    && lock_free s (ft_lock ps)
    && lock_free s (ft_lock pd)
    && bool_decide (NoDup [ft_copy_lock s; ft_lock ps; ft_lock pd])
    && forallb (handle_has_node s) (fileTable ps)
  | _, _ => false
  end.

(** Every slot of a file table is empty. *)
Definition table_empty (ft : list (option ptr)) : Prop :=
  Forall (fun x => x = None) ft.

(** A kernel with three processes, the kernel process (at address 1), A
    (at address 6) and B (at address 10), and one open file: the handle
    at address 100, with its lock at 101 and its vnode at 200, held by
    A in descriptor 3. *)
Definition the_file : openfile :=
  {| vn := Some 200%positive; of_mode := 0; of_offset := 0; countRef := 1;
     of_lock := Some 101%positive |}.

Definition three_procs : kstate :=
  run_from
    (proc_bootstrap (cfg := shell_config) >>
     proc_create (cfg := shell_config) "a" >>
     proc_create (cfg := shell_config) "b") boot_state.

Definition one_file_open : kstate :=
  run_from (ft_set 6 3 (Some 100%positive))
    (with_locks (<[101%positive := false]> (locks three_procs))
       (with_openfiles (<[100%positive := the_file]> (openfiles three_procs))
          three_procs)).

(** *** Destroying a process *)

(** The lock of the handle at [h]. *)
Definition handle_lock (s : kstate) (h : ptr) : option ptr :=
  openfiles s !! h ≫= of_lock.

(** Every handle in the slots [hs] is live, its lock exists and is
    free, and its reference count covers the slots of [hs] that hold
    it. *)
Definition handles_ready (s : kstate) (hs : list (option ptr)) : Prop :=
  forall h, Some h ∈ hs ->
    exists o l, openfiles s !! h = Some o /\ of_lock o = Some l /\
                locks s !! l = Some false /\
                Z.of_nat (refs_in h hs) <= countRef o.

(** Different handles of [hs] have different locks. *)
Definition locks_apart (s : kstate) (hs : list (option ptr)) : Prop :=
  forall h1 h2, Some h1 ∈ hs -> Some h2 ∈ hs ->
    handle_lock s h1 = handle_lock s h2 -> h1 = h2.

(** [l] is not the lock of a handle of [hs]. *)
Definition not_handle_lock (s : kstate) (hs : list (option ptr)) (l : ptr)
  : Prop :=
  forall h, Some h ∈ hs -> handle_lock s h <> Some l.

(** Whether tearing down the slots [hs] closes the node of [h]: the
    slots hold [h], they are all the references there are, and the handle has a
    vnode. *)
Definition closed_by (s : kstate) (hs : list (option ptr)) (h : ptr) : nat :=
  match openfiles s !! h with
  | Some o =>
    if bool_decide (refs_in h hs <> 0%nat) &&
       (countRef o =? Z.of_nat (refs_in h hs)) &&
       bool_decide (is_Some (vn o))
    then 1%nat else 0%nat
  | None => 0%nat
  end.

(** A slot of the file table [ft] is empty, or holds a live handle whose
    lock exists and is free and whose reference count covers the slots
    of [ft] that hold it. *)
Definition handle_ready (s : kstate) (ft : list (option ptr))
    (x : option ptr) : bool :=
  match x with
  | None => true
  | Some h =>
    match openfiles s !! h with
    | Some o =>
      lock_free s (of_lock o) && (Z.of_nat (refs_in h ft) <=? countRef o)
    | None => false
    end
  end.

(** The sleep locks that go away with a PCB: the lock of its file
    table, the lock of its condition variable when it has one, and the
    locks of the handles in its file table. *)
Definition owned_locks {cfg : Config} (s : kstate) (pr : proc)
  : list (option ptr) :=
  ft_lock pr
  :: (if USE_SEMAPHORE_FOR_WAITPID then [] else [p_cv_lock pr])
  ++ (handle_lock s <$> remove_dups (omap id (fileTable pr))).

(** What [proc_destroy] needs to run to its end on the PCB at [p]: the
    preconditions it asserts (not the kernel process, no thread left),
    a registered process with its rendezvous object, and a file table
    of full size whose handles and locks are in order. *)
Definition destroy_ready {cfg : Config} (s : kstate) (p : ptr) : bool :=
  match procs s !! p with
  | None => false
  | Some pr =>
    negb (bool_decide (Some p = kproc s))
    && (p_numthreads pr =? 0)
    && (0 <? p_pid pr) && (p_pid pr <=? MAX_PROC)
    && rendezvous_live s pr
    && bool_decide (length (fileTable pr) = OPEN_MAX)
    && forallb (handle_ready s (fileTable pr)) (fileTable pr)
    && lock_free s (ft_lock pr)
    && bool_decide (NoDup (owned_locks s pr))
    && match p_name pr with
       | Some n => bool_decide (is_Some (names s !! n))
       | None => true
       end
  end.

(** The fields of a PCB that the teardown of [proc_destroy] reads after
    its first steps. *)
Definition same_teardown_fields (pr pr' : proc) : Prop :=
  p_pid pr' = p_pid pr /\ p_numthreads pr' = p_numthreads pr /\
  p_sem pr' = p_sem pr /\ p_cv pr' = p_cv pr /\
  p_cv_lock pr' = p_cv_lock pr /\ ft_lock pr' = ft_lock pr /\
  fileTable pr' = fileTable pr /\ p_name pr' = p_name pr.

(** Between [s] and [s'] only PCBs changed and only calls other than
    [vfs_close] were made. *)
Definition quiet (s s' : kstate) : Prop :=
  files_frame s s' /\ openfiles s' = openfiles s /\ locks s' = locks s /\
  forall h, closes h (trace s') = closes h (trace s).

(** [one_file_open] after A's file table was copied into B's: both hold
    the open file in descriptor 3. *)
Definition file_shared : kstate :=
  run_from (proc_file_table_copy (cfg := shell_config) 6 10) one_file_open.

(** *** Creation *)

(** The next [n] allocations find memory. *)
Definition memory_for (n : nat) (s : kstate) : bool :=
  forallb id (take n (kmalloc_oracle s)).

(** The answer the next allocation gets, and the one the allocation
    after [k] others gets. *)
Definition next_alloc (s : kstate) : bool :=
  default true (head (kmalloc_oracle s)).

Definition alloc_nth (k : nat) (s : kstate) : bool :=
  default true (head (Nat.iter k tail (kmalloc_oracle s))).

(** [proc_create] started in [s] reaches its rollback with [NULL] for
    the lock of the file table: there is memory for the PCB and the
    name and none for the lock, and the scan finds no slot. *)
Definition rollback_without_lock (s : kstate) : Prop :=
  memory_for 2 s = true /\ alloc_nth 2 s = false /\
  find_free_pid (processTable s) = Ok None.

(** The state once one answer of the allocator has been used. *)
Definition consume (s : kstate) : kstate :=
  with_kmalloc_oracle (tail (kmalloc_oracle s)) s.

(** *** Two threads in [proc_file_table_copy] *)

(** The statements of [proc_file_table_copy] one by one, in the order
    of the source: a thread can lose the processor between any two of
    them.  First the statements run under the global lock ... *)
Definition proc_file_table_copy_inner {cfg : Config} (psrc pdest : ptr)
  : list (K unit) :=
  [ (let* ps := load_proc psrc in lock_acquire (ft_lock ps));
    (let* pd := load_proc pdest in lock_acquire (ft_lock pd)) ]
  ++ map (proc_file_table_copy_fd psrc pdest) (seq 0 OPEN_MAX)
  ++ [ (let* pd := load_proc pdest in lock_release (ft_lock pd));
       (let* ps := load_proc psrc in lock_release (ft_lock ps)) ].

(** ... and then the whole function. *)
Definition proc_file_table_copy_stmts {cfg : Config} (psrc pdest : ptr)
  : list (K unit) :=
  [ (let* s := get_state in lock_acquire (ft_copy_lock s)) ]
  ++ proc_file_table_copy_inner psrc pdest
  ++ [ (let* s := get_state in lock_release (ft_copy_lock s)) ].

(** Statements run one after the other by a single thread. *)
Fixpoint run_stmts (l : list (K unit)) : K unit :=
  match l with
  | [] => ret tt
  | m :: l' => m >> run_stmts l'
  end.

(** Two kernel threads over one kernel state, each with the statements
    it has still to run. *)
Record threads : Type := Threads {
  shared : kstate;
  left_thread : list (K unit);
  right_thread : list (K unit)
}.

(** The scheduler gives a turn to a thread whose next statement
    returns.  A thread whose next statement sleeps on a lock gets no
    turn before the state has changed; neither does one whose next
    statement fails. *)
Inductive sched : threads -> threads -> Prop :=
  | sched_left m t1 t2 s s' :
      m s = Ok (tt, s') -> sched (Threads s (m :: t1) t2) (Threads s' t1 t2)
  | sched_right m t1 t2 s s' :
      m s = Ok (tt, s') -> sched (Threads s t1 (m :: t2)) (Threads s' t1 t2).

(** The configurations some schedule leads to from [c0]. *)
Inductive interleaving (c0 : threads) : threads -> Prop :=
  | interleaving_start : interleaving c0 c0
  | interleaving_turn c c' :
      interleaving c0 c -> sched c c' -> interleaving c0 c'.

Definition finished (c : threads) : Prop :=
  left_thread c = [] /\ right_thread c = [].

Definition stmts_left (c : threads) : nat :=
  length (left_thread c) + length (right_thread c).

(** While a copy is between its first and its last statement the global
    lock [g] is held, and the two PCBs carry the file-table locks [a]
    and [b]. *)
Definition copy_in_progress (g a b : ptr) (psrc pdest : ptr) (s : kstate)
  : Prop :=
  ft_copy_lock s = Some g /\ locks s !! g = Some true /\
  ft_lock <$> procs s !! psrc = Some (Some a) /\
  ft_lock <$> procs s !! pdest = Some (Some b).

(** The copy from [X] to [Y] runs first and the copy from [Y] to [X]
    after it: either the second has not started, or the first is over.
    [tX] and [tY] are what the two threads have left, [s0] is the state
    both started from. *)
Definition serial_inv {cfg : Config} (s0 : kstate) (X Y : ptr)
    (s : kstate) (tX tY : list (K unit)) : Prop :=
  (exists k,
     tX = drop k (proc_file_table_copy_stmts X Y) /\
     tY = proc_file_table_copy_stmts Y X /\
     run_stmts (take k (proc_file_table_copy_stmts X Y)) s0 = Ok (tt, s))
  \/
  (exists k sX,
     tX = [] /\
     tY = drop k (proc_file_table_copy_stmts Y X) /\
     run_stmts (proc_file_table_copy_stmts X Y) s0 = Ok (tt, sX) /\
     run_stmts (take k (proc_file_table_copy_stmts Y X)) sX = Ok (tt, s)).

(** *** The current process *)

(** [curproc] belongs to the running thread; it is the scheduler, not
    proc.c, that changes it. *)
Definition with_curproc (v : option ptr) (s : kstate) : kstate :=
  {| processTable := processTable s; ft_copy_lock := ft_copy_lock s;
     kproc := kproc s; curproc := v; procs := procs s; names := names s;
     locks := locks s; sems := sems s; cvs := cvs s;
     openfiles := openfiles s; kmalloc_oracle := kmalloc_oracle s;
     trace := trace s |}.

(** [three_procs] with a thread of the kernel process running. *)
Definition kernel_running : kstate :=
  with_curproc (Some 1%positive) three_procs.

(** The PCB of [proc_create] when it is about to be registered: its name
    is at [n] and [l] is what [lock_create] gave for the lock of its
    file table.  The fields not yet written are those of [raw_proc]. *)
Definition unregistered_pcb {cfg : Config} (n : ptr) (l : option ptr)
  : proc :=
  set_ft_lock l
    (set_parent_proc None
       (set_p_exited 0
          (set_p_cwd None
             (set_p_addrspace None
                (set_p_lock true
                   (set_p_numthreads 0
                      (set_p_name (Some n) raw_proc))))))).

(** The PCB [proc_create] hands out in the semaphore build, with its
    name at [n], the identifier [j], and with what [lock_create] gave
    for the lock of its file table and [sem_create] for its semaphore
    ([NULL] when the creation found no memory).  The fields of the
    condition variable, which this build never writes, are those of
    [raw_proc]. *)
Definition created_pcb {cfg : Config} (n : ptr) (l sm : option ptr) (j : Z)
  : proc :=
  {| p_name := Some n; p_lock := true; p_numthreads := 0;
     p_addrspace := None; p_cwd := None; p_pid := j; p_status := 0;
     p_exited := 0; parent_proc := None; p_sem := sm;
     p_cv := p_cv raw_proc; p_cv_lock := p_cv_lock raw_proc;
     ft_lock := l; fileTable := replicate OPEN_MAX None |}.

(** [three_procs] with memory for one more [kmalloc] and no further. *)
Definition memory_short : kstate :=
  with_kmalloc_oracle [true; false] three_procs.

(** [table_filled], where pids 1 to 100 are all taken, with memory for
    one more PCB and its name and none for the lock created next. *)
Definition lock_short : kstate :=
  with_kmalloc_oracle [true; true; false] table_filled.

(** [kernel_running] with the kernel process in the directory whose
    vnode is at 200. *)
Definition kernel_in_dir : kstate :=
  run_from (update_proc 1 (set_p_cwd (Some 200%positive))) kernel_running.

(** *** [proc_create] in two halves *)

(** [proc_create] up to and including the call of [proc_init_waitpid];
    [None] stands for a [NULL] already returned to the caller. *)
Definition proc_create_register {cfg : Config} (name : string)
  : K (option ptr) :=
  let* p := kmalloc_proc in
  match p with
  | None => ret None
  | Some proc =>
    let* nm := kstrdup name in
    update_proc proc (set_p_name nm) >>
    match nm with
    | None => kfree_proc proc >> ret None
    | Some _ =>
      update_proc proc (set_p_numthreads 0) >>
      spinlock_init proc >>
      update_proc proc (set_p_addrspace None) >>
      update_proc proc (set_p_cwd None) >>
      update_proc proc (set_p_exited 0) >>
      update_proc proc (set_parent_proc None) >>
      let* l := lock_create in
      update_proc proc (set_ft_lock l) >>
      proc_init_waitpid proc name >>
      ret (Some proc)
    end
  end.

(** [proc_create] from the test of [is_proc_table_full] on. *)
Definition proc_create_finish {cfg : Config} (p : option ptr)
  : K (option ptr) :=
  match p with
  | None => ret None
  | Some proc =>
    let* full := is_proc_table_full in
    if full
    then
      let* pr := load_proc proc in
      kfree_name (p_name pr) >>
      spinlock_cleanup proc >>
      lock_destroy (ft_lock pr) >>
      kfree_proc proc >>
      ret None
    else
      bzero_fileTable proc >>
      ret (Some proc)
  end.

(** The full flag is set only when the scan finds nothing. *)
Definition flag_sound (s : kstate) : Prop :=
  is_full (processTable s) = true ->
  find_free_pid (processTable s) = Ok None.

(** The table is in order: occupied slots hold live PCBs carrying the
    index of their slot, [last_i] is a value it can take, and the full
    flag is sound. *)
Definition table_ok (s : kstate) : Prop :=
  table_inv s /\ last_i_ok (processTable s) /\ flag_sound s.

(** Boot and 98 calls of [proc_create]: pids 1 to 99 are taken and slot
    100 is the only free one. *)
Definition one_slot_left : kstate :=
  run_from
    (proc_bootstrap (cfg := shell_config) >>
     create_many (cfg := shell_config) 98) boot_state.

(** What a call of [proc_create] that went from [s] to [s'] and
    returned [r] did to PCBs and slots: nothing when [r] is [NULL];
    otherwise [r] is a new PCB that sits, with its identifier, in a slot
    that was free. *)
Definition create_outcome (s : kstate) (r : option ptr) (s' : kstate)
  : Prop :=
  match r with
  | None =>
    procs s' = procs s /\
    pt_proc (processTable s') = pt_proc (processTable s)
  | Some p =>
    procs s !! p = None /\
    exists id, pt_proc (processTable s) !! id = None /\
               registered_as s' p id
  end.

(** *** Threads *)

(** Number of threads attached to the process [p]. *)
Definition attached (ts : tstate) (p : ptr) : nat :=
  size (filter (fun kv : ptr * option ptr => kv.2 = Some p) (t_proc ts)).

(** The thread count of every live process is the number of threads
    attached to it. *)
Definition threads_counted (ts : tstate) : Prop :=
  forall p pr, procs (kern ts) !! p = Some pr ->
               p_numthreads pr = Z.of_nat (attached ts p).

(** An unsigned 32-bit thread counter, as in stock OS/161. *)
Definition unsigned_counter : Counter :=
  {| NUMTHREADS_MAX := 4294967295; numthreads_wraps := true |}.

(** [three_procs] with one thread, at address 500, not yet attached to
    a process. *)
Definition one_thread : tstate :=
  {| kern := three_procs; t_proc := {[ 500%positive := None ]} |}.

(** The same with the thread attached to process A. *)
Definition thread_attached : tstate :=
  match proc_addthread (cnt := unsigned_counter) 6 500 one_thread with
  | Ok (_, ts) => ts
  | _ => one_thread
  end.

(** *** What a teardown gives back *)

(** The calls by which [proc_destroy] gives up the working directory and
    the address space of the PCB [pr] at [p]: one [VOP_DECREF] for a
    working directory, and for an address space one [as_destroy],
    preceded by [as_deactivate] when [p] is the current process. *)
Definition release_events (s : kstate) (p : ptr) (pr : proc) : list event :=
  match p_cwd pr with
  | Some v => [Call_VOP_DECREF v]
  | None => []
  end ++
  match p_addrspace pr with
  | Some a =>
    (if bool_decide (Some p = curproc s) then [Call_as_deactivate] else [])
    ++ [Call_as_destroy a]
  | None => []
  end.

(** Process A of [three_procs], running, in the directory at 200 and
    with the address space at 300. *)
Definition user_running : kstate :=
  run_from
    (update_proc 6 (set_p_cwd (Some 200%positive)) >>
     update_proc 6 (set_p_addrspace (Some 300%positive)))
    (with_curproc (Some 6%positive) three_procs).

(** * Properties *)

(** ** Running kernel computations *)

Lemma bind_Ok {St A B} (m : M St A) (f : A -> M St B) s a s' :
  m s = Ok (a, s') -> bind m f s = f a s'.
Proof. intros E. unfold bind. now rewrite E. Qed.

Lemma bind_inv {St A B} (m : M St A) (f : A -> M St B) s b s2 :
  bind m f s = Ok (b, s2) ->
  exists a s1, m s = Ok (a, s1) /\ f a s1 = Ok (b, s2).
Proof.
  unfold bind. destruct (m s) as [[a s1]| | | |]; try discriminate. eauto.
Qed.

Lemma bind_assoc {St A B C} (m : M St A) (f : A -> M St B) (g : B -> M St C) s :
  bind (bind m f) g s = bind m (fun a => bind (f a) g) s.
Proof. unfold bind. now destruct (m s) as [[a s1]| | | |]. Qed.

Lemma bind_ext {St A B} (m : M St A) (f g : A -> M St B) s :
  (forall a s', f a s' = g a s') -> bind m f s = bind m g s.
Proof. intros E. unfold bind. destruct (m s) as [[a s1]| | | |]; auto. Qed.

Lemma bind_cong_l {St A B} (m m' : M St A) (f : A -> M St B) s :
  m s = m' s -> bind m f s = bind m' f s.
Proof. intros E. unfold bind. now rewrite E. Qed.

Lemma bind_ret_r {St} (m : M St unit) s : (m >> ret tt) s = m s.
Proof. unfold bind, ret. now destruct (m s) as [[[] s1]| | | |]. Qed.

Lemma load_proc_Ok p pr s :
  procs s !! p = Some pr -> load_proc p s = Ok (pr, s).
Proof. intros E. unfold load_proc. now rewrite E. Qed.

Lemma update_proc_Ok p f pr s :
  procs s !! p = Some pr ->
  update_proc p f s = Ok (tt, with_procs (<[p := f pr]> (procs s)) s).
Proof.
  intros E. unfold update_proc.
  now rewrite (bind_Ok _ _ _ _ _ (load_proc_Ok _ _ _ E)).
Qed.

Lemma table_set_Ok i v s :
  in_table_bounds i = true ->
  table_set i v s =
  Ok (tt, with_processTable
            (set_pt_proc match v with
                         | Some p => <[i := p]> (pt_proc (processTable s))
                         | None => delete i (pt_proc (processTable s))
                         end (processTable s)) s).
Proof. intros E. unfold table_set. now rewrite E. Qed.

Lemma table_get_Ok i s :
  in_table_bounds i = true ->
  table_get i s = Ok (pt_proc (processTable s) !! i, s).
Proof. intros E. unfold table_get. now rewrite E. Qed.

(** *** Allocation *)

Lemma kmalloc_succeeds_eq s :
  kmalloc_succeeds s = Ok (next_alloc s, consume s).
Proof. destruct s as [? ? ? ? ? ? ? ? ? ? [|b o] ?]; reflexivity. Qed.

(** A creation always returns: a new object when the allocation finds
    memory, [NULL] otherwise. *)
Lemma lock_create_eq s :
  lock_create s =
  Ok (if next_alloc s then Some (fresh_addr s) else None,
      with_locks (if next_alloc s then <[fresh_addr s := false]> (locks s)
                  else locks s) (consume s)).
Proof.
  unfold lock_create. rewrite (bind_Ok _ _ _ _ _ (kmalloc_succeeds_eq s)).
  now destruct (next_alloc s).
Qed.

Lemma sem_create_eq c s :
  sem_create c s =
  Ok (if next_alloc s then Some (fresh_addr s) else None,
      with_sems (if next_alloc s then <[fresh_addr s := c]> (sems s)
                 else sems s) (consume s)).
Proof.
  unfold sem_create. rewrite (bind_Ok _ _ _ _ _ (kmalloc_succeeds_eq s)).
  now destruct (next_alloc s).
Qed.

Lemma cv_create_eq s :
  cv_create s =
  Ok (if next_alloc s then Some (fresh_addr s) else None,
      with_cvs (if next_alloc s then {[fresh_addr s]} ∪ cvs s else cvs s)
        (consume s)).
Proof.
  unfold cv_create. rewrite (bind_Ok _ _ _ _ _ (kmalloc_succeeds_eq s)).
  now destruct (next_alloc s).
Qed.

(** One statement of a sequence whose outcome is known. *)
Ltac kprim :=
  first
    [ reflexivity
    | apply load_proc_Ok; cbn; first [eassumption | apply lookup_insert_eq]
    | apply update_proc_Ok; cbn; first [eassumption | apply lookup_insert_eq]
    | apply table_set_Ok;
      first [assumption | unfold in_table_bounds, MAX_PROC in *; lia]
    | apply table_get_Ok;
      first [assumption | unfold in_table_bounds, MAX_PROC in *; lia]
    | apply lock_create_eq
    | apply sem_create_eq
    | apply cv_create_eq ].

Ltac kstep := rewrite ?bind_assoc; erewrite bind_Ok by kprim; cbn beta.

(** The same, with the outcome of the statement proved by [tac]. *)
Tactic Notation "kstep" "by" tactic(tac) :=
  rewrite ?bind_assoc; erewrite bind_Ok by tac; cbn beta iota.

(** ** The circular scan of [proc_init_waitpid] *)

Lemma next_index_range i : 1 <= i <= MAX_PROC -> 1 <= next_index i <= MAX_PROC.
Proof.
  unfold next_index, MAX_PROC. intros.
  destruct (Z.gtb_spec (i + 1) 100); lia.
Qed.

(** A slot the scan settles on is free, is not [last_i], and lies in
    [1 .. MAX_PROC] when the scan starts there. *)
Lemma scan_pure_found fuel t last i j :
  scan_pure fuel t last i = Ok (Some j) ->
  t !! j = None /\ j <> last /\ in_table_bounds j = true /\
  (1 <= i <= MAX_PROC -> 1 <= j <= MAX_PROC).
Proof.
  revert i. induction fuel as [|fuel IH]; intros i; [discriminate|].
  unfold scan_pure; fold scan_pure.
  destruct (Z.eqb_spec i last) as [->|Hne]; [discriminate|].
  destruct (in_table_bounds i) eqn:Hb; [|discriminate].
  destruct (t !! i) eqn:Hi.
  - intros E. destruct (IH _ E) as (?&?&?&Hr).
    split; [done|]. split; [done|]. split; [done|].
    intros Hi'. apply Hr. now apply next_index_range.
  - intros [= <-]. auto.
Qed.

Ltac scan_arith :=
  unfold probes_left, to_visit, next_index, MAX_PROC in *;
  repeat (match goal with
          | |- context [?a >? ?b] => destruct (Z.gtb_spec a b)
          | H : context [?a >? ?b] |- _ => destruct (Z.gtb_spec a b)
          | |- context [?a <=? ?b] => destruct (Z.leb_spec a b)
          | H : context [?a <=? ?b] |- _ => destruct (Z.leb_spec a b)
          end; cbv beta iota in *); lia.

(** With [last_i] in [1 .. MAX_PROC] the scan ends within the fuel it is
    given, and when it reports nothing every slot it visited is taken. *)
Lemma scan_pure_total fuel t last i :
  1 <= last <= MAX_PROC -> 1 <= i <= MAX_PROC ->
  probes_left last i < Z.of_nat fuel ->
  (exists j, scan_pure fuel t last i = Ok (Some j)) \/
  (scan_pure fuel t last i = Ok None /\
   forall k, to_visit last i k -> is_Some (t !! k)).
Proof.
  intros Hl. revert i. induction fuel as [|fuel IH]; intros i Hi Hf.
  - scan_arith.
  - unfold scan_pure; fold scan_pure.
    destruct (Z.eqb_spec i last) as [->|Hne].
    + right. split; [done|]. intros k. unfold to_visit.
      rewrite Z.leb_refl. lia.
    + assert (in_table_bounds i = true) as ->.
      { unfold in_table_bounds, MAX_PROC in *. lia. }
      destruct (t !! i) as [q|] eqn:Hq; [|left; eauto].
      destruct (IH (next_index i)) as [?|[E Hv]].
      * now apply next_index_range.
      * scan_arith.
      * now left.
      * right. split; [done|]. intros k Hk.
        destruct (decide (k = i)) as [->|Hki]; [eauto|].
        apply Hv. scan_arith.
Qed.

Section proc_c_facts.
Context {cfg : Config}.

Lemma scan_unfold fuel p i s :
  proc_init_waitpid_scan fuel p i s =
  match scan_pure fuel (pt_proc (processTable s)) (last_i (processTable s)) i with
  | Ok None => Ok (tt, s)
  | Ok (Some j) =>
    (table_set j (Some p) >> modify_table (set_last_i j) >>
     update_proc p (set_p_pid j)) s
  | Panic => Panic
  | Undefined => Undefined
  | Diverges => Diverges
  | Blocks => Blocks
  end.
Proof.
  revert i. induction fuel as [|fuel IH]; intros i; [reflexivity|].
  unfold proc_init_waitpid_scan; fold proc_init_waitpid_scan.
  unfold scan_pure; fold scan_pure.
  unfold bind at 1. simpl.
  destruct (i =? last_i (processTable s)); [done|].
  unfold bind at 1, table_get.
  destruct (in_table_bounds i); [|done].
  destruct (pt_proc (processTable s) !! i); [apply IH|done].
Qed.

Lemma scan_none fuel p i s :
  scan_pure fuel (pt_proc (processTable s)) (last_i (processTable s)) i
  = Ok None ->
  proc_init_waitpid_scan fuel p i s = Ok (tt, s).
Proof. intros E. now rewrite scan_unfold, E. Qed.

Lemma scan_found fuel p pr i j s :
  scan_pure fuel (pt_proc (processTable s)) (last_i (processTable s)) i
  = Ok (Some j) ->
  procs s !! p = Some pr ->
  proc_init_waitpid_scan fuel p i s =
  Ok (tt, with_procs (<[p := set_p_pid j pr]> (procs s))
            (with_processTable
               (set_last_i j
                  (set_pt_proc (<[j := p]> (pt_proc (processTable s)))
                     (processTable s))) s)).
Proof.
  intros E Hp. rewrite scan_unfold, E.
  destruct (scan_pure_found _ _ _ _ _ E) as (_ & _ & Hb & _).
  do 2 kstep. now rewrite (update_proc_Ok _ _ pr).
Qed.

(** *** Registration *)

Lemma proc_init_waitpid_full p name pr s :
  procs s !! p = Some pr ->
  find_free_pid (processTable s) = Ok None ->
  proc_init_waitpid p name s = Ok (tt, registration_failed p pr s).
Proof.
  intros Hp Hf. unfold proc_init_waitpid.
  do 3 kstep. erewrite bind_Ok by (apply scan_none, Hf). cbn beta.
  kstep. cbn. kstep. reflexivity.
Qed.

Lemma proc_init_waitpid_found p name pr s j :
  procs s !! p = Some pr ->
  find_free_pid (processTable s) = Ok (Some j) -> j <> 0 ->
  exists pr' s',
    proc_init_waitpid p name s = Ok (tt, s') /\
    processTable s' =
      {| pt_proc := <[j := p]> (pt_proc (processTable s)); last_i := j;
         is_full := is_full (processTable s) |} /\
    procs s' = <[p := pr']> (procs s) /\
    p_pid pr' = j /\ p_status pr' = 0 /\
    parent_proc pr' = parent_proc pr /\ fileTable pr' = fileTable pr /\
    p_name pr' = p_name pr /\ ft_lock pr' = ft_lock pr /\
    p_numthreads pr' = p_numthreads pr /\
    p_addrspace pr' = p_addrspace pr /\ p_cwd pr' = p_cwd pr /\
    openfiles s' = openfiles s /\ trace s' = trace s /\
    names s' = names s /\ kproc s' = kproc s /\ curproc s' = curproc s /\
    ft_copy_lock s' = ft_copy_lock s.
Proof.
  intros Hp Hf Hj. unfold proc_init_waitpid.
  do 3 kstep.
  erewrite bind_Ok by (eapply scan_found; [apply Hf|apply lookup_insert_eq]).
  cbn beta. kstep. cbn.
  destruct (Z.eqb_spec j 0); [done|].
  repeat kstep.
  destruct USE_SEMAPHORE_FOR_WAITPID.
  - kstep. erewrite update_proc_Ok by (cbn; apply lookup_insert_eq).
    eexists _, _. split; [reflexivity|]. cbn.
    rewrite !insert_insert_eq. repeat split.
  - do 3 kstep. erewrite update_proc_Ok by (cbn; apply lookup_insert_eq).
    eexists _, _. split; [reflexivity|]. cbn.
    rewrite !insert_insert_eq. repeat split.
Qed.

End proc_c_facts.

(** ** Reading a successful run backwards *)

Lemma ret_inv {St A} (a b : A) (s s' : St) :
  ret a s = Ok (b, s') -> b = a /\ s' = s.
Proof. now intros [= -> ->]. Qed.

Lemma get_state_inv s a s' : get_state s = Ok (a, s') -> a = s /\ s' = s.
Proof. now intros [= -> ->]. Qed.

Lemma modify_inv f s u s' : modify f s = Ok (u, s') -> s' = f s.
Proof. now intros [= <-]. Qed.

Lemma KASSERT_inv {St} b (s : St) u s' :
  KASSERT b s = Ok (u, s') -> b = true /\ s' = s.
Proof. destruct b; [|discriminate]. intros E. injection E as _ E. now subst. Qed.

Lemma load_proc_inv p s pr s' :
  load_proc p s = Ok (pr, s') -> procs s !! p = Some pr /\ s' = s.
Proof.
  unfold load_proc. destruct (procs s !! p); [now intros [= -> ->]|discriminate].
Qed.

Lemma update_proc_inv p f s u s' :
  update_proc p f s = Ok (u, s') ->
  exists pr, procs s !! p = Some pr /\
             s' = with_procs (<[p := f pr]> (procs s)) s.
Proof.
  unfold update_proc. intros E. apply bind_inv in E as (pr & s1 & E1 & E2).
  apply load_proc_inv in E1 as [E1 ->]. apply modify_inv in E2. eauto.
Qed.

Lemma table_get_inv i s r s' :
  table_get i s = Ok (r, s') ->
  in_table_bounds i = true /\ r = pt_proc (processTable s) !! i /\ s' = s.
Proof.
  unfold table_get. destruct (in_table_bounds i); [now intros [= <- <-]|discriminate].
Qed.

Lemma table_set_inv i v s u s' :
  table_set i v s = Ok (u, s') ->
  in_table_bounds i = true /\
  s' = with_processTable
         (set_pt_proc match v with
                      | Some p => <[i := p]> (pt_proc (processTable s))
                      | None => delete i (pt_proc (processTable s))
                      end (processTable s)) s.
Proof.
  unfold table_set. destruct (in_table_bounds i); [now intros [= <-]|discriminate].
Qed.

(** Destroying a synchronisation object touches neither the PCBs nor
    the table. *)
Lemma sem_destroy_inv x s u s' :
  sem_destroy x s = Ok (u, s') ->
  exists a, x = Some a /\ is_Some (sems s !! a) /\
            s' = with_sems (delete a (sems s)) s.
Proof.
  destruct x as [a|]; [|discriminate]. unfold sem_destroy.
  destruct (sems s !! a) eqn:E; [|discriminate]. intros [= <-]. eauto.
Qed.

Lemma cv_destroy_inv x s u s' :
  cv_destroy x s = Ok (u, s') ->
  exists a, x = Some a /\ a ∈ cvs s /\ s' = with_cvs (cvs s ∖ {[a]}) s.
Proof.
  destruct x as [a|]; [|discriminate]. unfold cv_destroy.
  case_bool_decide; [|discriminate]. intros [= <-]. eauto.
Qed.

Lemma lock_destroy_inv x s u s' :
  lock_destroy x s = Ok (u, s') ->
  exists a, x = Some a /\ locks s !! a = Some false /\
            s' = with_locks (delete a (locks s)) s.
Proof.
  destruct x as [a|]; [|discriminate]. unfold lock_destroy.
  destruct (locks s !! a) as [[]|] eqn:E; try discriminate.
  intros [= <-]. eauto.
Qed.

Lemma sem_create_inv c s r s' :
  sem_create c s = Ok (r, s') ->
  r = (if next_alloc s then Some (fresh_addr s) else None) /\
  s' = with_sems (if next_alloc s then <[fresh_addr s := c]> (sems s)
                  else sems s) (consume s).
Proof. rewrite sem_create_eq. now intros [= <- <-]. Qed.

Lemma cv_create_inv s r s' :
  cv_create s = Ok (r, s') ->
  r = (if next_alloc s then Some (fresh_addr s) else None) /\
  s' = with_cvs (if next_alloc s then {[fresh_addr s]} ∪ cvs s else cvs s)
         (consume s).
Proof. rewrite cv_create_eq. now intros [= <- <-]. Qed.

Lemma lock_create_inv s r s' :
  lock_create s = Ok (r, s') ->
  r = (if next_alloc s then Some (fresh_addr s) else None) /\
  s' = with_locks (if next_alloc s then <[fresh_addr s := false]> (locks s)
                   else locks s) (consume s).
Proof. rewrite lock_create_eq. now intros [= <- <-]. Qed.

(** Projections of updated records. *)
Ltac ksimpl_in_all :=
  cbn [processTable ft_copy_lock kproc curproc procs names locks sems cvs
       openfiles kmalloc_oracle trace
       with_processTable with_ft_copy_lock with_kproc with_procs with_names
       with_locks with_sems with_cvs with_openfiles with_kmalloc_oracle
       with_trace pt_proc last_i is_full set_pt_proc set_last_i set_is_full
       consume]
    in *.

(** Splits the hypothesis [H], a run that returned, statement by
    statement. *)
Ltac kinv1 E :=
  first
    [ apply ret_inv in E as [? ?]
    | apply get_state_inv in E as [? ?]
    | apply modify_inv in E
    | apply KASSERT_inv in E as [E ?]
    | apply load_proc_inv in E as [E ?]
    | apply update_proc_inv in E as (? & E & ?)
    | apply table_get_inv in E as (E & ? & ?)
    | apply table_set_inv in E as (E & ?)
    | apply sem_create_inv in E as [? ?]
    | apply cv_create_inv in E as [? ?]
    | apply lock_create_inv in E as [? ?]
    | apply sem_destroy_inv in E as (? & ? & ? & ?)
    | apply cv_destroy_inv in E as (? & ? & ? & ?)
    | apply lock_destroy_inv in E as (? & ? & E & ?)
    | idtac ];
  subst; ksimpl_in_all.

Ltac kinv H :=
  repeat
    (let a := fresh "a" in
     let s1 := fresh "s" in
     let E := fresh "E" in
     apply bind_inv in H as (a & s1 & E & H); cbn beta in H;
     kinv1 E);
  kinv1 H.

(** The same, going into the branches of conditionals. *)
Ltac kinv_cases H :=
  kinv H;
  try match type of H with
      | (match ?x with _ => _ end) _ = Ok _ =>
        destruct x eqn:?; kinv_cases H
      | (if ?b then _ else _) _ = Ok _ =>
        destruct b eqn:?; kinv_cases H
      end.

Section inv_facts.
Context {cfg : Config}.

Lemma proc_end_waitpid_inv p s s' :
  proc_end_waitpid p s = Ok (tt, s') ->
  exists pr,
    procs s !! p = Some pr /\ 0 < p_pid pr <= MAX_PROC /\
    processTable s' =
      {| pt_proc := delete (p_pid pr) (pt_proc (processTable s));
         last_i := last_i (processTable s); is_full := false |} /\
    procs s' = procs s /\ openfiles s' = openfiles s /\
    trace s' = trace s /\ names s' = names s /\ kproc s' = kproc s /\
    curproc s' = curproc s /\ ft_copy_lock s' = ft_copy_lock s /\
    kmalloc_oracle s' = kmalloc_oracle s /\
    forall l, (USE_SEMAPHORE_FOR_WAITPID = false -> p_cv_lock pr <> Some l) ->
              locks s' !! l = locks s !! l.
Proof.
  unfold proc_end_waitpid. intros E. kinv E.
  exists a. split; [done|]. split; [lia|].
  destruct USE_SEMAPHORE_FOR_WAITPID; kinv E; cbn; repeat split; try done.
  intros l Hl. rewrite lookup_delete_ne; [done|].
  intros ->. now apply Hl.
Qed.

Lemma proc_end_waitpid_Ok p pr s :
  procs s !! p = Some pr -> 0 < p_pid pr <= MAX_PROC ->
  rendezvous_live s pr = true ->
  exists s', proc_end_waitpid p s = Ok (tt, s').
Proof.
  intros Hp Hr Hl. unfold proc_end_waitpid. do 2 kstep.
  assert ((0 <? p_pid pr) && (p_pid pr <=? MAX_PROC) = true) as Hb by lia.
  rewrite Hb. do 4 kstep. unfold rendezvous_live in Hl.
  destruct USE_SEMAPHORE_FOR_WAITPID.
  - destruct (p_sem pr) as [a|]; [|done].
    apply bool_decide_eq_true_1 in Hl as [c Hc]. unfold sem_destroy.
    cbn. rewrite Hc. eauto.
  - destruct (p_cv pr) as [c|]; [|done].
    destruct (p_cv_lock pr) as [l|]; [|done].
    apply andb_prop in Hl as [Hc Hl].
    apply bool_decide_eq_true_1 in Hl.
    unfold bind, cv_destroy, lock_destroy. cbn. rewrite Hc. cbn.
    rewrite Hl. eauto.
Qed.

(** *** Lookup *)

Lemma proc_search_pid_out_of_range pid s :
  (pid <? PID_MIN) || (pid >? MAX_PROC) = true ->
  proc_search_pid pid s = Ok (None, s).
Proof. intros E. unfold proc_search_pid. now rewrite E. Qed.

Lemma proc_search_pid_inv pid s r s' :
  proc_search_pid pid s = Ok (r, s') ->
  s' = s /\
  forall p, r = Some p ->
    pt_proc (processTable s) !! pid = Some p /\
    p_pid <$> procs s !! p = Some pid.
Proof.
  unfold proc_search_pid.
  destruct ((pid <? PID_MIN) || (pid >? MAX_PROC)).
  - intros E. apply ret_inv in E as [-> ->]. split; [done|discriminate].
  - intros E. kinv E.
    destruct (pt_proc (processTable s) !! pid) as [q|] eqn:Hq.
    + kinv E1. split; [done|].
      intros p [= <-]. split; [done|]. rewrite E. cbn. f_equal. lia.
    + kinv E1. split; [done|discriminate].
Qed.

Lemma proc_search_pid_registered pid p s :
  PID_MIN <= pid <= MAX_PROC -> 0 <= pid ->
  registered_as s p pid ->
  proc_search_pid pid s = Ok (Some p, s).
Proof.
  intros Hr H0 [Hslot Hpid]. unfold proc_search_pid.
  assert ((pid <? PID_MIN) || (pid >? MAX_PROC) = false) as -> by lia.
  assert (in_table_bounds pid = true) as Hb.
  { unfold in_table_bounds. lia. }
  do 3 kstep. rewrite Hslot.
  destruct (procs s !! p) as [pr|] eqn:Hp; [|discriminate].
  injection Hpid as Hpid. kstep.
  assert ((p_pid pr =? pid) = true) as -> by lia. reflexivity.
Qed.

Lemma proc_search_pid_empty pid s :
  PID_MIN <= pid <= MAX_PROC -> 0 <= pid ->
  pt_proc (processTable s) !! pid = None ->
  proc_search_pid pid s = Ok (None, s).
Proof.
  intros Hr H0 Hslot. unfold proc_search_pid.
  assert ((pid <? PID_MIN) || (pid >? MAX_PROC) = false) as -> by lia.
  assert (in_table_bounds pid = true) as Hb.
  { unfold in_table_bounds. lia. }
  do 3 kstep. rewrite Hslot. now kstep.
Qed.

(** *** What registration leaves alone *)

Lemma proc_init_waitpid_frame q name s s' :
  proc_init_waitpid q name s = Ok (tt, s') ->
  is_Some (procs s !! q) /\
  (forall q', q' <> q -> procs s' !! q' = procs s !! q') /\
  (forall i x, pt_proc (processTable s) !! i = Some x ->
               pt_proc (processTable s') !! i = Some x).
Proof.
  unfold proc_init_waitpid. intros E. kinv E.
  split; [eauto|].
  assert ((forall q', q' <> q -> procs s0 !! q' = procs s !! q') /\
          (forall i x0, pt_proc (processTable s) !! i = Some x0 ->
                        pt_proc (processTable s0) !! i = Some x0))
    as [Hp0 Ht0].
  { rewrite scan_unfold in E1. cbn in E1.
    match type of E1 with
    | match ?sc with _ => _ end = _ =>
      destruct sc as [[j|]| | | |] eqn:Hscan; try discriminate
    end.
    - destruct (scan_pure_found _ _ _ _ _ Hscan) as (Hfree & _).
      kinv E1. cbn. split.
      + intros q' Hq'. now rewrite !lookup_insert_ne by congruence.
      + intros i x0 Hi. rewrite lookup_insert_ne; [done|].
        intros Hji. rewrite Hji in Hfree. congruence.
    - injection E1 as _ <-. cbn. split; [|auto].
      intros q' Hq'. now rewrite lookup_insert_ne by congruence. }
  destruct (p_pid a1 =? 0).
  - kinv E. cbn. now split.
  - kinv E. destruct USE_SEMAPHORE_FOR_WAITPID; kinv E; cbn;
      (split; [|done]); intros q' Hq';
      rewrite ?lookup_insert_ne by congruence; auto.
Qed.

End inv_facts.

(** ** Loops *)

Lemma for_loop_unfold {St} lo n (body : nat -> M St unit) :
  for_loop lo (S n) body = (body lo >> for_loop (S lo) n body).
Proof. reflexivity. Qed.

(** A property kept by every turn is kept by the loop. *)
Lemma for_loop_preserves {St} (R : St -> Prop) (body : nat -> M St unit) :
  (forall i s u s', body i s = Ok (u, s') -> R s -> R s') ->
  forall n lo s u s', for_loop lo n body s = Ok (u, s') -> R s -> R s'.
Proof.
  intros Hbody. induction n as [|n IH]; intros lo s u s' E HR.
  - apply ret_inv in E as [_ ->]. exact HR.
  - rewrite for_loop_unfold in E.
    apply bind_inv in E as (u1 & s1 & E1 & E2). eauto.
Qed.

Section table_facts.
Context {cfg : Config}.

(** *** What severing parent links leaves alone *)

Lemma proc_rm_parent_link_body_frame pid i s u s' :
  proc_rm_parent_link_body pid i s = Ok (u, s') -> same_pids s s'.
Proof.
  unfold proc_rm_parent_link_body. intros E. kinv_cases E; try (now split).
  split; [done|]. intros q. cbn.
  destruct (decide (q = p)) as [->|Hne].
  - rewrite lookup_insert_eq.
    match goal with E : procs s !! p = Some _ |- _ => now rewrite E end.
  - now rewrite lookup_insert_ne by congruence.
Qed.

Lemma proc_rm_parent_link_frame pid s s' :
  proc_rm_parent_link pid s = Ok (tt, s') -> same_pids s s'.
Proof.
  unfold proc_rm_parent_link. intros E. kinv E.
  refine (for_loop_preserves (fun t => same_pids s t) _ _ _ _ _ _ _ E1 _).
  - intros i t u t' Eb [Ht Hp].
    apply proc_rm_parent_link_body_frame in Eb as [Ht' Hp'].
    split; [congruence|]. intros q. now rewrite Hp', Hp.
  - now split.
Qed.

(** *** A registration stays visible *)

Lemma table_run_registered p id s s' :
  table_run p s s' -> registered_as s p id -> registered_as s' p id.
Proof.
  induction 1 as [s|s q name s1 s2 Hq E _ IH|s q pr s1 s2 Hq Hpr Hslot E _ IH
                 |s pid s1 s2 E _ IH|s pid r s1 s2 E _ IH|s b s1 s2 E _ IH];
    intros [Ht Hp]; [done|apply IH..].
  - apply proc_init_waitpid_frame in E as (_ & Hprocs & Htab).
    split; [auto|]. now rewrite Hprocs by congruence.
  - apply proc_end_waitpid_inv in E
      as (pr' & Hpr' & _ & Htab & Hprocs & _).
    assert (pr' = pr) as -> by congruence.
    split; [|now rewrite Hprocs].
    rewrite Htab. cbn. rewrite lookup_delete_ne; [done|].
    intros Heq. rewrite Heq in Hslot. congruence.
  - apply proc_rm_parent_link_frame in E as [Htab Hprocs].
    split; [now rewrite Htab|now rewrite Hprocs].
  - apply proc_search_pid_inv in E as [-> _]. now split.
  - unfold is_proc_table_full in E. kinv E. now split.
Qed.

(** *** What the scan finds *)

Lemma scan_start_range last :
  0 <= last <= MAX_PROC -> 1 <= scan_start last <= MAX_PROC.
Proof.
  unfold scan_start, MAX_PROC. intros.
  destruct (Z.gtb_spec (last + 1) 100); lia.
Qed.

(** In the states the table goes through, the scan returns; it either
    settles on a free slot of [1 .. MAX_PROC], or every slot other than
    [last_i] is taken. *)
Lemma find_free_pid_total t :
  last_i_ok t ->
  (exists j, find_free_pid t = Ok (Some j) /\ 1 <= j <= MAX_PROC /\
             pt_proc t !! j = None /\ j <> last_i t) \/
  (find_free_pid t = Ok None /\
   forall k, 1 <= k <= MAX_PROC -> k <> last_i t -> is_Some (pt_proc t !! k)).
Proof.
  intros [Hl|[Hl H1]]; unfold find_free_pid.
  - destruct (scan_pure_total scan_fuel (pt_proc t) (last_i t)
                (scan_start (last_i t))) as [[j Hj]|[Hn Hv]].
    + done.
    + apply scan_start_range. lia.
    + change (Z.of_nat scan_fuel) with 101. unfold scan_start. scan_arith.
    + left. exists j. split; [done|].
      destruct (scan_pure_found _ _ _ _ _ Hj) as (Hfree & Hne & _ & Hr).
      split; [|done]. apply Hr, scan_start_range. lia.
    + right. split; [done|]. intros k Hk Hne. apply Hv.
      unfold scan_start. scan_arith.
  - left. exists 1. rewrite Hl. unfold scan_start, scan_fuel.
    change (0 + 1 >? MAX_PROC) with false. cbv iota.
    change (0 + 1) with 1.
    unfold scan_pure. change (1 =? 0) with false.
    change (in_table_bounds 1) with true. cbv iota. rewrite H1.
    split; [reflexivity|]. unfold MAX_PROC. repeat split; try lia; done.
Qed.

(** The slot [last_i] itself is never probed: with every other slot
    taken the scan reports a full table, whether or not slot [last_i]
    is free. *)
Lemma find_free_pid_skips_last t :
  1 <= last_i t <= MAX_PROC ->
  (forall k, 1 <= k <= MAX_PROC -> k <> last_i t -> is_Some (pt_proc t !! k)) ->
  find_free_pid t = Ok None.
Proof.
  intros Hl Hocc.
  destruct (find_free_pid_total t) as [(j & _ & Hj & Hfree & Hne)|[E _]];
    [now left| |done].
  destruct (Hocc j Hj Hne) as [x Hx]. congruence.
Qed.

Lemma proc_init_waitpid_returns p name s s' :
  proc_init_waitpid p name s = Ok (tt, s') ->
  exists r, find_free_pid (processTable s) = Ok r.
Proof.
  unfold proc_init_waitpid. intros E. kinv E.
  match goal with
  | E1 : proc_init_waitpid_scan _ _ _ _ = _ |- _ =>
    rewrite scan_unfold in E1; cbn in E1; unfold find_free_pid, scan_start;
    destruct (scan_pure _ _ _ _); try discriminate; eauto
  end.
Qed.

Lemma proc_init_waitpid_assigned p name s s' id :
  proc_init_waitpid p name s = Ok (tt, s') ->
  p_pid <$> procs s' !! p = Some id -> id <> 0 ->
  registered_as s' p id /\ 1 <= id <= MAX_PROC /\
  pt_proc (processTable s) !! id = None.
Proof.
  intros E Hid Hne.
  assert (is_Some (procs s !! p)) as [pr Hp].
  { now apply proc_init_waitpid_frame in E. }
  destruct (proc_init_waitpid_returns _ _ _ _ E) as [[j|] Hf].
  - destruct (decide (j = 0)) as [->|Hj].
    + exfalso. revert E. unfold proc_init_waitpid. do 3 kstep.
      erewrite bind_Ok
        by (eapply scan_found; [apply Hf|apply lookup_insert_eq]).
      cbn beta. kstep. cbn. kstep. intros [= <-]. cbn in Hid.
      rewrite !lookup_insert_eq in Hid. cbn in Hid. congruence.
    + destruct (proc_init_waitpid_found p name pr s j Hp Hf Hj)
        as (pr' & s1 & E1 & Ht & Hpr & Hpid & _).
      assert (s1 = s') as -> by congruence.
      rewrite Hpr, lookup_insert_eq in Hid. cbn in Hid.
      assert (id = j) as -> by congruence.
      destruct (scan_pure_found _ _ _ _ _ Hf) as (Hfree & _ & Hb & _).
      split; [|split; [|done]].
      * split; [rewrite Ht; cbn; apply lookup_insert_eq|].
        rewrite Hpr, lookup_insert_eq. cbn. congruence.
      * unfold in_table_bounds, MAX_PROC in *. lia.
  - rewrite (proc_init_waitpid_full p name pr s Hp Hf) in E.
    injection E as <-. cbn in Hid. rewrite lookup_insert_eq in Hid.
    cbn in Hid. congruence.
Qed.

End table_facts.

(** ** The process table: claims *)

Section table_claims.
Context {cfg : Config}.

Lemma table_inv_lookup s i p :
  table_inv s -> 1 <= i <= MAX_PROC ->
  pt_proc (processTable s) !! i = Some p ->
  p_pid <$> procs s !! p = Some i.
Proof. intros Hinv Hi Hp. exact (Hinv i p Hp Hi). Qed.

Lemma proc_init_waitpid_keeps_inv p pr name s :
  table_inv s -> procs s !! p = Some pr -> unregistered s p ->
  last_i_ok (processTable s) ->
  exists s', proc_init_waitpid p name s = Ok (tt, s') /\ table_inv s'.
Proof.
  intros Hinv Hp Hun Hl.
  destruct (find_free_pid_total _ Hl) as [(j & Hf & Hj & Hfree & _)|[Hf _]].
  - destruct (proc_init_waitpid_found p name pr s j Hp Hf)
      as (pr' & s' & E & Ht & Hpr & Hpid & _); [lia|].
    exists s'. split; [done|]. intros i q Hq Hi.
    rewrite Ht in Hq. cbn in Hq. rewrite Hpr.
    destruct (decide (i = j)) as [->|Hne].
    + rewrite lookup_insert_eq in Hq. injection Hq as <-.
      rewrite lookup_insert_eq. cbn. congruence.
    + rewrite lookup_insert_ne in Hq by congruence.
      rewrite lookup_insert_ne by (intros Heq; exact (Hun i q Hq (eq_sym Heq))).
      exact (Hinv i q Hq Hi).
  - exists (registration_failed p pr s).
    split; [now apply proc_init_waitpid_full|].
    intros i q Hq Hi. cbn in *.
    rewrite lookup_insert_ne by (intros Heq; exact (Hun i q Hq (eq_sym Heq))).
    exact (Hinv i q Hq Hi).
Qed.

Lemma proc_end_waitpid_keeps_inv p s s' :
  table_inv s -> proc_end_waitpid p s = Ok (tt, s') -> table_inv s'.
Proof.
  intros Hinv E.
  apply proc_end_waitpid_inv in E as (pr & _ & _ & Ht & Hpr & _).
  intros i q Hq Hi. rewrite Ht in Hq. cbn in Hq. rewrite Hpr.
  apply lookup_delete_Some in Hq as [_ Hq]. exact (Hinv i q Hq Hi).
Qed.

(** C9: in every state where each occupied slot [i] of the table holds
    a PCB whose [p_pid] is [i], (1) registering an unregistered PCB
    returns, keeps that property, and puts the PCB in the slot of the
    identifier it was given; (2) a release returns and keeps the
    property; (3) looking up an occupied slot returns the process in
    it, whose identifier is the one looked up. *)
Theorem process_table_pid_invariant (s : kstate) :
  table_inv s ->
  (forall p pr name,
     procs s !! p = Some pr -> unregistered s p ->
     last_i_ok (processTable s) ->
     exists s',
       proc_init_waitpid p name s = Ok (tt, s') /\ table_inv s' /\
       forall id, p_pid <$> procs s' !! p = Some id -> id <> 0 ->
                  1 <= id <= MAX_PROC /\ registered_as s' p id) /\
  (forall p pr,
     procs s !! p = Some pr -> 0 < p_pid pr <= MAX_PROC ->
     rendezvous_live s pr = true ->
     exists s', proc_end_waitpid p s = Ok (tt, s') /\ table_inv s') /\
  (forall pid p,
     1 <= pid <= MAX_PROC -> PID_MIN <= pid ->
     pt_proc (processTable s) !! pid = Some p ->
     proc_search_pid pid s = Ok (Some p, s) /\
     p_pid <$> procs s !! p = Some pid).
Proof.
  intros Hinv. split; [|split].
  - intros p pr name Hp Hun Hl.
    destruct (proc_init_waitpid_keeps_inv p pr name s Hinv Hp Hun Hl)
      as (s' & E & Hinv').
    exists s'. split; [done|]. split; [done|]. intros id Hid Hne.
    destruct (proc_init_waitpid_assigned _ _ _ _ _ E Hid Hne) as (? & ? & _).
    now split.
  - intros p pr Hp Hr Hl.
    destruct (proc_end_waitpid_Ok p pr s Hp Hr Hl) as [s' E].
    exists s'. split; [done|]. eapply proc_end_waitpid_keeps_inv; eauto.
  - intros pid p Hpid Hmin Hslot.
    pose proof (table_inv_lookup s pid p Hinv Hpid Hslot) as Hp.
    split; [|done]. apply proc_search_pid_registered; [lia|lia|now split].
Qed.

(** C5: (1) with [PID_MIN] at least 1, looking up an identifier outside
    [1 .. MAX_PROC] returns [NULL] without touching the state or failing
    an assertion; (2) after a registration gave [p] the identifier
    [id], and whatever table operations follow that neither release nor
    register [p] again, [id] lies in [1 .. MAX_PROC] and looking it up
    returns [p] (provided [PID_MIN <= id]: all of [1 .. MAX_PROC] when
    [PID_MIN] is 1). *)
Theorem proc_search_pid_lookup :
  (forall pid s,
     1 <= PID_MIN -> ~ 1 <= pid <= MAX_PROC ->
     proc_search_pid pid s = Ok (None, s)) /\
  (forall p name s0 s1 s2 id,
     proc_init_waitpid p name s0 = Ok (tt, s1) ->
     p_pid <$> procs s1 !! p = Some id -> id <> 0 ->
     table_run p s1 s2 ->
     PID_MIN <= id ->
     1 <= id <= MAX_PROC /\ proc_search_pid id s2 = Ok (Some p, s2)).
Proof.
  split.
  - intros pid s Hmin Hout. apply proc_search_pid_out_of_range. lia.
  - intros p name s0 s1 s2 id E Hid Hne Hrun Hmin.
    destruct (proc_init_waitpid_assigned _ _ _ _ _ E Hid Hne)
      as (Hreg & Hr & _).
    split; [done|].
    apply proc_search_pid_registered; [lia|lia|].
    eapply table_run_registered; eauto.
Qed.

(** After a release the table is no longer reported full. *)
Lemma release_clears_full p s s' :
  proc_end_waitpid p s = Ok (tt, s') ->
  is_proc_table_full s' = Ok (false, s').
Proof.
  intros E. apply proc_end_waitpid_inv in E as (pr & _ & _ & Ht & _).
  unfold is_proc_table_full. do 2 kstep. rewrite Ht. now kstep.
Qed.

(** A free slot other than [last_i] is enough for a registration to
    succeed with a free identifier of [1 .. MAX_PROC]. *)
Lemma allocate_finds_other_slot p pr name s k :
  procs s !! p = Some pr -> last_i_ok (processTable s) ->
  1 <= k <= MAX_PROC -> k <> last_i (processTable s) ->
  pt_proc (processTable s) !! k = None ->
  exists s' id,
    proc_init_waitpid p name s = Ok (tt, s') /\
    1 <= id <= MAX_PROC /\ pt_proc (processTable s) !! id = None /\
    registered_as s' p id /\ is_full (processTable s') = is_full (processTable s).
Proof.
  intros Hp Hl Hk Hne Hfree.
  destruct (find_free_pid_total _ Hl) as [(j & Hf & Hj & Hjfree & _)|[_ Hocc]].
  - destruct (proc_init_waitpid_found p name pr s j Hp Hf)
      as (pr' & s' & E & Ht & Hpr & Hpid & _); [lia|].
    exists s', j. split; [done|]. split; [done|]. split; [done|].
    split; [|now rewrite Ht].
    split; [rewrite Ht; apply lookup_insert_eq|].
    rewrite Hpr, lookup_insert_eq. cbn. congruence.
  - destruct (Hocc k Hk Hne) as [x Hx]. congruence.
Qed.

End table_claims.

(** An instance of C9, on a kernel with two processes and a third PCB that
    is allocated but not registered. *)
Lemma process_table_pid_invariant_witness :
  table_inv two_procs_and_raw /\
  (exists s', proc_init_waitpid (cfg := shell_config) 10 "sh" two_procs_and_raw
              = Ok (tt, s') /\ table_inv s') /\
  (exists s', proc_end_waitpid (cfg := shell_config) 6 two_procs_and_raw
              = Ok (tt, s') /\ table_inv s') /\
  proc_search_pid (cfg := shell_config) 2 two_procs_and_raw
  = Ok (Some 6%positive, two_procs_and_raw).
Proof.
  assert (table_inv two_procs_and_raw) as Hinv.
  { apply (bool_decide_unpack _). vm_compute. exact I. }
  destruct (process_table_pid_invariant (cfg := shell_config)
              two_procs_and_raw Hinv) as (Hreg & Hrel & Hlook).
  split; [exact Hinv|]. split; [|split].
  - destruct (Hreg 10%positive (raw_proc (cfg := shell_config)) "sh")
      as (s' & E & Hinv' & _).
    + vm_compute. reflexivity.
    + apply (bool_decide_unpack _). vm_compute. exact I.
    + left. vm_compute. split; discriminate.
    + exists s'. split; assumption.
  - assert (exists pr, procs two_procs_and_raw !! 6%positive = Some pr /\
                       p_pid pr = 2 /\ p_sem pr = Some 9%positive)
      as (pr & Hpr & Hpid & Hsem).
    { eexists. split; [vm_compute; reflexivity|]. split; reflexivity. }
    apply (Hrel 6%positive pr Hpr).
    + rewrite Hpid. unfold MAX_PROC. lia.
    + unfold rendezvous_live. cbn [USE_SEMAPHORE_FOR_WAITPID shell_config].
      rewrite Hsem. vm_compute. reflexivity.
  - apply Hlook.
    + unfold MAX_PROC. lia.
    + vm_compute. discriminate.
    + vm_compute. reflexivity.
Defined.

(** An instance of C5: pid 0 is rejected; a process registered as pid 3 is
    still found after the process of pid 2 has been released. *)
Lemma proc_search_pid_lookup_witness :
  proc_search_pid (cfg := shell_config) 0 boot_state = Ok (None, boot_state) /\
  proc_search_pid (cfg := shell_config) 3 second_released
  = Ok (Some 10%positive, second_released).
Proof.
  destruct (proc_search_pid_lookup (cfg := shell_config)) as [Hout Hin].
  split.
  - apply Hout; [vm_compute; discriminate|unfold MAX_PROC; lia].
  - apply (Hin 10%positive "sh" two_procs_and_raw third_registered
               second_released 3).
    + vm_compute. reflexivity.
    + vm_compute. reflexivity.
    + discriminate.
    + eapply (run_release (cfg := shell_config) _ _ 6%positive).
      * discriminate.
      * vm_compute. reflexivity.
      * vm_compute. reflexivity.
      * vm_compute. reflexivity.
      * apply run_done.
    + vm_compute. discriminate.
Defined.

(** C1 fails on this run: boot, create 99 more processes (pids 1 to
    100 are taken and [last_i] is 100), destroy the process of pid 100.
    Slot 100 is now free and the table is not flagged full, yet the
    scan of the next registration stops at [last_i] = 100 without
    probing it: [proc_create] reports a full table and returns
    [NULL]. *)
Theorem allocate_misses_free_slot :
  (proc_bootstrap (cfg := shell_config) >>
   create_many (cfg := shell_config) 99) boot_state
  = Ok (tt, table_filled) /\
  proc_destroy (cfg := shell_config)
    (pt_proc (processTable table_filled) !! 100) table_filled
  = Ok (tt, last_pid_released) /\
  pt_proc (processTable last_pid_released) !! 100 = None /\
  last_i (processTable last_pid_released) = 100 /\
  is_proc_table_full last_pid_released = Ok (false, last_pid_released) /\
  find_free_pid (processTable last_pid_released) = Ok None /\
  exists s',
    proc_create (cfg := shell_config) "sh" last_pid_released = Ok (None, s') /\
    is_full (processTable s') = true /\
    pt_proc (processTable s') !! 100 = None.
Proof.
  split; [vm_compute; reflexivity|].
  split; [vm_compute; reflexivity|].
  split; [vm_compute; reflexivity|].
  split; [vm_compute; reflexivity|].
  split; [vm_compute; reflexivity|].
  split; [vm_compute; reflexivity|].
  eexists. split; [vm_compute; reflexivity|].
  split; vm_compute; reflexivity.
Qed.

(** ** Severing parent links *)

Lemma in_slots_below_succ t k q :
  in_slots_below t (k + 1) q <->
  in_slots_below t k q \/ (1 <= k /\ t !! k = Some q).
Proof.
  unfold in_slots_below. rewrite !map_Exists_lookup. split.
  - intros (i & x & Hi & Hr & ->).
    destruct (decide (i = k)) as [->|Hne]; [right; split; [lia|done]|].
    left. exists i, q. split; [done|]. split; [lia|done].
  - intros [(i & x & Hi & Hr & ->)|[Hk Hq]].
    + exists i, q. split; [done|]. split; [lia|done].
    + exists k, q. split; [done|]. split; [lia|done].
Qed.

Lemma sever_lookup t m pid k q :
  sever t m pid k !! q =
  (fun pr => if bool_decide (in_slots_below t k q) && parent_has_pid m pid pr
             then set_parent_proc None pr else pr) <$> m !! q.
Proof. unfold sever. rewrite map_lookup_imap. now destruct (m !! q). Qed.

Lemma with_procs_twice a b s : with_procs a (with_procs b s) = with_procs a s.
Proof. reflexivity. Qed.

Lemma set_parent_proc_same pr : set_parent_proc (parent_proc pr) pr = pr.
Proof. now destruct pr. Qed.

Lemma sever_zero t m pid : sever t m pid 1 = m.
Proof.
  apply map_eq. intros q. rewrite sever_lookup.
  destruct (m !! q) as [pr|]; [|done]. cbn. f_equal.
  rewrite bool_decide_eq_false_2; [done|].
  unfold in_slots_below. rewrite map_Exists_lookup.
  intros (i & x & _ & Hr & _). lia.
Qed.

Section parent_facts.
Context {cfg : Config}.

(** One turn of the loop takes the PCBs from [sever .. k] to
    [sever .. (k+1)]. *)
Lemma proc_rm_parent_link_body_step pid s0 (k : nat) :
  links_ok s0 -> (1 <= k)%nat -> Z.of_nat k <= MAX_PROC ->
  proc_rm_parent_link_body pid k
    (with_procs (sever (pt_proc (processTable s0)) (procs s0) pid (Z.of_nat k)) s0)
  = Ok (tt, with_procs
              (sever (pt_proc (processTable s0)) (procs s0) pid
                 (Z.of_nat (S k))) s0).
Proof.
  intros Hok Hk1 Hk2. set (t := pt_proc (processTable s0)).
  set (m := procs s0). unfold proc_rm_parent_link_body.
  assert (in_table_bounds (Z.of_nat k) = true) as Hb.
  { unfold in_table_bounds. lia. }
  kstep. cbn [processTable with_procs]. fold t.
  replace (Z.of_nat (S k)) with (Z.of_nat k + 1) by lia.
  destruct (t !! Z.of_nat k) as [p|] eqn:Hslot.
  - assert (pcb_links_ok m p = true) as Hl.
    { apply (Hok _ _ Hslot). lia. }
    unfold pcb_links_ok in Hl. destruct (m !! p) as [pr0|] eqn:Hp0; [|done].
    erewrite bind_Ok
      by (apply load_proc_Ok; cbn; rewrite sever_lookup, Hp0; reflexivity).
    cbn beta.
    assert (bool_decide (in_slots_below t (Z.of_nat k + 1) p) = true) as Hin.
    { apply bool_decide_eq_true_2, in_slots_below_succ. right. split; [lia|done]. }
    assert (forall q, q <> p ->
              bool_decide (in_slots_below t (Z.of_nat k + 1) q)
              = bool_decide (in_slots_below t (Z.of_nat k) q)) as Hother.
    { intros q Hq. apply bool_decide_ext. rewrite in_slots_below_succ.
      split; [|tauto]. intros [?|[_ ?]]; [done|congruence]. }
    destruct (bool_decide (in_slots_below t (Z.of_nat k) p)
              && parent_has_pid m pid pr0) eqn:Hc.
    + (* already severed on an earlier slot *)
      cbn. unfold ret. do 2 f_equal. f_equal. apply map_eq. intros q.
      rewrite !sever_lookup. destruct (decide (q = p)) as [->|Hq].
      * rewrite Hp0. cbn. rewrite Hin, Hc.
        apply andb_prop in Hc as [_ ->]. reflexivity.
      * now rewrite Hother.
    + destruct (parent_proc pr0) as [parent|] eqn:Hpar.
      * apply bool_decide_eq_true_1 in Hl as [parr Hparr].
        erewrite bind_Ok
          by (apply load_proc_Ok; cbn; rewrite sever_lookup, Hparr; reflexivity).
        cbn beta.
        assert (forall b : bool, p_pid (if b then set_parent_proc None parr else parr)
                          = p_pid parr) as -> by (now intros []).
        assert (parent_has_pid m pid pr0 = (p_pid parr =? pid)) as Hhp.
        { unfold parent_has_pid. now rewrite Hpar, Hparr. }
        destruct (p_pid parr =? pid) eqn:Hpid.
        -- erewrite update_proc_Ok
             by (cbn; rewrite sever_lookup, Hp0; cbn; rewrite Hc; reflexivity).
           rewrite with_procs_twice. cbn [procs with_procs].
           do 2 f_equal. f_equal. apply map_eq. intros q.
           destruct (decide (q = p)) as [->|Hq].
           ++ rewrite lookup_insert_eq, sever_lookup, Hp0. cbn.
              now rewrite Hin, Hhp.
           ++ rewrite lookup_insert_ne by congruence.
              rewrite !sever_lookup. now rewrite Hother.
        -- unfold ret. do 2 f_equal. f_equal. apply map_eq. intros q.
           rewrite !sever_lookup. destruct (decide (q = p)) as [->|Hq].
           ++ rewrite Hp0. cbn. now rewrite Hc, Hhp, andb_false_r.
           ++ now rewrite Hother.
      * unfold ret. do 2 f_equal. f_equal. apply map_eq. intros q.
        rewrite !sever_lookup. destruct (decide (q = p)) as [->|Hq].
        -- rewrite Hp0. cbn. rewrite Hc.
           assert (parent_has_pid m pid pr0 = false) as ->.
           { unfold parent_has_pid. now rewrite Hpar. }
           now rewrite andb_false_r.
        -- now rewrite Hother.
  - unfold ret. do 2 f_equal. f_equal. apply map_eq. intros q.
    rewrite !sever_lookup.
    assert (bool_decide (in_slots_below t (Z.of_nat k + 1) q)
            = bool_decide (in_slots_below t (Z.of_nat k) q)) as ->; [|done].
    apply bool_decide_ext. rewrite in_slots_below_succ.
    split; [|tauto]. intros [?|[_ ?]]; [done|congruence].
Qed.

Lemma proc_rm_parent_link_loop pid s0 n : forall lo : nat,
  links_ok s0 -> (1 <= lo)%nat -> Z.of_nat lo + Z.of_nat n <= MAX_PROC + 1 ->
  for_loop lo n (proc_rm_parent_link_body pid)
    (with_procs (sever (pt_proc (processTable s0)) (procs s0) pid (Z.of_nat lo)) s0)
  = Ok (tt, with_procs
              (sever (pt_proc (processTable s0)) (procs s0) pid
                 (Z.of_nat (lo + n))) s0).
Proof.
  induction n as [|n IH]; intros lo Hok Hlo Hn.
  - now rewrite Nat.add_0_r.
  - rewrite for_loop_unfold.
    erewrite bind_Ok by (apply proc_rm_parent_link_body_step; [done|done|lia]).
    cbn beta. rewrite IH by (try done; lia).
    now replace (S lo + n)%nat with (lo + S n)%nat by lia.
Qed.

(** The whole function, on a table whose processes and their parents
    are live. *)
Lemma proc_rm_parent_link_Ok pid s :
  PID_MIN <= pid <= MAX_PROC -> links_ok s ->
  proc_rm_parent_link pid s =
  Ok (tt, with_procs
            (sever (pt_proc (processTable s)) (procs s) pid (MAX_PROC + 1)) s).
Proof.
  intros Hpid Hok. unfold proc_rm_parent_link.
  assert (negb ((pid <? PID_MIN) || (pid >? MAX_PROC)) = true) as -> by lia.
  do 2 kstep.
  assert (s = with_procs
                (sever (pt_proc (processTable s)) (procs s) pid (Z.of_nat 1)) s)
    as Hs.
  { change (Z.of_nat 1) with 1. rewrite sever_zero. now destruct s. }
  rewrite Hs at 1.
  erewrite bind_Ok
    by (apply proc_rm_parent_link_loop; [done|done|unfold MAX_PROC; lia]).
  reflexivity.
Qed.

End parent_facts.

(** C7: for [pid] in the valid range, on a table whose processes and
    their parents are live, [proc_rm_parent_link pid] returns and
    changes nothing but PCBs.  Every PCB differs from its old contents
    at most in [parent_proc]; a registered process whose parent had
    identifier [pid] has [parent_proc] cleared; a process whose parent
    did not have identifier [pid], and any process that is not
    registered, is unchanged. *)
Theorem proc_rm_parent_link_effect {cfg : Config} (pid : Z) (s : kstate) :
  PID_MIN <= pid <= MAX_PROC -> links_ok s ->
  exists s',
    proc_rm_parent_link pid s = Ok (tt, s') /\
    s' = with_procs (procs s') s /\
    forall q,
      match procs s !! q with
      | None => procs s' !! q = None
      | Some pr =>
        exists pr',
          procs s' !! q = Some pr' /\
          set_parent_proc (parent_proc pr) pr' = pr /\
          (in_table s q -> parent_has_pid (procs s) pid pr = true ->
           parent_proc pr' = None) /\
          (parent_has_pid (procs s) pid pr = false -> pr' = pr) /\
          (~ in_table s q -> pr' = pr)
      end.
Proof.
  intros Hpid Hok. eexists. split; [now apply proc_rm_parent_link_Ok|].
  split; [reflexivity|]. intros q. cbn [procs with_procs].
  rewrite sever_lookup. destruct (procs s !! q) as [pr|]; [|done].
  cbn. eexists. split; [reflexivity|].
  fold (in_table s q).
  destruct (bool_decide_reflect (in_table s q)) as [Hin|Hout];
    destruct (parent_has_pid (procs s) pid pr) eqn:Hhp; cbn;
    repeat split; try done; try (now apply set_parent_proc_same);
    try (now destruct pr).
Qed.

(** An instance of C7: the child of the kernel process loses its parent
    link when the links to pid 1 are severed. *)
Lemma proc_rm_parent_link_effect_witness :
  exists s',
    proc_rm_parent_link (cfg := shell_config) 1 child_of_kernel = Ok (tt, s') /\
    parent_proc <$> procs s' !! 6%positive = Some None.
Proof.
  destruct (proc_rm_parent_link_effect (cfg := shell_config) 1 child_of_kernel)
    as (s' & E & _ & Hq).
  - vm_compute. split; discriminate.
  - apply (bool_decide_unpack _). vm_compute. exact I.
  - exists s'. split; [exact E|]. specialize (Hq 6%positive).
    destruct (procs child_of_kernel !! 6%positive) as [pr|] eqn:Hpr;
      [|vm_compute in Hpr; discriminate].
    destruct Hq as (pr' & Hl & _ & Hc & _). rewrite Hl. cbn. f_equal.
    apply Hc.
    + apply (bool_decide_unpack _). vm_compute. exact I.
    + vm_compute in Hpr. injection Hpr as <-. vm_compute. reflexivity.
Defined.

(** ** Duplicating a file table *)

Lemma load_openfile_Ok h o s :
  openfiles s !! h = Some o -> load_openfile h s = Ok (o, s).
Proof. intros E. unfold load_openfile. now rewrite E. Qed.

Lemma update_openfile_Ok h f o s :
  openfiles s !! h = Some o ->
  update_openfile h f s =
  Ok (tt, with_openfiles (<[h := f o]> (openfiles s)) s).
Proof.
  intros E. unfold update_openfile.
  now rewrite (bind_Ok _ _ _ _ _ (load_openfile_Ok _ _ _ E)).
Qed.

Lemma ft_get_Ok p pr fd x s :
  procs s !! p = Some pr -> fileTable pr !! fd = Some x ->
  ft_get p fd s = Ok (x, s).
Proof.
  intros Hp Hx. unfold ft_get.
  rewrite (bind_Ok _ _ _ _ _ (load_proc_Ok _ _ _ Hp)). now rewrite Hx.
Qed.

Lemma ft_set_Ok p pr fd v s :
  procs s !! p = Some pr -> (fd < length (fileTable pr))%nat ->
  ft_set p fd v s =
  Ok (tt, with_procs
            (<[p := set_fileTable (<[fd := v]> (fileTable pr)) pr]> (procs s)) s).
Proof.
  intros Hp Hfd. unfold ft_set.
  rewrite (bind_Ok _ _ _ _ _ (load_proc_Ok _ _ _ Hp)).
  rewrite bool_decide_eq_true_2 by done. now apply update_proc_Ok.
Qed.

Lemma closes_app h tr1 tr2 : closes h (tr1 ++ tr2) = (closes h tr1 + closes h tr2)%nat.
Proof.
  induction tr1 as [|e tr1 IH]; [done|]. destruct e; cbn; rewrite ?IH; lia.
Qed.

Lemma forallb_pointwise {A} (f g : A -> bool) l :
  (forall x, f x = g x) -> forallb f l = forallb g l.
Proof. intros E. induction l as [|x l IH]; [done|]. cbn. now rewrite E, IH. Qed.

Lemma handle_has_node_ext s s' x :
  (forall h, vn <$> openfiles s' !! h = vn <$> openfiles s !! h) ->
  handle_has_node s' x = handle_has_node s x.
Proof.
  intros Hvn. destruct x as [h|]; [|done]. cbn. specialize (Hvn h).
  destruct (openfiles s' !! h) as [o'|], (openfiles s !! h) as [o|];
    cbn in Hvn; try done. now injection Hvn as ->.
Qed.

Lemma lock_acquire_Ok a s :
  locks s !! a = Some false ->
  lock_acquire (Some a) s = Ok (tt, with_locks (<[a := true]> (locks s)) s).
Proof. intros E. unfold lock_acquire. now rewrite E. Qed.

Lemma lock_release_Ok a s :
  locks s !! a = Some true ->
  lock_release (Some a) s = Ok (tt, with_locks (<[a := false]> (locks s)) s).
Proof. intros E. unfold lock_release. now rewrite E. Qed.

Lemma lock_destroy_Ok a s :
  locks s !! a = Some false ->
  lock_destroy (Some a) s = Ok (tt, with_locks (delete a (locks s)) s).
Proof. intros E. unfold lock_destroy. now rewrite E. Qed.

Lemma lock_free_Some s l :
  lock_free s l = true -> exists a, l = Some a /\ locks s !! a = Some false.
Proof.
  destruct l as [a|]; [|done]. intros E%bool_decide_eq_true_1. eauto.
Qed.

Ltac frame_solve :=
  unfold files_frame in *; cbn in *; intuition congruence.

Section copy_facts.
Context {cfg : Config}.

(** The loop of [proc_file_table_copy] over the slots that hold [hs] in
    the source: the destination gets [hs] in the same slots, and every
    handle gains one reference for each slot of [hs] that holds it. *)
Lemma proc_file_table_copy_loop psrc pdest hs :
  forall k s ps pd pre_s post_s pre_d mid_d post_d,
    psrc <> pdest ->
    procs s !! psrc = Some ps -> procs s !! pdest = Some pd ->
    fileTable ps = pre_s ++ hs ++ post_s -> length pre_s = k ->
    fileTable pd = pre_d ++ mid_d ++ post_d -> length pre_d = k ->
    length mid_d = length hs ->
    forallb (handle_has_node s) hs = true ->
    exists s',
      for_loop k (length hs) (proc_file_table_copy_fd psrc pdest) s
      = Ok (tt, s') /\
      procs s' =
        <[pdest := set_fileTable (pre_d ++ hs ++ post_d) pd]> (procs s) /\
      (forall h,
         openfiles s' !! h =
         (fun o => set_countRef (countRef o + Z.of_nat (refs_in h hs)) o)
           <$> openfiles s !! h) /\
      (forall h, closes h (trace s') = closes h (trace s)) /\
      locks s' = locks s /\
      files_frame s s'.
Proof.
  induction hs as [|x hs IH];
    intros k s ps pd pre_s post_s pre_d mid_d post_d Hne Hps Hpd Hfs Hk Hfd Hkd
           Hlen Hnodes.
  - exists s. split; [reflexivity|].
    destruct mid_d; [|done]. cbn in *.
    split; [|split; [|split; [done|split; [done|]]]].
    + rewrite <- Hfd. symmetry. apply insert_id. rewrite Hpd. now destruct pd.
    + intros h. destruct (openfiles s !! h) as [o|]; [|done]. cbn.
      rewrite Z.add_0_r. now destruct o.
    + frame_solve.
  - destruct mid_d as [|d mid_d]; [done|]. cbn [length] in *.
    injection Hlen as Hlen. cbn in Hnodes.
    apply andb_prop in Hnodes as [Hx Hnodes].
    rewrite for_loop_unfold. unfold proc_file_table_copy_fd at 1.
    erewrite bind_assoc, bind_Ok
      by (eapply ft_get_Ok; [exact Hps|];
          rewrite Hfs, <- Hk; apply list_lookup_middle; reflexivity).
    cbn beta.
    erewrite bind_assoc, bind_Ok
      by (eapply ft_set_Ok; [exact Hpd|]; rewrite Hfd, !length_app; cbn; lia).
    cbn beta.
    assert (<[k:=x]> (fileTable pd) = (pre_d ++ [x]) ++ mid_d ++ post_d) as Hins.
    { rewrite Hfd, <- Hkd. rewrite <- (Nat.add_0_r (length pre_d)).
      rewrite insert_app_r. cbn. now rewrite <- app_assoc. }
    rewrite Hins. clear Hins.
    set (pd1 := set_fileTable ((pre_d ++ [x]) ++ mid_d ++ post_d) pd).
    set (s1 := with_procs (<[pdest := pd1]> (procs s)) s).
    assert (exists s2,
              match x with
              | Some h =>
                let* o := load_openfile h in
                VOP_INCREF (vn o) >> openfileIncrRefCount h
              | None => ret tt
              end s1 = Ok (tt, s2) /\
              procs s2 = <[pdest := pd1]> (procs s) /\
              (forall h,
                 openfiles s2 !! h =
                 (fun o => set_countRef
                             (countRef o +
                              Z.of_nat (if bool_decide (x = Some h) then 1 else 0)) o)
                   <$> openfiles s !! h) /\
              (forall h, closes h (trace s2) = closes h (trace s)) /\
              locks s2 = locks s /\ files_frame s s2)
      as (s2 & E2 & Hprocs2 & Hof2 & Hcl2 & Hlk2 & Hfr2).
    { destruct x as [h|].
      - cbn in Hx. destruct (openfiles s !! h) as [o|] eqn:Ho; [|done].
        apply bool_decide_eq_true_1 in Hx as [v Hv].
        erewrite bind_Ok by (apply load_openfile_Ok; exact Ho). cbn beta.
        rewrite Hv. unfold VOP_INCREF, openfileIncrRefCount.
        erewrite bind_Ok by reflexivity. cbn beta.
        erewrite update_openfile_Ok by exact Ho.
        eexists. split; [reflexivity|]. cbn.
        split; [done|]. split; [|split; [|split; [done|]]].
        + intros h'. destruct (decide (h' = h)) as [->|Hh].
          * rewrite lookup_insert_eq, Ho. cbn.
            now rewrite bool_decide_eq_true_2.
          * rewrite lookup_insert_ne by congruence.
            rewrite bool_decide_eq_false_2 by congruence.
            destruct (openfiles s !! h') as [o'|]; [|done]. cbn.
            rewrite Z.add_0_r. now destruct o'.
        + intros h'. rewrite closes_app. cbn. lia.
        + frame_solve.
      - exists s1. split; [reflexivity|]. cbn.
        split; [done|]. split; [|split; [done|split; [done|]]].
        + intros h'. destruct (openfiles s !! h') as [o'|]; [|done]. cbn.
          rewrite Z.add_0_r. now destruct o'.
        + frame_solve. }
    erewrite bind_Ok by exact E2. cbn beta.
    destruct (IH (S k) s2 ps pd1 (pre_s ++ [x]) post_s (pre_d ++ [x]) mid_d post_d)
      as (s' & E & Hprocs & Hof & Hcl & Hlk & Hfr).
    + done.
    + rewrite Hprocs2. now rewrite lookup_insert_ne by congruence.
    + rewrite Hprocs2. apply lookup_insert_eq.
    + rewrite Hfs. now rewrite <- app_assoc.
    + rewrite length_app. cbn. lia.
    + reflexivity.
    + rewrite length_app. cbn. lia.
    + done.
    + rewrite <- Hnodes. apply forallb_pointwise. intros y.
      apply handle_has_node_ext. intros h. rewrite Hof2.
      now destruct (openfiles s !! h).
    + exists s'. split; [exact E|].
      split; [|split; [|split; [|split]]].
      * rewrite Hprocs, Hprocs2, insert_insert_eq. f_equal. unfold pd1.
        cbn. now rewrite <- app_assoc.
      * intros h. rewrite Hof, Hof2.
        destruct (openfiles s !! h) as [o|]; [|done]. cbn. f_equal.
        unfold set_countRef. cbn. f_equal.
        destruct (bool_decide (x = Some h)); lia.
      * intros h. now rewrite Hcl, Hcl2.
      * congruence.
      * frame_solve.
Qed.

Lemma copy_ready_unfold psrc pdest s :
  copy_ready s psrc pdest = true ->
  exists ps pd g a b,
    procs s !! psrc = Some ps /\ procs s !! pdest = Some pd /\
    psrc <> pdest /\
    length (fileTable ps) = OPEN_MAX /\ length (fileTable pd) = OPEN_MAX /\
    ft_copy_lock s = Some g /\ ft_lock ps = Some a /\ ft_lock pd = Some b /\
    locks s !! g = Some false /\ locks s !! a = Some false /\
    locks s !! b = Some false /\ g <> a /\ g <> b /\ a <> b /\
    forallb (handle_has_node s) (fileTable ps) = true.
Proof.
  unfold copy_ready.
  destruct (procs s !! psrc) as [ps|]; [|done].
  destruct (procs s !! pdest) as [pd|]; [|done].
  intros Hr.
  apply andb_prop in Hr as [Hr Hnodes].
  apply andb_prop in Hr as [Hr Hnd%bool_decide_eq_true_1].
  apply andb_prop in Hr as [Hr (b & Hb & Hlb)%lock_free_Some].
  apply andb_prop in Hr as [Hr (a & Ha & Hla)%lock_free_Some].
  apply andb_prop in Hr as [Hr (g & Hg & Hlg)%lock_free_Some].
  apply andb_prop in Hr as [Hr Hld%bool_decide_eq_true_1].
  apply andb_prop in Hr as [Hne%negb_true_iff%bool_decide_eq_false_1
                                 Hls%bool_decide_eq_true_1].
  exists ps, pd, g, a, b. rewrite Hg, Ha, Hb in Hnd.
  apply NoDup_cons in Hnd as [Hg1 Hnd]. apply NoDup_cons in Hnd as [Ha1 _].
  rewrite !elem_of_cons in Hg1. rewrite !elem_of_cons in Ha1.
  repeat split; try done; intros ->; tauto.
Qed.

(** [proc_file_table_copy] as a whole. *)
Lemma proc_file_table_copy_Ok psrc pdest s ps pd :
  copy_ready s psrc pdest = true ->
  procs s !! psrc = Some ps -> procs s !! pdest = Some pd ->
  exists s',
    proc_file_table_copy psrc pdest s = Ok (tt, s') /\
    procs s' = <[pdest := set_fileTable (fileTable ps) pd]> (procs s) /\
    (forall h,
       openfiles s' !! h =
       (fun o => set_countRef
                   (countRef o + Z.of_nat (refs_in h (fileTable ps))) o)
         <$> openfiles s !! h) /\
    (forall h, closes h (trace s') = closes h (trace s)) /\
    locks s' = locks s /\
    files_frame s s'.
Proof.
  intros Hready Hps Hpd.
  destruct (copy_ready_unfold _ _ _ Hready)
    as (ps' & pd' & g & a & b & Hps' & Hpd' & Hne & Hls & Hld & Hg & Ha & Hb
        & Hlg & Hla & Hlb & Hga & Hgb & Hab & Hnodes).
  assert (ps' = ps) as -> by congruence.
  assert (pd' = pd) as -> by congruence.
  unfold proc_file_table_copy. kstep. rewrite Hg.
  erewrite bind_Ok by (apply lock_acquire_Ok; exact Hlg). cbn beta.
  kstep. rewrite Ha.
  erewrite bind_Ok
    by (apply lock_acquire_Ok; cbn; rewrite lookup_insert_ne by done; exact Hla).
  cbn beta. kstep. rewrite Hb.
  erewrite bind_Ok
    by (apply lock_acquire_Ok; cbn; rewrite !lookup_insert_ne by done;
        exact Hlb).
  cbn beta. cbn [locks with_locks].
  set (L3 := <[b:=true]> (<[a:=true]> (<[g:=true]> (locks s)))).
  set (s3 := with_locks L3 _).
  destruct (proc_file_table_copy_loop psrc pdest (fileTable ps) 0 s3 ps pd
              [] [] [] (fileTable pd) [])
    as (s4 & E & Hprocs & Hof & Hcl & Hlk & Hfr); try done.
  { now rewrite app_nil_r. }
  { now rewrite app_nil_r. }
  { congruence. }
  rewrite Hls in E. erewrite bind_Ok by exact E. cbn beta.
  cbn [app] in Hprocs. rewrite app_nil_r in Hprocs.
  change (procs s3) with (procs s) in Hprocs.
  change (locks s3) with L3 in Hlk.
  erewrite bind_Ok
    by (apply load_proc_Ok; rewrite Hprocs; apply lookup_insert_eq).
  cbn beta. cbn [ft_lock set_fileTable]. rewrite Hb.
  erewrite bind_Ok
    by (apply lock_release_Ok; rewrite Hlk; apply lookup_insert_eq).
  cbn beta.
  erewrite bind_Ok
    by (apply load_proc_Ok; cbn; rewrite Hprocs;
        rewrite lookup_insert_ne by congruence; exact Hps).
  cbn beta. rewrite Ha.
  erewrite bind_Ok
    by (apply lock_release_Ok; cbn; rewrite Hlk;
        rewrite lookup_insert_ne by congruence;
        unfold L3; rewrite lookup_insert_ne by congruence;
        apply lookup_insert_eq).
  cbn beta. kstep. cbn [ft_copy_lock with_locks].
  assert (ft_copy_lock s4 = Some g) as ->.
  { destruct Hfr as (_ & -> & _). exact Hg. }
  erewrite lock_release_Ok
    by (cbn; rewrite Hlk; rewrite !lookup_insert_ne by congruence;
        unfold L3; rewrite !lookup_insert_ne by congruence;
        apply lookup_insert_eq).
  eexists. split; [reflexivity|]. cbn.
  assert (<[g:=false]> (<[a:=false]> (<[b:=false]> (locks s4))) = locks s)
    as Hlocks.
  { rewrite Hlk. unfold L3. apply map_eq. intros l.
    destruct (decide (l = g)) as [->|?];
      [rewrite lookup_insert_eq; congruence
      |rewrite lookup_insert_ne by congruence].
    destruct (decide (l = a)) as [->|?];
      [rewrite lookup_insert_eq; congruence
      |rewrite lookup_insert_ne by congruence].
    destruct (decide (l = b)) as [->|?];
      [rewrite lookup_insert_eq; congruence
      |rewrite lookup_insert_ne by congruence].
    now rewrite !lookup_insert_ne by congruence. }
  split; [exact Hprocs|]. split; [exact Hof|]. split; [exact Hcl|].
  split; [exact Hlocks|].
  clear E. subst s3. frame_solve.
Qed.

End copy_facts.
(** ** Counting references *)

Lemma total_refs_delete m p pr h :
  m !! p = Some pr ->
  total_refs m h = (refs_in h (fileTable pr) + total_refs (delete p m) h)%nat.
Proof.
  intros Hp. unfold total_refs.
  rewrite (map_fold_delete_L _ _ p pr m); [done| |done].
  intros. lia.
Qed.

Lemma total_refs_insert_fresh m p pr h :
  m !! p = None ->
  total_refs (<[p := pr]> m) h = (refs_in h (fileTable pr) + total_refs m h)%nat.
Proof.
  intros Hp. unfold total_refs.
  rewrite map_fold_insert_L; [done| |done]. intros. lia.
Qed.

(** Replacing the PCB at [p] trades its old references for the new
    ones. *)
Lemma total_refs_insert m p pr pr' h :
  m !! p = Some pr ->
  (total_refs (<[p := pr']> m) h + refs_in h (fileTable pr))%nat
  = (total_refs m h + refs_in h (fileTable pr'))%nat.
Proof.
  intros Hp. rewrite (total_refs_delete m p pr h Hp).
  rewrite <- insert_delete_eq.
  rewrite total_refs_insert_fresh by apply lookup_delete_eq. lia.
Qed.

Lemma refs_in_empty h ft : table_empty ft -> refs_in h ft = 0%nat.
Proof.
  induction 1 as [|x ft -> _ IH]; [done|]. cbn.
  now rewrite bool_decide_eq_false_2.
Qed.

Lemma refs_in_replicate_None h n : refs_in h (replicate n None) = 0%nat.
Proof. induction n as [|n IH]; [done|]. cbn. now rewrite IH. Qed.

Section refcount_facts.
Context {cfg : Config}.

(** C10: when [proc_file_table_copy] runs to its end, every descriptor
    of the destination holds what the same descriptor of the source
    holds, whatever it held before: an empty source slot empties the
    destination slot.  The reference count of no handle goes down; the
    count of a handle grows by the number of source slots that hold
    it, so a handle pushed out of the destination keeps a count that
    still includes the slot it lost. *)
Theorem proc_file_table_copy_overwrites (psrc pdest : ptr) (s : kstate)
    (ps pd : proc) :
  copy_ready s psrc pdest = true ->
  procs s !! psrc = Some ps -> procs s !! pdest = Some pd ->
  exists s' pd',
    proc_file_table_copy psrc pdest s = Ok (tt, s') /\
    procs s' !! pdest = Some pd' /\
    (forall fd, (fd < OPEN_MAX)%nat ->
                fileTable pd' !! fd = fileTable ps !! fd) /\
    (forall fd, fileTable ps !! fd = Some None ->
                fileTable pd' !! fd = Some None) /\
    (forall h o, openfiles s !! h = Some o ->
       exists o', openfiles s' !! h = Some o' /\
                  countRef o' = countRef o + Z.of_nat (refs_in h (fileTable ps)) /\
                  countRef o <= countRef o').
Proof.
  intros Hready Hps Hpd.
  destruct (proc_file_table_copy_Ok _ _ _ _ _ Hready Hps Hpd)
    as (s' & E & Hprocs & Hof & _).
  exists s', (set_fileTable (fileTable ps) pd).
  split; [exact E|]. split; [rewrite Hprocs; apply lookup_insert_eq|].
  split; [done|]. split; [done|].
  intros h o Ho. rewrite Hof, Ho. cbn. eexists. split; [reflexivity|].
  cbn. split; lia.
Qed.

(** When the destination table is empty, a copy keeps the reference
    counts equal to the numbers of slots. *)
Lemma proc_file_table_copy_keeps_refcount psrc pdest s ps pd :
  refcount_inv s -> copy_ready s psrc pdest = true ->
  procs s !! psrc = Some ps -> procs s !! pdest = Some pd ->
  table_empty (fileTable pd) ->
  exists s', proc_file_table_copy psrc pdest s = Ok (tt, s') /\
             refcount_inv s'.
Proof.
  intros Hinv Hready Hps Hpd Hempty.
  destruct (proc_file_table_copy_Ok _ _ _ _ _ Hready Hps Hpd)
    as (s' & E & Hprocs & Hof & _).
  exists s'. split; [exact E|]. intros h o' Ho'.
  rewrite Hof in Ho'. destruct (openfiles s !! h) as [o|] eqn:Ho; [|done].
  injection Ho' as <-. cbn. rewrite (Hinv h o Ho), Hprocs.
  pose proof (total_refs_insert (procs s) pdest pd
                (set_fileTable (fileTable ps) pd) h Hpd) as Ht.
  rewrite (refs_in_empty h _ Hempty) in Ht. cbn in Ht. lia.
Qed.

End refcount_facts.

(** An instance of C10: process B, whose file table is empty, is copied
    over process A, which holds the open file in descriptor 3. *)
Lemma proc_file_table_copy_overwrites_witness :
  exists s',
    proc_file_table_copy (cfg := shell_config) 10 6 one_file_open = Ok (tt, s') /\
    (fileTable <$> procs one_file_open !! 6%positive) ≫= (.!! 3%nat)
    = Some (Some 100%positive) /\
    (fileTable <$> procs s' !! 6%positive) ≫= (.!! 3%nat) = Some None /\
    countRef <$> openfiles s' !! 100%positive = Some 1.
Proof.
  assert (exists ps, procs one_file_open !! 10%positive = Some ps /\
                     fileTable ps = replicate 128 None) as (ps & Hps & Hfs).
  { eexists. split; [vm_compute; reflexivity|]. reflexivity. }
  assert (exists pd, procs one_file_open !! 6%positive = Some pd /\
                     fileTable pd !! 3%nat = Some (Some 100%positive))
    as (pd & Hpd & Hfd).
  { eexists. split; [vm_compute; reflexivity|]. reflexivity. }
  destruct (proc_file_table_copy_overwrites (cfg := shell_config)
              10 6 one_file_open ps pd)
    as (s' & pd' & E & Hpd' & Hall & Hnone & Hcount).
  - vm_compute. reflexivity.
  - exact Hps.
  - exact Hpd.
  - exists s'. split; [exact E|]. split; [now rewrite Hpd|].
    split.
    + rewrite Hpd'. cbn. apply Hnone. now rewrite Hfs.
    + destruct (Hcount 100%positive the_file) as (o' & Ho' & Hc & _).
      * vm_compute. reflexivity.
      * rewrite Ho'. cbn. rewrite Hc, Hfs. reflexivity.
Defined.

(** ** Tearing down a file table *)

Lemma refs_in_elem h hs : Some h ∈ hs -> (1 <= refs_in h hs)%nat.
Proof.
  induction hs as [|x hs IH]; [now intros ?%elem_of_nil|].
  intros [Heq|Hin]%elem_of_cons; cbn.
  - rewrite bool_decide_eq_true_2 by done. lia.
  - specialize (IH Hin). lia.
Qed.

Lemma refs_in_not_elem h hs : Some h ∉ hs -> refs_in h hs = 0%nat.
Proof.
  induction hs as [|x hs IH]; [done|].
  intros [Hx Hin]%not_elem_of_cons. cbn.
  rewrite bool_decide_eq_false_2 by congruence. now rewrite IH.
Qed.

Lemma set_fileTable_twice a b pr :
  set_fileTable a (set_fileTable b pr) = set_fileTable a pr.
Proof. reflexivity. Qed.

Lemma closes_turn h (c : Z) (n : nat) (node : option ptr) :
  Z.of_nat (1 + n) <= c ->
  (closes h
     (if (c =? 1)%Z
      then match node with
           | Some v => [Call_vfs_close h v]
           | None => []
           end
      else []) +
   (if bool_decide (n <> 0%nat) && (c - 1 =? Z.of_nat n)%Z &&
       bool_decide (is_Some node)
    then 1 else 0))%nat
  = (if bool_decide ((1 + n)%nat <> 0%nat) && (c =? Z.of_nat (1 + n)) &&
        bool_decide (is_Some node)
     then 1%nat else 0%nat).
Proof.
  intros Hc.
  destruct (Z.eqb_spec c 1), (Z.eqb_spec (c - 1) (Z.of_nat n)),
    (Z.eqb_spec c (Z.of_nat (1 + n))), node as [v|];
    repeat case_bool_decide; cbn;
    rewrite ?bool_decide_eq_true_2 by done; try lia;
    try (exfalso; lia);
    try match goal with H : ~ is_Some (Some _) |- _ => destruct H; eauto end;
    try match goal with H : is_Some None |- _ => now destruct H end.
Qed.

Section destroy_facts.
Context {cfg : Config}.

(** One turn of the loop of [proc_destroy] on a slot that holds the
    handle [h]. *)
Lemma proc_destroy_fd_Some p pr k h o l s :
  procs s !! p = Some pr -> fileTable pr !! k = Some (Some h) ->
  openfiles s !! h = Some o -> of_lock o = Some l ->
  locks s !! l = Some false -> 1 <= countRef o ->
  exists s1,
    proc_destroy_fd p k s = Ok (tt, s1) /\
    procs s1 = <[p := set_fileTable (<[k := None]> (fileTable pr)) pr]> (procs s) /\
    openfiles s1 = <[h := set_countRef (countRef o - 1) o]> (openfiles s) /\
    locks s1 = (if countRef o =? 1 then delete l (locks s) else locks s) /\
    trace s1 = trace s ++
               (if countRef o =? 1
                then match vn o with
                     | Some v => [Call_vfs_close h v]
                     | None => []
                     end
                else []) /\
    files_frame s s1.
Proof.
  intros Hp Hk Ho Hl Hfree Hc. unfold proc_destroy_fd.
  kstep by (eapply ft_get_Ok; eauto).
  kstep by (apply load_openfile_Ok; exact Ho).
  rewrite Hl.
  kstep by (apply lock_acquire_Ok; exact Hfree).
  unfold int_pred.
  assert ((countRef o =? INT_MIN) = false) as ->.
  { unfold INT_MIN. lia. }
  kstep by reflexivity.
  kstep by (apply update_openfile_Ok; exact Ho).
  assert (fd_lt : (k < length (fileTable pr))%nat).
  { now apply lookup_lt_Some in Hk. }
  destruct (Z.eqb_spec (countRef o - 1) 0) as [Hz|Hz].
  - assert ((countRef o =? 1) = true) as -> by lia.
    destruct (vn o) as [v|].
    + unfold vfs_close. kstep by reflexivity.
      kstep by (apply lock_release_Ok; cbn; apply lookup_insert_eq).
      kstep by (apply lock_destroy_Ok; cbn; apply lookup_insert_eq).
      erewrite ft_set_Ok by (cbn; eauto).
      eexists. split; [reflexivity|]. cbn.
      rewrite !delete_insert_eq.
      repeat split; try done.
    + kstep by reflexivity.
      kstep by (apply lock_release_Ok; cbn; apply lookup_insert_eq).
      kstep by (apply lock_destroy_Ok; cbn; apply lookup_insert_eq).
      erewrite ft_set_Ok by (cbn; eauto).
      eexists. split; [reflexivity|]. cbn.
      rewrite !delete_insert_eq, app_nil_r.
      repeat split; try done.
  - assert ((countRef o =? 1) = false) as -> by lia.
    kstep by (apply lock_release_Ok; cbn; apply lookup_insert_eq).
    erewrite ft_set_Ok by (cbn; eauto).
    eexists. split; [reflexivity|]. cbn.
    rewrite insert_insert_eq, (insert_id (locks s) l false) by done.
    rewrite app_nil_r. repeat split; try done.
Qed.

Lemma proc_destroy_fd_None p pr k s :
  procs s !! p = Some pr -> fileTable pr !! k = Some None ->
  proc_destroy_fd p k s =
  Ok (tt, with_procs
            (<[p := set_fileTable (<[k := None]> (fileTable pr)) pr]> (procs s)) s).
Proof.
  intros Hp Hk. unfold proc_destroy_fd.
  erewrite bind_Ok by (eapply ft_get_Ok; eauto). cbn beta.
  erewrite bind_Ok by reflexivity. cbn beta.
  apply ft_set_Ok; [done|]. now apply lookup_lt_Some in Hk.
Qed.

(** The loop of [proc_destroy] over the slots that hold [hs]: the
    slots are emptied, every handle loses one reference for each slot
    of [hs] that held it, and the node of a handle is closed once when
    that leaves it without references, and not otherwise. *)
Lemma proc_destroy_loop p hs :
  forall k s pr pre post,
    procs s !! p = Some pr ->
    fileTable pr = pre ++ hs ++ post -> length pre = k ->
    handles_ready s hs -> locks_apart s hs ->
    exists s',
      for_loop k (length hs) (proc_destroy_fd p) s = Ok (tt, s') /\
      procs s' =
        <[p := set_fileTable (pre ++ replicate (length hs) None ++ post) pr]>
          (procs s) /\
      (forall h,
         openfiles s' !! h =
         (fun o => set_countRef (countRef o - Z.of_nat (refs_in h hs)) o)
           <$> openfiles s !! h) /\
      (forall h, closes h (trace s') = (closes h (trace s) + closed_by s hs h)%nat) /\
      (forall l, not_handle_lock s hs l -> locks s' !! l = locks s !! l) /\
      files_frame s s'.
Proof.
  induction hs as [|x hs IH]; intros k s pr pre post Hp Hft Hk Hready Hapart.
  - exists s. split; [reflexivity|]. cbn in *.
    split; [|split; [|split; [|split; [done|frame_solve]]]].
    + rewrite <- Hft. symmetry. apply insert_id. rewrite Hp. now destruct pr.
    + intros h. destruct (openfiles s !! h) as [o|]; [|done]. cbn.
      rewrite Z.sub_0_r. now destruct o.
    + intros h. unfold closed_by. destruct (openfiles s !! h); [|lia].
      rewrite bool_decide_eq_false_2 by (cbn; lia). cbn. lia.
  - cbn [length]. rewrite for_loop_unfold.
    assert (fileTable pr !! k = Some x) as Hslot.
    { rewrite Hft, <- Hk. now apply list_lookup_middle. }
    assert (<[k:=None]> (fileTable pr) = (pre ++ [None]) ++ hs ++ post) as Hins.
    { rewrite Hft, <- Hk. rewrite <- (Nat.add_0_r (length pre)).
      rewrite insert_app_r. cbn. now rewrite <- app_assoc. }
    assert (forall pr1, fileTable pr1 = (pre ++ [None]) ++ hs ++ post ->
              set_fileTable
                ((pre ++ [None]) ++ replicate (length hs) None ++ post) pr1
              = set_fileTable
                  (pre ++ replicate (S (length hs)) None ++ post) pr1) as Htab.
    { intros pr1 _. f_equal. now rewrite <- app_assoc. }
    destruct x as [h0|].
    + (* the slot holds a handle *)
      destruct (Hready h0) as (o & l & Ho & Hl & Hfree & Hcount);
        [apply list_elem_of_here|].
      cbn in Hcount. rewrite bool_decide_eq_true_2 in Hcount by done.
      destruct (proc_destroy_fd_Some p pr k h0 o l s Hp Hslot Ho Hl Hfree)
        as (s1 & E1 & Hprocs1 & Hof1 & Hlk1 & Htr1 & Hfr1); [lia|].
      rewrite Hins in Hprocs1.
      set (pr1 := set_fileTable ((pre ++ [None]) ++ hs ++ post) pr) in *.
      assert (forall h, handle_lock s1 h = handle_lock s h) as Hhl.
      { intros h. unfold handle_lock. rewrite Hof1.
        destruct (decide (h = h0)) as [->|Hne].
        - now rewrite lookup_insert_eq, Ho.
        - now rewrite lookup_insert_ne by congruence. }
      assert (handle_lock s h0 = Some l) as Hl0.
      { unfold handle_lock. now rewrite Ho. }
      destruct (IH (S k) s1 pr1 (pre ++ [None]) post)
        as (s' & E & Hprocs & Hof & Hcl & Hlk & Hfr).
      * rewrite Hprocs1. apply lookup_insert_eq.
      * reflexivity.
      * rewrite length_app. cbn. lia.
      * intros h Hin.
        destruct (Hready h) as (o' & l' & Ho' & Hl' & Hfree' & Hcount');
          [now apply list_elem_of_further|].
        cbn in Hcount'. pose proof (refs_in_elem h hs Hin) as Hge.
        destruct (decide (h = h0)) as [->|Hne].
        -- rewrite bool_decide_eq_true_2 in Hcount' by done.
           assert (o' = o) as -> by congruence.
           assert (l' = l) as -> by congruence.
           exists (set_countRef (countRef o - 1) o), l.
           rewrite Hof1, lookup_insert_eq, Hlk1.
           assert ((countRef o =? 1) = false) as -> by lia.
           repeat split; try done. cbn. lia.
        -- rewrite bool_decide_eq_false_2 in Hcount' by congruence.
           exists o', l'. rewrite Hof1, lookup_insert_ne by congruence.
           repeat split; try done.
           rewrite Hlk1.
           assert (l' <> l) as Hll.
           { intros ->. apply Hne.
             apply (Hapart h h0);
               [now apply list_elem_of_further|apply list_elem_of_here|].
             unfold handle_lock at 1. rewrite Ho'. cbn. congruence. }
           destruct (countRef o =? 1); [|done].
           now rewrite lookup_delete_ne by congruence.
      * intros h1 h2 H1 H2. rewrite !Hhl.
        apply Hapart; now apply list_elem_of_further.
      * erewrite bind_Ok by exact E1. cbn beta. exists s'.
        split; [exact E|]. split; [|split; [|split; [|split]]].
        -- rewrite Hprocs, Hprocs1, insert_insert_eq. f_equal.
           unfold pr1. rewrite set_fileTable_twice. f_equal.
           now rewrite <- app_assoc.
        -- intros h. rewrite Hof, Hof1. cbn.
           destruct (decide (h = h0)) as [->|Hne].
           ++ rewrite lookup_insert_eq, Ho.
              rewrite bool_decide_eq_true_2 by done.
              cbn. unfold set_countRef. cbn. do 2 f_equal. lia.
           ++ rewrite lookup_insert_ne by congruence.
              rewrite bool_decide_eq_false_2 by congruence.
              now destruct (openfiles s !! h).
        -- intros h. rewrite Hcl, Htr1, closes_app.
           rewrite <- Nat.add_assoc. f_equal.
           unfold closed_by. rewrite Hof1. cbn [refs_in].
           destruct (decide (h = h0)) as [->|Hne].
           ++ rewrite lookup_insert_eq, Ho.
              rewrite (bool_decide_eq_true_2 (Some h0 = Some h0)) by done.
              cbn [countRef set_countRef vn].
              now apply closes_turn.
           ++ rewrite lookup_insert_ne by congruence.
              rewrite (bool_decide_eq_false_2 (Some h0 = Some h)) by congruence.
              assert (closes h
                        (if countRef o =? 1
                         then match vn o with
                              | Some v => [Call_vfs_close h0 v]
                              | None => []
                              end
                         else []) = 0%nat) as ->; [|done].
              destruct (countRef o =? 1); [|done].
              destruct (vn o); [|done]. cbn.
              now rewrite bool_decide_eq_false_2 by congruence.
        -- intros l0 Hnot. rewrite Hlk.
           ++ rewrite Hlk1.
              assert (l0 <> l) as Hll.
              { intros ->. now apply (Hnot h0); [apply list_elem_of_here|]. }
              destruct (countRef o =? 1); [|done].
              now rewrite lookup_delete_ne by congruence.
           ++ intros h Hin. rewrite Hhl. apply Hnot.
              now apply list_elem_of_further.
        -- frame_solve.
    + (* the slot is empty *)
      pose proof (proc_destroy_fd_None p pr k s Hp Hslot) as E1.
      rewrite Hins in E1.
      set (pr1 := set_fileTable ((pre ++ [None]) ++ hs ++ post) pr) in *.
      set (s1 := with_procs (<[p:=pr1]> (procs s)) s) in *.
      destruct (IH (S k) s1 pr1 (pre ++ [None]) post)
        as (s' & E & Hprocs & Hof & Hcl & Hlk & Hfr).
      * apply lookup_insert_eq.
      * reflexivity.
      * rewrite length_app. cbn. lia.
      * intros h Hin.
        destruct (Hready h) as (o' & l' & Ho' & Hl' & Hfree' & Hcount');
          [now apply list_elem_of_further|].
        exists o', l'. repeat split; try done.
      * intros h1 h2 H1 H2. apply Hapart; now apply list_elem_of_further.
      * erewrite bind_Ok by exact E1. cbn beta. exists s'.
        split; [exact E|]. split; [|split; [|split; [|split]]].
        -- rewrite Hprocs. unfold s1. cbn [procs with_procs].
           rewrite insert_insert_eq. f_equal.
           unfold pr1. rewrite set_fileTable_twice. f_equal.
           now rewrite <- app_assoc.
        -- intros h. now rewrite Hof.
        -- intros h. now rewrite Hcl.
        -- intros l0 Hnot. rewrite Hlk; [done|].
           intros h Hin. apply Hnot. now apply list_elem_of_further.
        -- frame_solve.
Qed.

End destroy_facts.

(** ** [proc_destroy] as a whole *)

Lemma NoDup_fmap_eq {A B} (f : A -> B) (l : list A) x y :
  NoDup (f <$> l) -> x ∈ l -> y ∈ l -> f x = f y -> x = y.
Proof.
  induction l as [|a l IH]; [now intros _ ?%elem_of_nil|].
  cbn. intros [Ha Hnd]%NoDup_cons Hx Hy Hf.
  apply elem_of_cons in Hx as [->|Hx]; apply elem_of_cons in Hy as [->|Hy].
  - done.
  - exfalso. apply Ha. rewrite Hf. now apply list_elem_of_fmap_2.
  - exfalso. apply Ha. rewrite <- Hf. now apply list_elem_of_fmap_2.
  - now apply IH.
Qed.

Lemma elem_of_handles (ft : list (option ptr)) h :
  h ∈ remove_dups (omap id ft) <-> Some h ∈ ft.
Proof.
  rewrite elem_of_remove_dups, list_elem_of_omap. split.
  - intros (x & Hx & Heq). cbn in Heq. now subst x.
  - intros Hin. now exists (Some h).
Qed.

Lemma same_teardown_fields_refl pr : same_teardown_fields pr pr.
Proof. now repeat split. Qed.

Lemma same_teardown_fields_trans pr1 pr2 pr3 :
  same_teardown_fields pr1 pr2 -> same_teardown_fields pr2 pr3 ->
  same_teardown_fields pr1 pr3.
Proof. unfold same_teardown_fields. intuition congruence. Qed.

Lemma quiet_refl s : quiet s s.
Proof. now repeat split. Qed.

Lemma quiet_trans s1 s2 s3 : quiet s1 s2 -> quiet s2 s3 -> quiet s1 s3.
Proof.
  unfold quiet, files_frame. intros (F1 & O1 & L1 & C1) (F2 & O2 & L2 & C2).
  split; [intuition congruence|]. split; [congruence|]. split; [congruence|].
  intros h. now rewrite C2, C1.
Qed.

Ltac quiet_solve :=
  unfold quiet, files_frame; cbn;
  repeat split; try done;
  intros; rewrite ?closes_app; cbn; lia.

Section destroy_all_facts.
Context {cfg : Config}.

Lemma handles_ready_of_forallb s ft :
  forallb (handle_ready s ft) ft = true -> handles_ready s ft.
Proof.
  intros Hall h Hin. rewrite forallb_forall in Hall.
  specialize (Hall (Some h)). rewrite <- list_elem_of_In in Hall.
  specialize (Hall Hin). cbn in Hall.
  destruct (openfiles s !! h) as [o|]; [|done].
  apply andb_prop in Hall as [(l & Hl & Hfree)%lock_free_Some Hc].
  exists o, l. repeat split; try done. lia.
Qed.

(** What [destroy_ready] says, in propositions. *)
Lemma destroy_ready_unfold s p :
  destroy_ready s p = true ->
  exists pr fl,
    procs s !! p = Some pr /\ Some p <> kproc s /\ p_numthreads pr = 0 /\
    0 < p_pid pr <= MAX_PROC /\ rendezvous_live s pr = true /\
    length (fileTable pr) = OPEN_MAX /\
    handles_ready s (fileTable pr) /\ locks_apart s (fileTable pr) /\
    ft_lock pr = Some fl /\ locks s !! fl = Some false /\
    not_handle_lock s (fileTable pr) fl /\
    (USE_SEMAPHORE_FOR_WAITPID = false ->
     p_cv_lock pr <> Some fl /\
     forall l, p_cv_lock pr = Some l -> not_handle_lock s (fileTable pr) l) /\
    match p_name pr with
    | Some n => is_Some (names s !! n)
    | None => True
    end.
Proof.
  unfold destroy_ready. destruct (procs s !! p) as [pr|]; [|done].
  intros Hr.
  apply andb_prop in Hr as [Hr Hname].
  apply andb_prop in Hr as [Hr Hnd%bool_decide_eq_true_1].
  apply andb_prop in Hr as [Hr (fl & Hfl & Hfree)%lock_free_Some].
  apply andb_prop in Hr as [Hr Hready%handles_ready_of_forallb].
  apply andb_prop in Hr as [Hr Hlen%bool_decide_eq_true_1].
  apply andb_prop in Hr as [Hr Hrv].
  apply andb_prop in Hr as [Hr Hpid2].
  apply andb_prop in Hr as [Hr Hpid1].
  apply andb_prop in Hr as [Hk%negb_true_iff%bool_decide_eq_false_1 Hnt].
  exists pr, fl. unfold owned_locks in Hnd. rewrite Hfl in Hnd.
  apply NoDup_cons in Hnd as [Hfl_out Hnd].
  apply NoDup_app in Hnd as (_ & Hcv & Hhl).
  rewrite elem_of_app in Hfl_out.
  assert (not_handle_lock s (fileTable pr) fl) as Hnot.
  { intros h Hin Heq. apply Hfl_out. right. rewrite <- Heq.
    apply list_elem_of_fmap_2. now apply elem_of_handles. }
  do 7 (split; [first [done|lia]|]).
  split; [|split; [done|split; [done|split; [done|split]]]].
  - intros h1 h2 H1 H2 Heq.
    apply (NoDup_fmap_eq (handle_lock s)
             (remove_dups (omap id (fileTable pr)))); try done;
      now apply elem_of_handles.
  - intros Hcfg. rewrite Hcfg in Hcv, Hfl_out. split.
    + intros Heq. apply Hfl_out. left. rewrite Heq. apply list_elem_of_here.
    + intros l Hl h Hin Heq. apply (Hcv (Some l)).
      * rewrite Hl. apply list_elem_of_here.
      * rewrite <- Heq. apply list_elem_of_fmap_2. now apply elem_of_handles.
  - destruct (p_name pr); [|done]. now apply bool_decide_eq_true_1 in Hname.
Qed.

(** The working directory is given up. *)
Lemma proc_destroy_cwd p pr s :
  procs s !! p = Some pr ->
  exists s1 pr1,
    match p_cwd pr with
    | Some cwd => VOP_DECREF (Some cwd) >> update_proc p (set_p_cwd None)
    | None => ret tt
    end s = Ok (tt, s1) /\
    procs s1 = <[p := pr1]> (procs s) /\
    same_teardown_fields pr pr1 /\ p_addrspace pr1 = p_addrspace pr /\
    quiet s s1.
Proof.
  intros Hp. destruct (p_cwd pr) as [cwd|].
  - unfold VOP_DECREF. kstep by reflexivity.
    erewrite update_proc_Ok by (cbn; exact Hp).
    eexists _, _. split; [reflexivity|]. cbn.
    split; [reflexivity|]. split; [now repeat split|]. split; [done|].
    quiet_solve.
  - exists s, pr. split; [reflexivity|].
    split; [symmetry; now apply insert_id|].
    split; [apply same_teardown_fields_refl|]. split; [done|].
    apply quiet_refl.
Qed.

(** The address space is detached and destroyed. *)
Lemma proc_destroy_addrspace p pr s :
  procs s !! p = Some pr ->
  exists s1 pr1,
    match p_addrspace pr with
    | Some _ =>
      let* s0 := get_state in
      let* a :=
        (if bool_decide (Some p = curproc s0)
         then
           let* a := proc_setas None in
           as_deactivate >>
           ret a
         else
           let* pr0 := load_proc p in
           update_proc p (set_p_addrspace None) >>
           ret (p_addrspace pr0)) in
      as_destroy a
    | None => ret tt
    end s = Ok (tt, s1) /\
    procs s1 = <[p := pr1]> (procs s) /\
    same_teardown_fields pr pr1 /\ quiet s s1.
Proof.
  intros Hp. destruct (p_addrspace pr) as [a|] eqn:Ha.
  - kstep. case_bool_decide as Hcur.
    + unfold proc_setas. rewrite !bind_assoc. kstep. rewrite <- Hcur.
      rewrite !bind_assoc. do 2 kstep. rewrite !bind_assoc.
      do 3 kstep. unfold as_deactivate. kstep. kstep. rewrite Ha.
      unfold as_destroy, emit, modify.
      eexists _, _. split; [reflexivity|]. cbn.
      split; [reflexivity|]. split; [now repeat split|]. quiet_solve.
    + rewrite !bind_assoc. do 3 kstep. rewrite Ha.
      unfold as_destroy, emit, modify.
      eexists _, _. split; [reflexivity|]. cbn.
      split; [reflexivity|]. split; [now repeat split|]. quiet_solve.
  - exists s, pr. split; [reflexivity|].
    split; [symmetry; now apply insert_id|].
    split; [apply same_teardown_fields_refl|]. apply quiet_refl.
Qed.

Lemma rendezvous_live_ext s s' pr pr' :
  sems s' = sems s -> cvs s' = cvs s -> locks s' = locks s ->
  same_teardown_fields pr pr' ->
  rendezvous_live s' pr' = rendezvous_live s pr.
Proof.
  intros Hs Hc Hl (_ & _ & Hsem & Hcv & Hcvl & _).
  unfold rendezvous_live. now rewrite Hs, Hc, Hl, Hsem, Hcv, Hcvl.
Qed.

(** [proc_destroy] on a PCB that is ready for it: the PCB is freed and
    its slot of the table cleared, each handle loses the references
    the file table held, and the node of a handle is closed once if
    that leaves it without references, and not otherwise. *)
Lemma proc_destroy_Ok p s :
  destroy_ready s p = true ->
  exists pr s',
    procs s !! p = Some pr /\
    proc_destroy (Some p) s = Ok (tt, s') /\
    procs s' = delete p (procs s) /\
    processTable s' =
      {| pt_proc := delete (p_pid pr) (pt_proc (processTable s));
         last_i := last_i (processTable s); is_full := false |} /\
    (forall h,
       openfiles s' !! h =
       (fun o => set_countRef
                   (countRef o - Z.of_nat (refs_in h (fileTable pr))) o)
         <$> openfiles s !! h) /\
    (forall h,
       closes h (trace s') =
       (closes h (trace s) + closed_by s (fileTable pr) h)%nat) /\
    kproc s' = kproc s /\ curproc s' = curproc s /\
    ft_copy_lock s' = ft_copy_lock s.
Proof.
  intros Hready.
  destruct (destroy_ready_unfold _ _ Hready)
    as (pr & fl & Hp & Hk & Hnt & Hpid & Hrv & Hlen & Hhs & Hapart & Hfl
        & Hflfree & Hflnot & Hcv & Hname).
  exists pr. unfold proc_destroy. kstep.
  rewrite bool_decide_eq_false_2 by done. cbn [negb]. do 2 kstep.
  destruct (proc_destroy_cwd p pr s Hp)
    as (s1 & pr1 & E1 & Hprocs1 & Hf1 & Has1 & Hq1).
  kstep by exact E1.
  kstep by (apply load_proc_Ok; rewrite Hprocs1; apply lookup_insert_eq).
  destruct (proc_destroy_addrspace p pr1 s1)
    as (s2 & pr2 & E2 & Hprocs2 & Hf2 & Hq2).
  { rewrite Hprocs1. apply lookup_insert_eq. }
  kstep by exact E2.
  kstep by (apply load_proc_Ok; rewrite Hprocs2; apply lookup_insert_eq).
  pose proof (same_teardown_fields_trans _ _ _ Hf1 Hf2) as Hf12.
  pose proof (quiet_trans _ _ _ Hq1 Hq2) as Hq12.
  assert ((p_numthreads pr2 =? 0) = true) as ->.
  { destruct Hf12 as (_ & -> & _). lia. }
  kstep. unfold spinlock_cleanup.
  kstep by (apply update_proc_Ok; rewrite Hprocs2; apply lookup_insert_eq).
  unfold emit at 1. kstep.
  set (pr3 := set_p_lock false pr2).
  set (s3 := with_trace _ _).
  assert (procs s3 = <[p := pr3]> (procs s2)) as Hprocs3 by reflexivity.
  assert (same_teardown_fields pr pr3) as Hf3.
  { apply (same_teardown_fields_trans _ _ _ Hf12). now repeat split. }
  assert (quiet s s3) as Hq3.
  { apply (quiet_trans _ _ _ Hq12). unfold s3. quiet_solve. }
  clearbody s3. clear E1 E2.
  destruct Hq3 as (Hfr3 & Hof3 & Hlk3 & Hcl3).
  pose proof Hfr3 as (Ht3 & Hfc3 & Hk3 & Hc3 & Hnm3 & Hsm3 & Hcv3 & Hor3).
  pose proof Hf3 as (Hpid3 & _ & Hsem3 & Hcvv3 & Hcvl3 & Hfl3 & Hft3 & Hname3).
  assert (procs s3 !! p = Some pr3) as Hp3.
  { rewrite Hprocs3. apply lookup_insert_eq. }
  destruct (proc_end_waitpid_Ok p pr3 s3) as [s4 E4].
  { exact Hp3. }
  { now rewrite Hpid3. }
  { rewrite <- Hrv. now apply rendezvous_live_ext. }
  pose proof (proc_end_waitpid_inv _ _ _ E4)
    as (pr3' & Hp3' & _ & Ht4 & Hprocs4 & Hof4 & Htr4 & Hnm4 & Hk4 & Hc4
        & Hfc4 & Hor4 & Hlk4).
  assert (pr3' = pr3) as -> by congruence.
  kstep by exact E4.
  assert (forall l, (USE_SEMAPHORE_FOR_WAITPID = false -> p_cv_lock pr <> Some l) ->
                    locks s4 !! l = locks s !! l) as Hlk4'.
  { intros l Hl. rewrite Hlk4, Hlk3; [done|]. now rewrite Hcvl3. }
  assert (forall h, handle_lock s4 h = handle_lock s h) as Hhl4.
  { intros h. unfold handle_lock. now rewrite Hof4, Hof3. }
  destruct (proc_destroy_loop p (fileTable pr) 0 s4 pr3 [] [])
    as (s5 & E5 & Hprocs5 & Hof5 & Hcl5 & Hlk5 & Hfr5).
  { now rewrite Hprocs4. }
  { now rewrite app_nil_r. }
  { reflexivity. }
  { intros h Hin. destruct (Hhs h Hin) as (o & l & Ho & Hl & Hfree & Hc).
    exists o, l. rewrite Hof4, Hof3. repeat split; try done.
    rewrite Hlk4'; [done|]. intros Hcfg Heq.
    apply (proj2 (Hcv Hcfg) l Heq h Hin). unfold handle_lock.
    now rewrite Ho. }
  { intros h1 h2 H1 H2. rewrite !Hhl4. now apply Hapart. }
  rewrite Hlen in E5. kstep by exact E5.
  cbn [app] in Hprocs5. rewrite app_nil_r in Hprocs5.
  kstep by (apply load_proc_Ok; rewrite Hprocs5; apply lookup_insert_eq).
  cbn [ft_lock p_name set_fileTable]. rewrite Hfl3, Hfl, Hname3.
  assert (locks s5 !! fl = Some false) as Hfl5.
  { rewrite Hlk5.
    - rewrite Hlk4'; [done|]. intros Hcfg. apply (proj1 (Hcv Hcfg)).
    - intros h Hin. rewrite Hhl4. now apply Hflnot. }
  kstep by (apply lock_destroy_Ok; exact Hfl5).
  assert (names s5 = names s) as Hnm5.
  { destruct Hfr5 as (_ & _ & _ & _ & -> & _). now rewrite Hnm4. }
  assert (exists s6,
            kfree_name (p_name pr) (with_locks (delete fl (locks s5)) s5)
            = Ok (tt, s6) /\
            s6 = with_names (names s6) (with_locks (delete fl (locks s5)) s5))
    as (s6 & E6 & Hs6).
  { unfold kfree_name. destruct (p_name pr) as [n|].
    - cbn [names with_locks]. rewrite Hnm5. destruct Hname as [x ->].
      eexists. split; [reflexivity|]. reflexivity.
    - eexists. split; [reflexivity|]. cbn. now destruct s5. }
  kstep by exact E6. unfold kfree_proc.
  kstep by (apply load_proc_Ok; rewrite Hs6; cbn; rewrite Hprocs5;
            apply lookup_insert_eq).
  eexists. split; [done|]. split; [reflexivity|]. cbn.
  rewrite Hs6. cbn.
  split; [|split; [|split; [|split; [|split; [|split]]]]].
  - rewrite Hprocs5, Hprocs4, Hprocs3, Hprocs2, Hprocs1.
    now rewrite !delete_insert_eq.
  - destruct Hfr5 as (-> & _). rewrite Ht4, Ht3, Hpid3. reflexivity.
  - intros h. now rewrite Hof5, Hof4, Hof3.
  - intros h. rewrite Hcl5, Htr4, Hcl3. f_equal.
    unfold closed_by. now rewrite Hof4, Hof3.
  - destruct Hfr5 as (_ & _ & -> & _). congruence.
  - destruct Hfr5 as (_ & _ & _ & -> & _). congruence.
  - destruct Hfr5 as (_ & -> & _). congruence.
Qed.

End destroy_all_facts.

(** ** Reference counts: claims *)

Section files_claims.
Context {cfg : Config}.

Lemma proc_destroy_keeps_refcount p s :
  refcount_inv s -> destroy_ready s p = true ->
  exists s', proc_destroy (Some p) s = Ok (tt, s') /\ refcount_inv s'.
Proof.
  intros Hinv Hready.
  destruct (proc_destroy_Ok p s Hready)
    as (pr & s' & Hp & E & Hprocs & _ & Hof & _).
  exists s'. split; [exact E|]. intros h o' Ho'.
  rewrite Hof in Ho'. destruct (openfiles s !! h) as [o|] eqn:Ho; [|done].
  injection Ho' as <-. cbn. rewrite (Hinv h o Ho), Hprocs.
  rewrite (total_refs_delete (procs s) p pr h Hp). lia.
Qed.

(** C3, for a copy into an empty file table: in a state where every
    reference count equals the number of file-table slots that hold the
    handle, (1) a copy into a process whose file table is empty returns
    and keeps that property, and (2) destroying a process returns and
    keeps it. *)
Theorem refcount_invariant_preserved (s : kstate) :
  refcount_inv s ->
  (forall psrc pdest ps pd,
     copy_ready s psrc pdest = true ->
     procs s !! psrc = Some ps -> procs s !! pdest = Some pd ->
     table_empty (fileTable pd) ->
     exists s', proc_file_table_copy psrc pdest s = Ok (tt, s') /\
                refcount_inv s') /\
  (forall p,
     destroy_ready s p = true ->
     exists s', proc_destroy (Some p) s = Ok (tt, s') /\ refcount_inv s').
Proof.
  intros Hinv. split.
  - intros psrc pdest ps pd. now apply proc_file_table_copy_keeps_refcount.
  - intros p. now apply proc_destroy_keeps_refcount.
Qed.

(** C6: let the reference counts equal the numbers of slots, and let
    the file tables of two processes A and B both hold the handle [h].
    Destroying A returns, leaves [h] with a positive count and makes no
    [vfs_close] call for it, and leaves B and the invariant as they
    were.  If B then holds all the references to [h] that are left,
    destroying B makes exactly one [vfs_close] call for [h] and leaves
    its count at zero. *)
Theorem last_reference_closes_node (s : kstate) (A B h : ptr)
    (pa pb : proc) (o : openfile) :
  refcount_inv s -> A <> B ->
  procs s !! A = Some pa -> procs s !! B = Some pb ->
  openfiles s !! h = Some o -> is_Some (vn o) ->
  Some h ∈ fileTable pa -> Some h ∈ fileTable pb ->
  destroy_ready s A = true ->
  exists s1,
    proc_destroy (Some A) s = Ok (tt, s1) /\
    (exists o1, openfiles s1 !! h = Some o1 /\ 0 < countRef o1) /\
    closes h (trace s1) = closes h (trace s) /\
    procs s1 !! B = Some pb /\ refcount_inv s1 /\
    (destroy_ready s1 B = true ->
     total_refs (procs s1) h = refs_in h (fileTable pb) ->
     exists s2,
       proc_destroy (Some B) s1 = Ok (tt, s2) /\
       closes h (trace s2) = (closes h (trace s) + 1)%nat /\
       countRef <$> openfiles s2 !! h = Some 0).
Proof.
  intros Hinv Hne Hpa Hpb Ho Hvn Hina Hinb Hready.
  destruct (proc_destroy_Ok A s Hready)
    as (pa' & s1 & Hpa' & E1 & Hprocs1 & _ & Hof1 & Hcl1 & _).
  assert (pa' = pa) as -> by congruence.
  assert (procs s1 !! B = Some pb) as Hpb1.
  { rewrite Hprocs1. now rewrite lookup_delete_ne. }
  pose proof (refs_in_elem h _ Hina) as Hra.
  pose proof (refs_in_elem h _ Hinb) as Hrb.
  assert (countRef o
          = Z.of_nat (refs_in h (fileTable pa) + total_refs (procs s1) h)) as Hc.
  { rewrite (Hinv h o Ho), Hprocs1.
    now rewrite (total_refs_delete (procs s) A pa h Hpa). }
  assert (refs_in h (fileTable pb) <= total_refs (procs s1) h)%nat as Hge.
  { rewrite (total_refs_delete (procs s1) B pb h Hpb1). lia. }
  assert (refcount_inv s1) as Hinv1.
  { destruct (proc_destroy_keeps_refcount A s Hinv Hready) as (s1' & E1' & ?).
    rewrite E1 in E1'. now injection E1' as <-. }
  exists s1. split; [exact E1|].
  split; [|split; [|split; [exact Hpb1|split; [exact Hinv1|]]]].
  - eexists. rewrite Hof1, Ho. split; [reflexivity|]. cbn. lia.
  - rewrite Hcl1. unfold closed_by. rewrite Ho.
    assert ((countRef o =? Z.of_nat (refs_in h (fileTable pa))) = false)
      as -> by lia.
    rewrite andb_false_r. cbn. lia.
  - intros Hready1 Hlast.
    destruct (proc_destroy_Ok B s1 Hready1)
      as (pb' & s2 & Hpb' & E2 & _ & _ & Hof2 & Hcl2 & _).
    assert (pb' = pb) as -> by congruence.
    exists s2. split; [exact E2|].
    assert (openfiles s1 !! h
            = Some (set_countRef
                      (countRef o - Z.of_nat (refs_in h (fileTable pa))) o))
      as Ho1 by (now rewrite Hof1, Ho).
    split.
    + rewrite Hcl2, Hcl1. unfold closed_by at 2. rewrite Ho1.
      cbn [countRef set_countRef vn].
      rewrite (bool_decide_eq_true_2 (refs_in h (fileTable pb) <> 0%nat)) by lia.
      rewrite (bool_decide_eq_true_2 (is_Some (vn o))) by done.
      assert ((countRef o - Z.of_nat (refs_in h (fileTable pa))
               =? Z.of_nat (refs_in h (fileTable pb))) = true) as -> by lia.
      unfold closed_by. rewrite Ho.
      assert ((countRef o =? Z.of_nat (refs_in h (fileTable pa))) = false)
        as -> by lia.
      rewrite andb_false_r. cbn. lia.
    + rewrite Hof2, Ho1. cbn. f_equal. lia.
Qed.

End files_claims.

(** C3 fails for a copy over an occupied file table: in
    [one_file_open] the counts equal the numbers of slots; copying B's
    empty file table over A's empties A's descriptor 3 but leaves the
    handle with a count of 1, which no slot accounts for. *)
Lemma copy_breaks_refcount :
  refcount_inv one_file_open /\
  exists s',
    proc_file_table_copy (cfg := shell_config) 10 6 one_file_open
    = Ok (tt, s') /\
    countRef <$> openfiles s' !! 100%positive = Some 1 /\
    total_refs (procs s') 100 = 0%nat /\
    ~ refcount_inv s'.
Proof.
  split; [apply (bool_decide_unpack _); vm_compute; exact I|].
  eexists. split; [vm_compute; reflexivity|].
  split; [vm_compute; reflexivity|]. split; [vm_compute; reflexivity|].
  intros Hinv. apply (bool_decide_pack _) in Hinv.
  vm_compute in Hinv. exact Hinv.
Qed.

(** An instance of C3: A's file table copied into the empty
    table of B, and B destroyed. *)
Lemma refcount_invariant_preserved_witness :
  (exists s', proc_file_table_copy (cfg := shell_config) 6 10 one_file_open
              = Ok (tt, s') /\ refcount_inv s') /\
  (exists s', proc_destroy (cfg := shell_config) (Some 10%positive) one_file_open
              = Ok (tt, s') /\ refcount_inv s').
Proof.
  assert (refcount_inv one_file_open) as Hinv.
  { apply (bool_decide_unpack _). vm_compute. exact I. }
  destruct (refcount_invariant_preserved (cfg := shell_config)
              one_file_open Hinv) as [Hcopy Hdestroy].
  split.
  - assert (exists ps, procs one_file_open !! 6%positive = Some ps)
      as [ps Hps] by (eexists; vm_compute; reflexivity).
    assert (exists pd, procs one_file_open !! 10%positive = Some pd /\
                       fileTable pd = replicate 128 None)
      as (pd & Hpd & Hfd).
    { eexists. split; [vm_compute; reflexivity|]. reflexivity. }
    apply (Hcopy 6%positive 10%positive ps pd).
    + vm_compute. reflexivity.
    + exact Hps.
    + exact Hpd.
    + rewrite Hfd. apply Forall_replicate. reflexivity.
  - apply Hdestroy. vm_compute. reflexivity.
Defined.

(** An instance of C6: A and B share the open file; A is destroyed, then
    B. *)
Lemma last_reference_closes_node_witness :
  exists s1 s2,
    proc_destroy (cfg := shell_config) (Some 6%positive) file_shared
    = Ok (tt, s1) /\
    closes 100 (trace s1) = 0%nat /\
    proc_destroy (cfg := shell_config) (Some 10%positive) s1 = Ok (tt, s2) /\
    closes 100 (trace s2) = 1%nat.
Proof.
  assert (exists pa, procs file_shared !! 6%positive = Some pa /\
                     fileTable pa !! 3%nat = Some (Some 100%positive))
    as (pa & Hpa & Hfa).
  { eexists. split; [vm_compute; reflexivity|]. reflexivity. }
  assert (exists pb, procs file_shared !! 10%positive = Some pb /\
                     fileTable pb !! 3%nat = Some (Some 100%positive) /\
                     refs_in 100 (fileTable pb) = 1%nat)
    as (pb & Hpb & Hfb & Hrb).
  { eexists. split; [vm_compute; reflexivity|]. split; reflexivity. }
  assert (exists o, openfiles file_shared !! 100%positive = Some o /\
                    vn o = Some 200%positive) as (o & Ho & Hvn).
  { eexists. split; [vm_compute; reflexivity|]. reflexivity. }
  destruct (last_reference_closes_node (cfg := shell_config)
              file_shared 6 10 100 pa pb o)
    as (s1 & E1 & _ & Hcl1 & _ & _ & Hlast).
  - apply (bool_decide_unpack _). vm_compute. exact I.
  - discriminate.
  - exact Hpa.
  - exact Hpb.
  - exact Ho.
  - rewrite Hvn. eauto.
  - apply list_elem_of_lookup. eauto.
  - apply list_elem_of_lookup. eauto.
  - vm_compute. reflexivity.
  - assert (s1 = run_from (proc_destroy (cfg := shell_config) (Some 6%positive))
                   file_shared) as Hs1.
    { unfold run_from. now rewrite E1. }
    destruct Hlast as (s2 & E2 & Hcl2 & _).
    + rewrite Hs1. vm_compute. reflexivity.
    + rewrite Hs1, Hrb. vm_compute. reflexivity.
    + exists s1, s2. split; [exact E1|]. split; [|split; [exact E2|]].
      * rewrite Hcl1. vm_compute. reflexivity.
      * rewrite Hcl2. vm_compute. reflexivity.
Defined.

(** ** The wait/exit rendezvous *)

Section wait_facts.
Context {cfg : Config}.

(** [destroy_ready] looks only at the fields and objects the teardown
    uses. *)
Lemma destroy_ready_ext s s' p pr pr' :
  procs s !! p = Some pr -> procs s' !! p = Some pr' ->
  kproc s' = kproc s -> openfiles s' = openfiles s ->
  locks s' = locks s -> names s' = names s ->
  rendezvous_live s' pr' = rendezvous_live s pr ->
  p_numthreads pr' = p_numthreads pr -> p_pid pr' = p_pid pr ->
  fileTable pr' = fileTable pr -> ft_lock pr' = ft_lock pr ->
  p_cv_lock pr' = p_cv_lock pr -> p_name pr' = p_name pr ->
  destroy_ready s' p = destroy_ready s p.
Proof.
  intros Hp Hp' Hk Hof Hlk Hnm Hrv Hnt Hpid Hft Hfl Hcvl Hname.
  unfold destroy_ready. rewrite Hp, Hp', Hk, Hrv, Hnt, Hpid, Hft, Hname, Hnm.
  assert (forall x, handle_ready s' (fileTable pr) x
                    = handle_ready s (fileTable pr) x) as Hhr.
  { intros [h|]; [|done]. cbn. rewrite Hof.
    destruct (openfiles s !! h) as [o|]; [|done].
    unfold lock_free. now rewrite Hlk. }
  rewrite (forallb_pointwise _ _ _ Hhr).
  assert (lock_free s' (ft_lock pr') = lock_free s (ft_lock pr)) as ->.
  { unfold lock_free. now rewrite Hfl, Hlk. }
  assert (owned_locks s' pr' = owned_locks s pr) as ->; [|done].
  unfold owned_locks. rewrite Hfl, Hcvl, Hft. do 2 f_equal.
  apply list_fmap_ext. intros _ h _. unfold handle_lock. now rewrite Hof.
Qed.

(** A free slot is looked up as empty, whatever [PID_MIN] is. *)
Lemma proc_search_pid_free pid s :
  0 <= pid -> pt_proc (processTable s) !! pid = None ->
  proc_search_pid pid s = Ok (None, s).
Proof.
  intros H0 Hfree.
  destruct ((pid <? PID_MIN) || (pid >? MAX_PROC)) eqn:Hr.
  - now apply proc_search_pid_out_of_range.
  - apply proc_search_pid_empty; [lia|done|done].
Qed.

(** C2: in the semaphore build, for a process [p] that is ready to be
    destroyed (in particular: not the kernel process) and any exit
    status [st] of type [int]: once the exiting side has stored [st] in
    [p->p_status] and called [proc_signal_end], one call of [proc_wait]
    returns [st]; after it the PCB is freed and looking up the
    identifier [p] had returns [NULL]. *)
Theorem wait_returns_exit_status (s : kstate) (p : ptr) (pr : proc)
    (sem : ptr) (c st : Z) :
  USE_SEMAPHORE_FOR_WAITPID = true ->
  destroy_ready s p = true ->
  procs s !! p = Some pr ->
  p_sem pr = Some sem -> sems s !! sem = Some c -> 0 <= c ->
  is_int st ->
  exists s1 s2 s3,
    update_proc p (set_p_status st) s = Ok (tt, s1) /\
    proc_signal_end p s1 = Ok (tt, s2) /\
    proc_wait (Some p) s2 = Ok (st, s3) /\
    procs s3 !! p = None /\
    proc_search_pid (p_pid pr) s3 = Ok (None, s3).
Proof.
  intros Hcfg Hready Hp Hsem Hc Hc0 _.
  destruct (destroy_ready_unfold _ _ Hready)
    as (pr0 & fl & Hp0 & Hk & _ & Hpid & _).
  assert (pr0 = pr) as -> by congruence.
  set (pr1 := set_p_status st pr).
  set (s1 := with_procs (<[p := pr1]> (procs s)) s).
  set (s2 := with_sems (<[sem := c + 1]> (sems s)) s1).
  set (s2' := with_sems (<[sem := c + 1 - 1]> (sems s2)) s2).
  assert (destroy_ready s2' p = true) as Hready2.
  { rewrite <- Hready.
    apply (destroy_ready_ext s s2' p pr pr1); try done.
    - apply lookup_insert_eq.
    - unfold rendezvous_live. rewrite Hcfg. cbn [p_sem pr1 set_p_status].
      rewrite Hsem. cbn [sems s2' s2 s1 with_sems with_procs].
      rewrite insert_insert_eq, lookup_insert_eq, Hc.
      now rewrite !bool_decide_eq_true_2 by eauto. }
  destruct (proc_destroy_Ok p s2' Hready2)
    as (pr2 & s3 & Hp2 & E3 & Hprocs3 & Ht3 & _).
  assert (pr2 = pr1) as ->.
  { cbn in Hp2. rewrite lookup_insert_eq in Hp2. congruence. }
  exists s1, s2, s3.
  split; [now apply update_proc_Ok|].
  split; [|split; [|split]].
  - unfold proc_signal_end.
    kstep by (apply load_proc_Ok; apply lookup_insert_eq).
    rewrite Hcfg. cbn [p_sem pr1 set_p_status]. rewrite Hsem.
    unfold V. cbn [sems s1 with_procs]. now rewrite Hc.
  - unfold proc_wait. kstep.
    rewrite bool_decide_eq_false_2 by done. cbn [negb]. kstep.
    kstep by (apply load_proc_Ok; apply lookup_insert_eq).
    rewrite Hcfg. cbn [p_sem pr1 set_p_status]. rewrite Hsem.
    assert (P (Some sem) s2 = Ok (tt, s2')) as EP.
    { unfold P. cbn [sems s2 with_sems]. rewrite lookup_insert_eq.
      assert ((0 <? c + 1) = true) as -> by lia. reflexivity. }
    kstep by exact EP.
    kstep by (apply load_proc_Ok; apply lookup_insert_eq).
    kstep by exact E3. reflexivity.
  - rewrite Hprocs3. apply lookup_delete_eq.
  - apply proc_search_pid_free; [lia|]. rewrite Ht3. cbn.
    apply lookup_delete_eq.
Qed.

(** In the condition-variable build a signal raised before the wait is
    lost: the same sequence leaves the waiter asleep. *)
Lemma cv_build_wait_sleeps (s : kstate) (p : ptr) (pr : proc) :
  USE_SEMAPHORE_FOR_WAITPID = false ->
  procs s !! p = Some pr -> Some p <> kproc s ->
  rendezvous_live s pr = true ->
  exists s2,
    proc_signal_end p s = Ok (tt, s2) /\
    proc_wait (Some p) s2 = Blocks.
Proof.
  intros Hcfg Hp Hk Hrv. unfold rendezvous_live in Hrv. rewrite Hcfg in Hrv.
  destruct (p_cv pr) as [cv|] eqn:Hcv; [|done].
  destruct (p_cv_lock pr) as [l|] eqn:Hl; [|done].
  apply andb_prop in Hrv as [Hin%bool_decide_eq_true_1 Hfree%bool_decide_eq_true_1].
  exists s. split.
  - unfold proc_signal_end. kstep. rewrite Hcfg, Hl, Hcv.
    kstep by (apply lock_acquire_Ok; exact Hfree).
    unfold cv_signal. unfold bind at 1. cbn [cvs with_locks].
    rewrite bool_decide_eq_true_2 by done.
    rewrite lock_release_Ok by (cbn; apply lookup_insert_eq).
    cbn. rewrite insert_insert_eq, insert_id by done. now destruct s.
  - unfold proc_wait. kstep.
    rewrite bool_decide_eq_false_2 by done. cbn [negb]. do 2 kstep.
    rewrite Hcfg, Hl, Hcv. rewrite !bind_assoc.
    kstep by (apply lock_acquire_Ok; exact Hfree).
    unfold bind, cv_wait. cbn [cvs with_locks].
    now rewrite bool_decide_eq_true_2 by done.
Qed.

End wait_facts.

(** An instance of C2: the process of pid 2 in a kernel of two processes
    exits with status 42. *)
Lemma wait_returns_exit_status_witness :
  exists s1 s2 s3,
    update_proc 6 (set_p_status 42) two_procs_and_raw = Ok (tt, s1) /\
    proc_signal_end (cfg := shell_config) 6 s1 = Ok (tt, s2) /\
    proc_wait (cfg := shell_config) (Some 6%positive) s2 = Ok (42, s3) /\
    procs s3 !! 6%positive = None /\
    proc_search_pid (cfg := shell_config) 2 s3 = Ok (None, s3).
Proof.
  assert (exists pr, procs two_procs_and_raw !! 6%positive = Some pr /\
                     p_pid pr = 2 /\ p_sem pr = Some 9%positive)
    as (pr & Hpr & Hpid & Hsem).
  { eexists. split; [vm_compute; reflexivity|]. split; reflexivity. }
  rewrite <- Hpid.
  apply (wait_returns_exit_status (cfg := shell_config)
           two_procs_and_raw 6 pr 9 0 42).
  - reflexivity.
  - vm_compute. reflexivity.
  - exact Hpr.
  - exact Hsem.
  - vm_compute. reflexivity.
  - lia.
  - unfold is_int, INT_MIN, INT_MAX. lia.
Defined.
(** ** Creation against a full table *)

Lemma fresh_addr_fresh s : fresh_addr s ∉ allocated s.
Proof. exact (is_fresh (allocated s)). Qed.

Lemma not_in_allocated x s :
  x ∉ allocated s <->
  procs s !! x = None /\ names s !! x = None /\ locks s !! x = None /\
  sems s !! x = None /\ (x ∉ cvs s) /\ openfiles s !! x = None.
Proof.
  unfold allocated. rewrite !not_elem_of_union, !not_elem_of_dom. tauto.
Qed.

Lemma kmalloc_succeeds_true s :
  memory_for 1 s = true -> kmalloc_succeeds s = Ok (true, consume s).
Proof.
  unfold memory_for, kmalloc_succeeds, consume.
  destruct s as [t c k cu pr nm lk sm cv ofs [|[|] rest] tr]; cbn; try done.
Qed.

Lemma memory_for_consume n s :
  memory_for (S n) s = true -> memory_for n (consume s) = true.
Proof.
  unfold memory_for, consume.
  destruct s as [t c k cu pr nm lk sm cv ofs [|b rest] tr]; cbn.
  - now destruct n.
  - now intros [_ H]%andb_prop.
Qed.

Lemma memory_for_one n s : memory_for (S n) s = true -> memory_for 1 s = true.
Proof.
  unfold memory_for.
  destruct (kmalloc_oracle s) as [|b rest]; cbn; [done|].
  intros [-> _]%andb_prop. now rewrite take_0.
Qed.

Lemma iter_tail_drop {A} k (l : list A) : Nat.iter k tail l = drop k l.
Proof.
  induction k as [|k IH]; [done|].
  change (Nat.iter (S k) tail l) with (tail (Nat.iter k tail l)). rewrite IH.
  replace (tail (drop k l)) with (drop 1 (drop k l))
    by now destruct (drop k l).
  now rewrite drop_drop, Nat.add_1_r.
Qed.

(** When the next allocations find memory, so does each of them. *)
Lemma memory_for_alloc_nth n k s :
  memory_for n s = true -> (k < n)%nat -> alloc_nth k s = true.
Proof.
  unfold memory_for, alloc_nth. rewrite iter_tail_drop.
  intros Hall Hk. rewrite forallb_forall in Hall.
  destruct (drop k (kmalloc_oracle s)) as [|b rest] eqn:Hd; [done|].
  cbn. apply (Hall b), list_elem_of_In, elem_of_take.
  exists k. split; [|done].
  now rewrite <- (Nat.add_0_r k), <- lookup_drop, Hd.
Qed.

Lemma memory_for_le n m s :
  memory_for n s = true -> (m <= n)%nat -> memory_for m s = true.
Proof.
  unfold memory_for. intros Hall Hm. rewrite forallb_forall in *.
  intros b Hb. apply Hall.
  apply list_elem_of_In, elem_of_take in Hb as (i & Hi & Hlt).
  apply list_elem_of_In, elem_of_take. exists i. split; [done|lia].
Qed.

Lemma kfree_name_Ok a x s :
  names s !! a = Some x ->
  kfree_name (Some a) s = Ok (tt, with_names (delete a (names s)) s).
Proof. intros E. unfold kfree_name. now rewrite E. Qed.

Lemma kfree_proc_Ok p pr s :
  procs s !! p = Some pr ->
  kfree_proc p s = Ok (tt, with_procs (delete p (procs s)) s).
Proof.
  intros E. unfold kfree_proc.
  now rewrite (bind_Ok _ _ _ _ _ (load_proc_Ok _ _ _ E)).
Qed.

Lemma spinlock_cleanup_Ok p pr s :
  procs s !! p = Some pr ->
  spinlock_cleanup p s
  = Ok (tt, with_trace (trace s ++ [Call_spinlock_cleanup p])
              (with_procs (<[p := set_p_lock false pr]> (procs s)) s)).
Proof.
  intros E. unfold spinlock_cleanup.
  now rewrite (bind_Ok _ _ _ _ _ (update_proc_Ok _ _ _ _ E)).
Qed.

Section create_facts.
Context {cfg : Config}.

Lemma kmalloc_proc_Ok s :
  memory_for 1 s = true ->
  kmalloc_proc s
  = Ok (Some (fresh_addr s),
        with_procs (<[fresh_addr s := raw_proc]> (procs s)) (consume s)).
Proof.
  intros H. unfold kmalloc_proc.
  now rewrite (bind_Ok _ _ _ _ _ (kmalloc_succeeds_true _ H)).
Qed.

Lemma kstrdup_Ok name s :
  memory_for 1 s = true ->
  kstrdup name s
  = Ok (Some (fresh_addr s),
        with_names (<[fresh_addr s := name]> (names s)) (consume s)).
Proof.
  intros H. unfold kstrdup.
  now rewrite (bind_Ok _ _ _ _ _ (kmalloc_succeeds_true _ H)).
Qed.

(** [proc_create] is its two halves one after the other. *)
Lemma proc_create_split name s :
  proc_create name s
  = (let* p := proc_create_register name in proc_create_finish p) s.
Proof.
  unfold proc_create, proc_create_register.
  rewrite bind_assoc. apply bind_ext. intros [proc|] s1; [|reflexivity].
  rewrite bind_assoc. apply bind_ext. intros nm s2.
  rewrite bind_assoc. apply bind_ext. intros _ s3.
  destruct nm as [n|].
  2:{ rewrite bind_assoc. apply bind_ext. intros _ s4. reflexivity. }
  do 6 (rewrite bind_assoc; apply bind_ext; intros _ ?).
  rewrite bind_assoc. apply bind_ext. intros l s10.
  rewrite bind_assoc. apply bind_ext. intros _ s11.
  rewrite bind_assoc. apply bind_ext. intros _ s12.
  reflexivity.
Qed.

(** The first half up to the registration, when there is memory for the
    PCB and the name: the lock of the file table is a new, free lock or
    [NULL], as the third allocation goes, and is stored in the PCB in
    either case. *)
Lemma proc_create_register_prefix name s :
  memory_for 2 s = true ->
  exists n l s0,
    proc_create_register name s
    = (proc_init_waitpid (fresh_addr s) name >> ret (Some (fresh_addr s))) s0 /\
    procs s0 =
      <[fresh_addr s :=
          unregistered_pcb n (if alloc_nth 2 s then Some l else None)]>
        (procs s) /\
    names s0 = <[n := name]> (names s) /\
    locks s0 = (if alloc_nth 2 s then <[l := false]> (locks s) else locks s) /\
    processTable s0 = processTable s /\
    sems s0 = sems s /\ cvs s0 = cvs s /\ openfiles s0 = openfiles s /\
    trace s0 = trace s /\ kproc s0 = kproc s /\ curproc s0 = curproc s /\
    ft_copy_lock s0 = ft_copy_lock s /\
    kmalloc_oracle s0 = Nat.iter 3 tail (kmalloc_oracle s) /\
    (fresh_addr s ∉ allocated s) /\ (n ∉ allocated s) /\ (l ∉ allocated s) /\
    n <> fresh_addr s /\ l <> fresh_addr s /\ l <> n.
Proof.
  intros Hmem.
  pose proof (fresh_addr_fresh s) as Ha.
  set (a := fresh_addr s) in *.
  set (sa := with_procs (<[a := raw_proc]> (procs s)) (consume s)).
  pose proof (fresh_addr_fresh sa) as Hn.
  set (n := fresh_addr sa) in *.
  unfold proc_create_register.
  kstep by (apply kmalloc_proc_Ok; eapply memory_for_one, Hmem).
  fold a. fold sa.
  assert (memory_for 1 sa = true) as Hmem'
    by exact (memory_for_consume 1 s Hmem).
  kstep by (apply kstrdup_Ok, Hmem').
  fold n.
  do 7 (kstep; rewrite ?with_procs_twice; ksimpl_in_all;
        rewrite ?insert_insert_eq).
  kstep.
  match goal with |- context [next_alloc ?x] =>
    pose proof (fresh_addr_fresh x) as Hl; set (l := fresh_addr x) in *;
    change (next_alloc x) with (alloc_nth 2 s)
  end.
  kstep; ksimpl_in_all; rewrite ?insert_insert_eq.
  rewrite ?with_procs_twice.
  exists n, l. eexists. split; [reflexivity|]. ksimpl_in_all.
  unfold sa at 1. ksimpl_in_all. rewrite insert_insert_eq.
  do 12 (split; [reflexivity|]).
  clearbody a n l.
  rewrite not_in_allocated in Ha, Hn, Hl. rewrite !not_in_allocated.
  unfold sa in *. ksimpl_in_all.
  rewrite ?lookup_insert_None in *.
  clear Hmem'. intuition congruence.
Qed.

(** The first half when the scan finds nothing. *)
Lemma proc_create_register_full name s :
  memory_for 2 s = true ->
  find_free_pid (processTable s) = Ok None ->
  exists n l pr s1,
    proc_create_register name s = Ok (Some (fresh_addr s), s1) /\
    procs s1 = <[fresh_addr s := pr]> (procs s) /\
    p_name pr = Some n /\
    ft_lock pr = (if alloc_nth 2 s then Some l else None) /\ p_pid pr = 0 /\
    names s1 = <[n := name]> (names s) /\
    locks s1 = (if alloc_nth 2 s then <[l := false]> (locks s) else locks s) /\
    processTable s1 = set_is_full true (processTable s) /\
    sems s1 = sems s /\ cvs s1 = cvs s /\ openfiles s1 = openfiles s /\
    trace s1 = trace s /\ kproc s1 = kproc s /\ curproc s1 = curproc s /\
    kmalloc_oracle s1 = Nat.iter 3 tail (kmalloc_oracle s) /\
    procs s !! fresh_addr s = None /\ names s !! n = None /\
    locks s !! l = None.
Proof.
  intros Hmem Hfull.
  destruct (proc_create_register_prefix name s Hmem)
    as (n & l & s0 & E & Hprocs & Hnames & Hlocks & Ht & Hsems & Hcvs & Hof
        & Htr & Hk & Hc & Hfc & Ho & Ha & Hn & Hl & _).
  rewrite E.
  erewrite bind_Ok
    by (eapply proc_init_waitpid_full;
        [rewrite Hprocs; apply lookup_insert_eq | rewrite Ht; exact Hfull]).
  exists n, l. eexists _, _. split; [reflexivity|].
  unfold registration_failed. ksimpl_in_all.
  rewrite Hprocs, insert_insert_eq, Ht.
  apply not_in_allocated in Ha as (Ha & _).
  apply not_in_allocated in Hn as (_ & Hn & _).
  apply not_in_allocated in Hl as (_ & _ & Hl & _).
  now repeat split.
Qed.

(** The second half when the table is flagged full and the PCB has the
    lock of its file table. *)
Lemma proc_create_finish_full p pr n l s :
  procs s !! p = Some pr -> p_name pr = Some n -> is_Some (names s !! n) ->
  ft_lock pr = Some l -> locks s !! l = Some false ->
  is_full (processTable s) = true ->
  exists s',
    proc_create_finish (Some p) s = Ok (None, s') /\
    procs s' = delete p (procs s) /\ names s' = delete n (names s) /\
    locks s' = delete l (locks s) /\
    trace s' = trace s ++ [Call_spinlock_cleanup p] /\
    processTable s' = processTable s /\ sems s' = sems s /\
    cvs s' = cvs s /\ openfiles s' = openfiles s /\ kproc s' = kproc s /\
    curproc s' = curproc s /\ kmalloc_oracle s' = kmalloc_oracle s.
Proof.
  intros Hp Hn [x Hx] Hl Hfree Hfull.
  unfold proc_create_finish, is_proc_table_full. do 3 kstep.
  rewrite Hfull. kstep. cbn beta iota. kstep. rewrite Hn, Hl.
  kstep by (eapply kfree_name_Ok; exact Hx).
  kstep by (eapply spinlock_cleanup_Ok; cbn; exact Hp).
  kstep by (eapply lock_destroy_Ok; cbn; exact Hfree).
  kstep by (eapply kfree_proc_Ok; cbn; apply lookup_insert_eq).
  eexists. split; [reflexivity|]. cbn.
  rewrite delete_insert_eq. repeat split.
Qed.

(** The second half when the table is flagged full and [lock_create]
    had given [NULL]: the name is freed, the spinlock cleaned up, and
    [lock_destroy] is called on [NULL]. *)
Lemma proc_create_finish_no_lock p pr n s :
  procs s !! p = Some pr -> p_name pr = Some n -> is_Some (names s !! n) ->
  ft_lock pr = None -> is_full (processTable s) = true ->
  proc_create_finish (Some p) s = Panic.
Proof.
  intros Hp Hn [x Hx] Hl Hfull.
  unfold proc_create_finish, is_proc_table_full. do 3 kstep.
  rewrite Hfull. kstep. cbn beta iota. kstep. rewrite Hn, Hl.
  kstep by (eapply kfree_name_Ok; exact Hx).
  kstep by (eapply spinlock_cleanup_Ok; cbn; exact Hp).
  reflexivity.
Qed.

(** When the three allocations of [proc_create] succeed and the scan of
    [proc_init_waitpid] finds no slot, [proc_create] returns [NULL];
    the table holds what it held and is marked full; the duplicated
    name, the file-table lock and the PCB are freed again, so the heap
    of PCBs, names, locks, semaphores and condition variables is the
    one before the call, and the spinlock of the PCB has been cleaned
    up. *)
Lemma proc_create_full_rolls_back (name : string) (s : kstate) :
  memory_for 3 s = true ->
  find_free_pid (processTable s) = Ok None ->
  exists s',
    proc_create name s = Ok (None, s') /\
    pt_proc (processTable s') = pt_proc (processTable s) /\
    last_i (processTable s') = last_i (processTable s) /\
    is_full (processTable s') = true /\
    procs s' = procs s /\ names s' = names s /\ locks s' = locks s /\
    sems s' = sems s /\ cvs s' = cvs s /\ openfiles s' = openfiles s /\
    trace s' = trace s ++ [Call_spinlock_cleanup (fresh_addr s)].
Proof.
  intros Hmem Hfull.
  destruct (proc_create_register_full name s (memory_for_le 3 2 s Hmem
              ltac:(lia)) Hfull)
    as (n & l & pr & s1 & E1 & Hprocs1 & Hn & Hl & _ & Hnames1 & Hlocks1
        & Ht1 & Hsems1 & Hcvs1 & Hof1 & Htr1 & _ & _ & _ & Ha & Hnf & Hlf).
  rewrite (memory_for_alloc_nth 3 2 s Hmem) in Hl, Hlocks1 by lia.
  destruct (proc_create_finish_full (fresh_addr s) pr n l s1)
    as (s' & E2 & Hprocs2 & Hnames2 & Hlocks2 & Htr2 & Ht2 & Hsems2 & Hcvs2
        & Hof2 & _); try done.
  - rewrite Hprocs1. apply lookup_insert_eq.
  - rewrite Hnames1, lookup_insert_eq. eauto.
  - rewrite Hlocks1. apply lookup_insert_eq.
  - now rewrite Ht1.
  - exists s'. rewrite proc_create_split. kstep by exact E1.
    split; [exact E2|]. rewrite Ht2, Ht1. cbn.
    do 3 (split; [reflexivity|]).
    rewrite Hprocs2, Hprocs1, Hnames2, Hnames1, Hlocks2, Hlocks1.
    rewrite !delete_insert_id by done.
    repeat split; congruence.
Qed.

(** When [proc_create] has memory for the PCB and the name and none for
    the lock of the file table, and the scan finds no slot, the rollback
    hands the [NULL] stored in [ft_lock] to [lock_destroy]. *)
Lemma proc_create_full_no_lock (name : string) (s : kstate) :
  memory_for 2 s = true -> alloc_nth 2 s = false ->
  find_free_pid (processTable s) = Ok None ->
  proc_create name s = Panic.
Proof.
  intros Hmem Hb Hfull.
  destruct (proc_create_register_full name s Hmem Hfull)
    as (n & l & pr & s1 & E1 & Hprocs1 & Hn & Hl & _ & Hnames1 & _
        & Ht1 & _).
  rewrite Hb in Hl.
  rewrite proc_create_split. kstep by exact E1.
  apply (proc_create_finish_no_lock _ pr n); try done.
  - rewrite Hprocs1. apply lookup_insert_eq.
  - rewrite Hnames1, lookup_insert_eq. eauto.
  - now rewrite Ht1.
Qed.

End create_facts.

(** An instance: one more [proc_create] when all of pids 1 to 100 are
    taken and memory is plentiful. *)
Lemma proc_create_full_rolls_back_example :
  exists s',
    proc_create (cfg := shell_config) "sh" table_filled = Ok (None, s') /\
    pt_proc (processTable s') = pt_proc (processTable table_filled) /\
    is_full (processTable s') = true /\
    procs s' = procs table_filled /\ names s' = names table_filled /\
    locks s' = locks table_filled.
Proof.
  destruct (proc_create_full_rolls_back (cfg := shell_config) "sh"
              table_filled)
    as (s' & E & Ht & _ & Hf & Hp & Hn & Hl & _).
  - vm_compute. reflexivity.
  - vm_compute. reflexivity.
  - exists s'. repeat split; assumption.
Qed.

(** C4 fails on this run: pids 1 to 100 are all taken and there is
    memory for one more PCB and its name, and none for the lock of its
    file table.  [proc_create] stores the [NULL] that [lock_create]
    gives in [ft_lock] without a test; the registration finds no slot
    and flags the table full; the rollback frees the name, cleans the
    spinlock up and calls [lock_destroy] on [NULL], where the kernel
    stops at an assertion: [proc_create] does not return [NULL]. *)
Theorem proc_create_full_null_lock :
  kmalloc_oracle lock_short = [true; true; false] /\
  find_free_pid (processTable lock_short) = Ok None /\
  (exists p pr s1,
     proc_create_register (cfg := shell_config) "sh" lock_short
     = Ok (Some p, s1) /\
     procs s1 !! p = Some pr /\ ft_lock pr = None /\
     is_proc_table_full s1 = Ok (true, s1) /\
     lock_destroy (ft_lock pr) s1 = Panic /\
     proc_create_finish (cfg := shell_config) (Some p) s1 = Panic) /\
  proc_create (cfg := shell_config) "sh" lock_short = Panic.
Proof.
  split; [reflexivity|].
  split; [vm_compute; reflexivity|].
  split.
  - eexists _, _, _. split; [vm_compute; reflexivity|].
    split; [vm_compute; reflexivity|].
    split; [reflexivity|].
    split; [vm_compute; reflexivity|].
    split; [reflexivity|]. vm_compute. reflexivity.
  - vm_compute. reflexivity.
Qed.

(** ** Two copies against each other *)

Lemma run_stmts_app l1 l2 s :
  run_stmts (l1 ++ l2) s = (run_stmts l1 >> run_stmts l2) s.
Proof.
  revert s. induction l1 as [|m l1 IH]; intros s; [reflexivity|].
  cbn [app run_stmts]. rewrite bind_assoc. now apply bind_ext.
Qed.

Lemma run_stmts_for_loop (body : nat -> K unit) n :
  forall lo s, run_stmts (map body (seq lo n)) s = for_loop lo n body s.
Proof.
  induction n as [|n IH]; intros lo s; [reflexivity|].
  cbn [seq map run_stmts]. rewrite for_loop_unfold. now apply bind_ext.
Qed.

(** One more statement after a prefix that returned. *)
Lemma run_stmts_take_S l k (m : K unit) s s1 s2 :
  l !! k = Some m ->
  run_stmts (take k l) s = Ok (tt, s1) -> m s1 = Ok (tt, s2) ->
  run_stmts (take (S k) l) s = Ok (tt, s2).
Proof.
  intros Hk E1 E2. rewrite (take_S_r _ _ _ Hk), run_stmts_app.
  rewrite (bind_Ok _ _ _ _ _ E1). cbn [run_stmts].
  now rewrite bind_ret_r.
Qed.

(** In a run that returns, every statement returns. *)
Lemma run_stmts_next l k (m : K unit) s s' s1 :
  run_stmts l s = Ok (tt, s') ->
  run_stmts (take k l) s = Ok (tt, s1) -> l !! k = Some m ->
  exists s2, m s1 = Ok (tt, s2).
Proof.
  intros E E1 Hk. rewrite <- (take_drop k l), run_stmts_app in E.
  rewrite (bind_Ok _ _ _ _ _ E1) in E. cbn beta in E.
  rewrite (drop_S _ _ _ Hk) in E. cbn [run_stmts] in E. apply bind_inv in E as ([] & s2 & E2 & _). eauto.
Qed.

Lemma run_stmts_preserves (R : kstate -> Prop) l :
  Forall (fun m : K unit => forall s s', R s -> m s = Ok (tt, s') -> R s') l ->
  forall s s', R s -> run_stmts l s = Ok (tt, s') -> R s'.
Proof.
  induction 1 as [|m l Hm _ IH]; intros s s' HR E.
  - apply ret_inv in E as [_ ->]. exact HR.
  - cbn [run_stmts] in E. apply bind_inv in E as ([] & s1 & E1 & E2). eauto.
Qed.

Lemma drop_cons_lookup {A} (l : list A) k x t :
  drop k l = x :: t -> l !! k = Some x /\ t = drop (S k) l.
Proof.
  intros E. split.
  - rewrite <- (Nat.add_0_r k), <- lookup_drop, E. reflexivity.
  - replace (S k) with (k + 1)%nat by lia. rewrite <- drop_drop, E.
    reflexivity.
Qed.

Lemma lock_acquire_inv l s u s' :
  lock_acquire l s = Ok (u, s') ->
  exists a, l = Some a /\ locks s !! a = Some false /\
            s' = with_locks (<[a := true]> (locks s)) s.
Proof.
  destruct l as [a|]; [|discriminate]. unfold lock_acquire.
  destruct (locks s !! a) as [[|]|] eqn:E; try discriminate.
  intros [= <-]. eauto.
Qed.

Lemma lock_release_inv l s u s' :
  lock_release l s = Ok (u, s') ->
  exists a, l = Some a /\ locks s !! a = Some true /\
            s' = with_locks (<[a := false]> (locks s)) s.
Proof.
  destruct l as [a|]; [|discriminate]. unfold lock_release.
  destruct (locks s !! a) as [[|]|] eqn:E; try discriminate.
  intros [= <-]. eauto.
Qed.

Lemma load_openfile_inv h s o s' :
  load_openfile h s = Ok (o, s') -> openfiles s !! h = Some o /\ s' = s.
Proof.
  unfold load_openfile.
  destruct (openfiles s !! h); [now intros [= -> ->]|discriminate].
Qed.

Lemma ft_get_inv p fd s x s' : ft_get p fd s = Ok (x, s') -> s' = s.
Proof.
  unfold ft_get. intros E.
  apply bind_inv in E as (pr & s1 & [_ ->]%load_proc_inv & E).
  destruct (fileTable pr !! fd); [|discriminate].
  now apply ret_inv in E as [_ ->].
Qed.

Lemma ft_set_inv p fd v s u s' :
  ft_set p fd v s = Ok (u, s') ->
  exists pr,
    procs s !! p = Some pr /\
    s' = with_procs
           (<[p := set_fileTable (<[fd := v]> (fileTable pr)) pr]> (procs s)) s.
Proof.
  unfold ft_set. intros E.
  apply bind_inv in E as (pr & s1 & [Hpr ->]%load_proc_inv & E).
  case_bool_decide; [|discriminate].
  apply update_proc_inv in E as (pr' & Hpr' & ->).
  exists pr. split; [done|]. congruence.
Qed.

Section thread_facts.
Context {cfg : Config}.

(** The statements, run by one thread, are the function. *)
Lemma proc_file_table_copy_stmts_run psrc pdest s :
  run_stmts (proc_file_table_copy_stmts psrc pdest) s
  = proc_file_table_copy psrc pdest s.
Proof.
  unfold proc_file_table_copy_stmts, proc_file_table_copy_inner,
    proc_file_table_copy.
  cbn [app run_stmts].
  rewrite bind_assoc. apply bind_ext. intros s0 s1. apply bind_ext. intros _ s2.
  rewrite bind_assoc. apply bind_ext. intros ps s3. apply bind_ext. intros _ s4.
  rewrite bind_assoc. apply bind_ext. intros pd s5. apply bind_ext. intros _ s6.
  rewrite <- app_assoc, run_stmts_app.
  etransitivity; [apply bind_cong_l, run_stmts_for_loop|].
  apply bind_ext. intros _ s7. cbn [app run_stmts].
  rewrite bind_assoc. apply bind_ext. intros pd' s8. apply bind_ext. intros _ s9.
  rewrite bind_assoc. apply bind_ext. intros ps' s10. apply bind_ext.
  intros _ s11. apply bind_ret_r.
Qed.

Lemma proc_file_table_copy_stmts_length psrc pdest :
  length (proc_file_table_copy_stmts psrc pdest) = (OPEN_MAX + 6)%nat.
Proof.
  unfold proc_file_table_copy_stmts, proc_file_table_copy_inner.
  rewrite !length_app, length_map, length_seq. cbn. lia.
Qed.

(** Taking or giving back a file-table lock leaves the global lock
    alone. *)
Lemma ft_lock_step_in_progress g a b X Y p (op : option ptr -> K unit) :
  g <> a -> g <> b ->
  (forall l s u s', op l s = Ok (u, s') ->
     exists c v, l = Some c /\ s' = with_locks (<[c := v]> (locks s)) s) ->
  p = X \/ p = Y ->
  forall s s',
    copy_in_progress g a b X Y s ->
    (let* pr := load_proc p in op (ft_lock pr)) s = Ok (tt, s') ->
    copy_in_progress g a b X Y s'.
Proof.
  intros Hga Hgb Hop Hp s s' (Hg & Hheld & Ha & Hb) E.
  apply bind_inv in E as (pr & s1 & [Hpr ->]%load_proc_inv & E).
  apply Hop in E as (c & v & Hc & ->).
  assert (g <> c) as Hgc.
  { destruct Hp as [-> | ->]; rewrite Hpr in *; cbn in *; congruence. }
  repeat split; cbn; try done. now rewrite lookup_insert_ne.
Qed.

(** So does one turn of the loop. *)
Lemma copy_fd_in_progress g a b X Y fd s s' :
  copy_in_progress g a b X Y s ->
  proc_file_table_copy_fd X Y fd s = Ok (tt, s') ->
  copy_in_progress g a b X Y s'.
Proof.
  intros (Hg & Hheld & Ha & Hb) E.
  assert (ft_copy_lock s' = ft_copy_lock s /\ locks s' = locks s /\
          forall p, ft_lock <$> procs s' !! p = ft_lock <$> procs s !! p)
    as (Eg & El & Ep).
  { unfold proc_file_table_copy_fd in E.
    apply bind_inv in E as (x & s1 & ->%ft_get_inv & E).
    apply bind_inv in E as ([] & s2 & (pd & Hpd & ->)%ft_set_inv & E).
    assert (ft_copy_lock s' = ft_copy_lock s /\ locks s' = locks s /\
            procs s' = <[Y := set_fileTable (<[fd := x]> (fileTable pd)) pd]>
                         (procs s)) as (-> & -> & ->).
    { destruct x as [h|]; [|now apply ret_inv in E as [_ ->]].
      apply bind_inv in E as (o & s3 & [_ ->]%load_openfile_inv & E).
      apply bind_inv in E as ([] & s4 & E4 & E).
      destruct (vn o); [|discriminate]. apply modify_inv in E4 as ->.
      unfold openfileIncrRefCount, update_openfile in E.
      apply bind_inv in E as (o' & s5 & [_ ->]%load_openfile_inv & E).
      now apply modify_inv in E as ->. }
    split; [done|]. split; [done|]. intros q.
    destruct (decide (q = Y)) as [->|];
      [rewrite lookup_insert_eq, Hpd|rewrite lookup_insert_ne by done]; done. }
  unfold copy_in_progress. now rewrite Eg, El, !Ep.
Qed.


(** Every statement run under the global lock keeps it held. *)
Lemma inner_in_progress g a b X Y :
  g <> a -> g <> b ->
  Forall (fun m : K unit => forall s s',
            copy_in_progress g a b X Y s -> m s = Ok (tt, s') ->
            copy_in_progress g a b X Y s')
         (proc_file_table_copy_inner X Y).
Proof.
  intros Hga Hgb.
  assert (forall l s u s', lock_acquire l s = Ok (u, s') ->
            exists c v, l = Some c /\ s' = with_locks (<[c := v]> (locks s)) s)
    as Hacq.
  { intros l s u s' (c & -> & _ & ->)%lock_acquire_inv. eauto. }
  assert (forall l s u s', lock_release l s = Ok (u, s') ->
            exists c v, l = Some c /\ s' = with_locks (<[c := v]> (locks s)) s)
    as Hrel.
  { intros l s u s' (c & -> & _ & ->)%lock_release_inv. eauto. }
  unfold proc_file_table_copy_inner.
  repeat first [apply Forall_cons; split | apply Forall_app; split
               | apply Forall_nil ];
    try exact I; try (eapply ft_lock_step_in_progress; eauto; fail).
  apply Forall_forall. intros m (fd & -> & _)%list_elem_of_fmap.
  intros s s'. apply copy_fd_in_progress.
Qed.

(** Between its first and its last statement a copy holds the global
    lock. *)
Lemma copy_holds_global_lock X Y s0 k s :
  copy_ready s0 X Y = true ->
  (1 <= k < OPEN_MAX + 6)%nat ->
  run_stmts (take k (proc_file_table_copy_stmts X Y)) s0 = Ok (tt, s) ->
  exists g, ft_copy_lock s = Some g /\ locks s !! g = Some true.
Proof.
  intros Hready Hk E.
  destruct (copy_ready_unfold _ _ _ Hready)
    as (ps & pd & g & a & b & Hps & Hpd & Hne & Hls & Hld & Hg & Ha & Hb
        & Hlg & Hla & Hlb & Hga & Hgb & Hab & Hnodes).
  destruct k as [|k]; [lia|].
  unfold proc_file_table_copy_stmts in E. cbn [app take firstn] in E.
  rewrite take_app_le in E.
  2:{ unfold proc_file_table_copy_inner.
      rewrite !length_app, length_map, length_seq. cbn. lia. }
  cbn [run_stmts] in E. apply bind_inv in E as ([] & s1 & E1 & E).
  apply bind_inv in E1 as (s0' & s0'' & [-> ->]%get_state_inv & E1).
  rewrite Hg in E1. rewrite (lock_acquire_Ok _ _ Hlg) in E1.
  injection E1 as <-.
  assert (copy_in_progress g a b X Y s) as (Hg' & Hheld & _).
  { eapply (run_stmts_preserves (copy_in_progress g a b X Y)); [| |exact E].
    - apply Forall_take, inner_in_progress; done.
    - repeat split; cbn;
        [done|apply lookup_insert_eq|rewrite Hps; cbn; now rewrite Ha
        |rewrite Hpd; cbn; now rewrite Hb]. }
  eauto.
Qed.

(** A thread that wants the global lock while it is held sleeps. *)
Lemma copy_start_sleeps g s :
  ft_copy_lock s = Some g -> locks s !! g = Some true ->
  (let* s1 := get_state in lock_acquire (ft_copy_lock s1)) s = Blocks.
Proof.
  intros Hg Hheld. unfold bind, get_state, lock_acquire.
  cbn. now rewrite Hg, Hheld.
Qed.

(** A copy that is ready runs to its end. *)
Lemma copy_stmts_Ok X Y s :
  copy_ready s X Y = true ->
  exists s', run_stmts (proc_file_table_copy_stmts X Y) s = Ok (tt, s').
Proof.
  intros Hready.
  destruct (copy_ready_unfold _ _ _ Hready) as (ps & pd & _ & _ & _ & Hps & Hpd & _).
  destruct (proc_file_table_copy_Ok _ _ _ _ _ Hready Hps Hpd) as (s' & E & _).
  exists s'. now rewrite proc_file_table_copy_stmts_run.
Qed.

(** After a copy the copy in the other direction is ready. *)
Lemma copy_ready_after X Y s s' :
  copy_ready s X Y = true ->
  run_stmts (proc_file_table_copy_stmts X Y) s = Ok (tt, s') ->
  copy_ready s' Y X = true.
Proof.
  intros Hready E. rewrite proc_file_table_copy_stmts_run in E.
  destruct (copy_ready_unfold _ _ _ Hready)
    as (ps & pd & g & a & b & Hps & Hpd & Hne & Hls & Hld & Hg & Ha & Hb
        & Hlg & Hla & Hlb & Hga & Hgb & Hab & Hnodes).
  destruct (proc_file_table_copy_Ok _ _ _ _ _ Hready Hps Hpd)
    as (s'' & E' & Hprocs & Hfiles & _ & Hlocks & Hframe).
  rewrite E in E'. injection E' as <-.
  destruct Hframe as (_ & Hgl & _).
  unfold copy_ready.
  rewrite Hprocs, lookup_insert_eq, lookup_insert_ne, Hps by done.
  cbn [fileTable set_fileTable ft_lock]. unfold lock_free.
  rewrite Hgl, Hg, Ha, Hb, Hlocks.
  rewrite (bool_decide_eq_false_2 (Y = X)) by done.
  rewrite !bool_decide_eq_true_2; try done.
  - cbn. rewrite <- Hnodes. apply forallb_pointwise. intros x.
    apply handle_has_node_ext. intros h. rewrite Hfiles.
    now destruct (openfiles s !! h).
  - rewrite !NoDup_cons, !not_elem_of_cons, NoDup_nil.
    repeat split; try apply not_elem_of_nil; congruence.
Qed.

(** The thread that runs first takes a turn. *)
Lemma serial_inv_own s0 X Y s (m : K unit) tX tY s' :
  serial_inv s0 X Y s (m :: tX) tY -> m s = Ok (tt, s') ->
  serial_inv s0 X Y s' tX tY.
Proof.
  intros [(k & HtX & HtY & E) | (k & sX & HtX & _)] Em; [|discriminate].
  symmetry in HtX. apply drop_cons_lookup in HtX as [Hk ->].
  left. exists (S k). split; [done|]. split; [done|].
  eapply run_stmts_take_S; eauto.
Qed.

(** The thread that runs second takes a turn: either the first has not
    started, and the order of the two is now the other one, or the
    first is over. *)
Lemma serial_inv_other s0 X Y s (m : K unit) tX tY s' :
  copy_ready s0 X Y = true ->
  serial_inv s0 X Y s tX (m :: tY) -> m s = Ok (tt, s') ->
  serial_inv s0 X Y s' tX tY \/ serial_inv s0 Y X s' tY tX.
Proof.
  intros Hready [(k & HtX & HtY & E) | (k & sX & HtX & HtY & EX & E)] Em.
  - assert (m = (let* s1 := get_state in lock_acquire (ft_copy_lock s1)) /\
            tY = drop 1 (proc_file_table_copy_stmts Y X)) as [-> ->].
    { unfold proc_file_table_copy_stmts in HtY |- *. cbn [app] in HtY |- *.
      injection HtY as -> ->. done. }
    assert (run_stmts (take 1 (proc_file_table_copy_stmts Y X)) s
            = Ok (tt, s')) as E1.
    { unfold proc_file_table_copy_stmts. cbn [app take firstn run_stmts].
      rewrite take_0. cbn [run_stmts]. now rewrite bind_ret_r. }
    destruct (decide (k = 0%nat)) as [->|Hk0].
    + apply ret_inv in E as [_ ->]. right. left. exists 1%nat.
      split; [done|]. split; [now rewrite HtX|exact E1].
    + destruct (decide (OPEN_MAX + 6 <= k)%nat) as [Hlen|Hlen].
      * rewrite take_ge in E
          by now rewrite proc_file_table_copy_stmts_length.
        rewrite drop_ge in HtX
          by now rewrite proc_file_table_copy_stmts_length.
        left. right. exists 1%nat, s. done.
      * destruct (copy_holds_global_lock X Y s0 k s Hready) as (g & Hg & Hheld);
          [lia|exact E|].
        rewrite (copy_start_sleeps g s Hg Hheld) in Em. discriminate.
  - symmetry in HtY. apply drop_cons_lookup in HtY as [Hk ->].
    left. right. exists (S k), sX. split; [done|]. split; [done|].
    split; [done|]. eapply run_stmts_take_S; eauto.
Qed.

(** Some thread can take a turn until both are done. *)
Lemma serial_inv_progress s0 X Y s tX tY :
  copy_ready s0 X Y = true ->
  serial_inv s0 X Y s tX tY ->
  (tX = [] /\ tY = []) \/
  (exists (m : K unit) t s', tX = m :: t /\ m s = Ok (tt, s')) \/
  (exists (m : K unit) t s', tY = m :: t /\ m s = Ok (tt, s')).
Proof.
  intros Hready [(k & HtX & HtY & E) | (k & sX & HtX & HtY & EX & E)].
  - destruct (copy_stmts_Ok X Y s0 Hready) as (sX & EX).
    destruct (proc_file_table_copy_stmts X Y !! k) as [m|] eqn:Hk.
    + right. left. destruct (run_stmts_next _ _ _ _ _ _ EX E Hk) as (s' & Em).
      exists m, (drop (S k) (proc_file_table_copy_stmts X Y)), s'.
      split; [|done]. rewrite HtX. now apply drop_S.
    + apply lookup_ge_None in Hk. rewrite take_ge in E by done.
      rewrite E in EX. injection EX as <-.
      destruct (copy_stmts_Ok Y X s (copy_ready_after _ _ _ _ Hready E))
        as (sY & EY).
      right. right. rewrite HtY.
      destruct (proc_file_table_copy_stmts Y X) as [|m t] eqn:Hl.
      { pose proof (proc_file_table_copy_stmts_length Y X) as Hlen.
        rewrite Hl in Hlen. cbn in Hlen. lia. }
      destruct (run_stmts_next (m :: t) 0 m s sY s EY) as (s' & Em);
        [reflexivity|reflexivity|]. eauto.
  - pose proof (copy_ready_after _ _ _ _ Hready EX) as Hready'.
    destruct (copy_stmts_Ok Y X sX Hready') as (sY & EY).
    destruct (proc_file_table_copy_stmts Y X !! k) as [m|] eqn:Hk.
    + right. right. destruct (run_stmts_next _ _ _ _ _ _ EY E Hk) as (s' & Em).
      exists m, (drop (S k) (proc_file_table_copy_stmts Y X)), s'.
      split; [|done]. rewrite HtY. now apply drop_S.
    + left. apply lookup_ge_None in Hk. now rewrite HtY, drop_ge.
Qed.

(** When both are done the state is that of the two copies run one
    after the other. *)
Lemma serial_inv_finished s0 X Y s :
  serial_inv s0 X Y s [] [] ->
  (proc_file_table_copy X Y >> proc_file_table_copy Y X) s0 = Ok (tt, s).
Proof.
  intros [(k & _ & HtY & _) | (k & sX & _ & HtY & EX & E)].
  - pose proof (proc_file_table_copy_stmts_length Y X) as Hlen.
    rewrite <- HtY in Hlen. cbn in Hlen. lia.
  - assert (length (proc_file_table_copy_stmts Y X) <= k)%nat as Hk.
    { apply (f_equal length) in HtY. rewrite length_drop in HtY.
      cbn [length] in HtY. lia. }
    rewrite take_ge in E by done.
    rewrite proc_file_table_copy_stmts_run in EX, E.
    now rewrite (bind_Ok _ _ _ _ _ EX).
Qed.

(** C8: two threads, one copying the file table of [A] to [B] and the
    other that of [B] to [A], from a state where both copies are ready
    to run.  Whatever the schedule, as long as a thread has statements
    left one of the two can take a turn, so there is no deadlock; every
    turn leaves fewer statements, so both threads finish; and the
    final state is that of the two copies run one after the other.  The
    reason is the global lock taken first: while a copy holds it, the
    other thread sleeps at its first statement. *)
Theorem reversed_copies_complete (s0 : kstate) (A B : ptr) :
  copy_ready s0 A B = true -> copy_ready s0 B A = true ->
  forall c,
    interleaving
      (Threads s0 (proc_file_table_copy_stmts A B)
                  (proc_file_table_copy_stmts B A)) c ->
    (finished c \/ exists c', sched c c') /\
    (forall c', sched c c' -> (stmts_left c' < stmts_left c)%nat) /\
    (finished c ->
     (proc_file_table_copy A B >> proc_file_table_copy B A) s0
     = Ok (tt, shared c) \/
     (proc_file_table_copy B A >> proc_file_table_copy A B) s0
     = Ok (tt, shared c)).
Proof.
  intros HAB HBA c Hc.
  assert (serial_inv s0 A B (shared c) (left_thread c) (right_thread c) \/
          serial_inv s0 B A (shared c) (right_thread c) (left_thread c))
    as Hinv.
  { induction Hc as [|c c' _ IH Hstep].
    - left. left. exists 0%nat. done.
    - destruct Hstep as [m t1 t2 s s' Em | m t1 t2 s s' Em];
        cbn [shared left_thread right_thread] in *.
      + destruct IH as [IH|IH].
        * left. eapply serial_inv_own; eauto.
        * destruct (serial_inv_other _ _ _ _ _ _ _ _ HBA IH Em); auto.
      + destruct IH as [IH|IH].
        * destruct (serial_inv_other _ _ _ _ _ _ _ _ HAB IH Em); auto.
        * right. eapply serial_inv_own; eauto. }
  split; [|split].
  - destruct c as [s t1 t2]. cbn [shared left_thread right_thread] in Hinv.
    unfold finished. cbn [left_thread right_thread].
    destruct Hinv as [Hinv|Hinv].
    + destruct (serial_inv_progress _ _ _ _ _ _ HAB Hinv)
        as [[-> ->] | [(m & t & s' & -> & Em) | (m & t & s' & -> & Em)]];
        [now left|right..]; eexists; constructor; exact Em.
    + destruct (serial_inv_progress _ _ _ _ _ _ HBA Hinv)
        as [[-> ->] | [(m & t & s' & -> & Em) | (m & t & s' & -> & Em)]];
        [now left|right..]; eexists; constructor; exact Em.
  - intros c' Hstep. destruct Hstep; unfold stmts_left; cbn; lia.
  - intros [H1 H2]. rewrite H1, H2 in Hinv.
    destruct Hinv as [Hinv|Hinv]; [left|right];
      now apply serial_inv_finished.
Qed.

End thread_facts.

(** An instance of C8: processes A and B of [one_file_open] copy their
    file tables to each other. *)
Lemma reversed_copies_complete_witness :
  copy_ready (cfg := shell_config) one_file_open 6 10 = true /\
  forall c,
    interleaving
      (Threads one_file_open
         (proc_file_table_copy_stmts (cfg := shell_config) 6 10)
         (proc_file_table_copy_stmts (cfg := shell_config) 10 6)) c ->
    (finished c \/ exists c', sched c c') /\
    (forall c', sched c c' -> (stmts_left c' < stmts_left c)%nat) /\
    (finished c ->
     (proc_file_table_copy (cfg := shell_config) 6 10 >>
      proc_file_table_copy (cfg := shell_config) 10 6) one_file_open
     = Ok (tt, shared c) \/
     (proc_file_table_copy (cfg := shell_config) 10 6 >>
      proc_file_table_copy (cfg := shell_config) 6 10) one_file_open
     = Ok (tt, shared c)).
Proof.
  split; [vm_compute; reflexivity|].
  apply (reversed_copies_complete (cfg := shell_config) one_file_open 6 10).
  - vm_compute. reflexivity.
  - vm_compute. reflexivity.
Defined.

(** ** The address space of the current process *)

Lemma with_procs_same s : with_procs (procs s) s = s.
Proof. now destruct s. Qed.

Section addrspace_facts.
Context {cfg : Config}.

Lemma proc_setas_Ok a p pr s :
  curproc s = Some p -> procs s !! p = Some pr ->
  proc_setas a s
  = Ok (p_addrspace pr,
        with_procs (<[p := set_p_addrspace a pr]> (procs s)) s).
Proof.
  intros Hcur Hp. unfold proc_setas. kstep. rewrite Hcur. do 4 kstep. reflexivity.
Qed.

Lemma proc_getas_Ok p pr s :
  curproc s = Some p -> procs s !! p = Some pr ->
  proc_getas s = Ok (p_addrspace pr, s).
Proof.
  intros Hcur Hp. unfold proc_getas. kstep. rewrite Hcur. do 3 kstep. reflexivity.
Qed.

(** [proc_setas] installs [a] in the current process and hands back the
    address space it replaces; nothing else in the kernel changes, and
    [proc_getas] then returns [a]. *)
Theorem proc_setas_then_getas (a : option ptr) (p : ptr) (pr : proc)
    (s : kstate) :
  curproc s = Some p -> procs s !! p = Some pr ->
  exists s',
    proc_setas a s = Ok (p_addrspace pr, s') /\
    s' = with_procs (<[p := set_p_addrspace a pr]> (procs s)) s /\
    (forall q, q <> p -> procs s' !! q = procs s !! q) /\
    proc_getas s' = Ok (a, s').
Proof.
  intros Hcur Hp.
  exists (with_procs (<[p := set_p_addrspace a pr]> (procs s)) s).
  split; [apply proc_setas_Ok; assumption|].
  split; [reflexivity|]. split.
  - intros q Hq. cbn. now rewrite lookup_insert_ne.
  - rewrite (proc_getas_Ok p (set_p_addrspace a pr));
      [reflexivity|exact Hcur|cbn; apply lookup_insert_eq].
Qed.

(** Swapping in an address space and then swapping the old one back
    returns the one swapped in and leaves the kernel state exactly as
    it was. *)
Theorem proc_setas_restores (a : option ptr) (p : ptr) (pr : proc)
    (s : kstate) :
  curproc s = Some p -> procs s !! p = Some pr ->
  (let* old := proc_setas a in proc_setas old) s = Ok (a, s).
Proof.
  intros Hcur Hp. kstep by (apply proc_setas_Ok; eassumption).
  rewrite (proc_setas_Ok _ p (set_p_addrspace a pr));
    [|exact Hcur|cbn; apply lookup_insert_eq].
  cbn [p_addrspace set_p_addrspace procs with_procs].
  rewrite with_procs_twice, insert_insert_eq.
  assert (set_p_addrspace (p_addrspace pr) (set_p_addrspace a pr) = pr) as ->
    by now destruct pr.
  now rewrite insert_id, with_procs_same.
Qed.

(** [proc_getas] only reads: whenever it returns the state is the one
    it was called in, and what it returns is [NULL] when there is no
    current process and the [p_addrspace] of the current process
    otherwise.  Without a current process [proc_getas] still returns,
    where [proc_setas] fails its assertion. *)
Theorem proc_getas_reads (s : kstate) :
  (forall r s', proc_getas s = Ok (r, s') ->
     s' = s /\
     r = curproc s ≫= (fun p => procs s !! p ≫= p_addrspace)) /\
  (curproc s = None ->
   proc_getas s = Ok (None, s) /\ forall a, proc_setas a s = Panic).
Proof.
  split.
  - intros r s' E. unfold proc_getas in E.
    apply bind_inv in E as (s0 & s1 & [-> ->]%get_state_inv & E).
    destruct (curproc s) as [p|]; [|now apply ret_inv in E as [-> ->]].
    apply bind_inv in E as ([] & s1 & [_ ->]%ret_inv & E).
    apply bind_inv in E as (pr & s1 & [Hp ->]%load_proc_inv & E).
    apply bind_inv in E as ([] & s1 & [_ ->]%ret_inv & E).
    apply ret_inv in E as [-> ->]. cbn. now rewrite Hp.
  - intros Hcur. unfold proc_getas, proc_setas. split.
    + kstep. now rewrite Hcur.
    + intros a. kstep. now rewrite Hcur.
Qed.

End addrspace_facts.

(** An instance: the kernel process, made the current process, swaps in
    the address space at 300. *)
Lemma proc_setas_then_getas_witness :
  exists s',
    proc_setas (Some 300%positive) kernel_running = Ok (None, s') /\
    proc_getas s' = Ok (Some 300%positive, s').
Proof.
  assert (exists pr, procs kernel_running !! 1%positive = Some pr /\
                     p_addrspace pr = None) as (pr & Hpr & Has).
  { eexists. split; [vm_compute; reflexivity|reflexivity]. }
  assert (curproc kernel_running = Some 1%positive) as Hcur
    by (vm_compute; reflexivity).
  destruct (proc_setas_then_getas (Some 300%positive) 1 pr kernel_running
              Hcur Hpr) as (s' & E & _ & _ & Eg).
  exists s'. rewrite <- Has. split; assumption.
Defined.

Lemma proc_setas_restores_witness :
  (let* old := proc_setas (Some 300%positive) in proc_setas old)
    kernel_running
  = Ok (Some 300%positive, kernel_running).
Proof.
  assert (exists pr, procs kernel_running !! 1%positive = Some pr)
    as (pr & Hpr).
  { eexists. vm_compute. reflexivity. }
  assert (curproc kernel_running = Some 1%positive) as Hcur
    by (vm_compute; reflexivity).
  exact (proc_setas_restores (Some 300%positive) 1 pr kernel_running Hcur Hpr).
Defined.

(** ** The order in which identifiers are given out *)

(** Every slot the scan passes before it settles on [j] is taken. *)
Lemma scan_pure_passes_taken fuel t last i j :
  scan_pure fuel t last i = Ok (Some j) -> 1 <= i <= MAX_PROC ->
  forall k, to_visit j i k -> is_Some (t !! k).
Proof.
  revert i. induction fuel as [|fuel IH]; intros i; [discriminate|].
  unfold scan_pure; fold scan_pure.
  destruct (Z.eqb_spec i last) as [->|Hne]; [discriminate|].
  destruct (in_table_bounds i) eqn:Hb; [|discriminate].
  destruct (t !! i) as [q|] eqn:Hi.
  - intros E Hr k Hk.
    destruct (scan_pure_found _ _ _ _ _ E) as (Hfree & _ & _ & Hj).
    specialize (Hj (next_index_range i Hr)).
    assert (j <> i) as Hji by congruence.
    destruct (decide (k = i)) as [->|Hki]; [eauto|].
    apply (IH _ E); [now apply next_index_range|]. scan_arith.
  - intros [= <-] _ k Hk. scan_arith.
Qed.

Section scan_order.
Context {cfg : Config}.

(** The identifier [proc_init_waitpid] gives out is the first free slot
    met going up from [last_i + 1] and round from [MAX_PROC] to 1: the
    slot was free, it is not [last_i], and every slot passed on the way
    is taken.  So a released identifier is not given out again while a
    slot further on is free. *)
Theorem proc_init_waitpid_first_free (p : ptr) (name : string)
    (s s' : kstate) (id : Z) :
  0 <= last_i (processTable s) <= MAX_PROC ->
  proc_init_waitpid p name s = Ok (tt, s') ->
  p_pid <$> procs s' !! p = Some id -> id <> 0 ->
  1 <= id <= MAX_PROC /\
  id <> last_i (processTable s) /\
  pt_proc (processTable s) !! id = None /\
  pt_proc (processTable s') !! id = Some p /\
  last_i (processTable s') = id /\
  forall k, to_visit id (scan_start (last_i (processTable s))) k ->
            is_Some (pt_proc (processTable s) !! k).
Proof.
  intros Hl E Hid Hne.
  destruct (proc_init_waitpid_assigned _ _ _ _ _ E Hid Hne)
    as ([Hslot _] & Hr & Hfree).
  assert (is_Some (procs s !! p)) as [pr Hp].
  { now apply proc_init_waitpid_frame in E. }
  destruct (proc_init_waitpid_returns _ _ _ _ E) as [[j|] Hf].
  - assert (j <> 0) as Hj.
    { destruct (scan_pure_found _ _ _ _ _ Hf) as (_ & _ & _ & Hj).
      pose proof (scan_start_range (last_i (processTable s)) Hl). lia. }
    destruct (proc_init_waitpid_found p name pr s j Hp Hf Hj)
      as (pr' & s1 & E1 & Ht & Hpr & Hpid & _).
    assert (s1 = s') as -> by congruence.
    rewrite Hpr, lookup_insert_eq in Hid. cbn in Hid.
    assert (id = j) as -> by congruence.
    destruct (scan_pure_found _ _ _ _ _ Hf) as (_ & Hlast & _).
    split; [done|]. split; [done|]. split; [done|]. split; [done|].
    split; [now rewrite Ht|].
    apply (scan_pure_passes_taken _ _ _ _ _ Hf).
    now apply scan_start_range.
  - rewrite (proc_init_waitpid_full p name pr s Hp Hf) in E.
    injection E as <-. cbn in Hid. rewrite lookup_insert_eq in Hid.
    cbn in Hid. congruence.
Qed.

End scan_order.

(** An instance: pids 1 and 3 are taken, pid 2 has just been released
    and [last_i] is 3; the next registration gives 4, not 2. *)
Lemma proc_init_waitpid_first_free_witness :
  pt_proc (processTable second_released) !! 2 = None /\
  last_i (processTable second_released) = 3 /\
  exists s',
    proc_init_waitpid (cfg := shell_config) 6 "sh" second_released
    = Ok (tt, s') /\
    pt_proc (processTable s') !! 4 = Some 6%positive /\
    last_i (processTable s') = 4.
Proof.
  split; [vm_compute; reflexivity|]. split; [vm_compute; reflexivity|].
  pose (s' := run_from (proc_init_waitpid (cfg := shell_config) 6 "sh")
                second_released).
  assert (proc_init_waitpid (cfg := shell_config) 6 "sh" second_released
          = Ok (tt, s')) as E by (vm_compute; reflexivity).
  exists s'. split; [exact E|].
  destruct (proc_init_waitpid_first_free (cfg := shell_config) 6 "sh"
              second_released s' 4) as (_ & _ & _ & Hslot & Hlast & _).
  - vm_compute. split; discriminate.
  - exact E.
  - vm_compute. reflexivity.
  - discriminate.
  - now split.
Defined.

(** ** Creation that succeeds *)

Section create_ok.
Context {cfg : Config}.

(** A registration that finds slot [j], in the semaphore build: the
    semaphore is a new one at 0 or [NULL], as the allocation goes, and
    is stored in the PCB in either case. *)
Lemma proc_init_waitpid_sem p name pr s j :
  USE_SEMAPHORE_FOR_WAITPID = true ->
  procs s !! p = Some pr ->
  find_free_pid (processTable s) = Ok (Some j) -> j <> 0 ->
  exists s1,
    s1 = with_procs (<[p := set_p_status 0 (set_p_pid j pr)]> (procs s))
           (with_processTable
              {| pt_proc := <[j := p]> (pt_proc (processTable s));
                 last_i := j; is_full := is_full (processTable s) |} s) /\
    proc_init_waitpid p name s
    = Ok (tt,
          with_procs
            (<[p := set_p_sem (if next_alloc s then Some (fresh_addr s1)
                               else None)
                      (set_p_status 0 (set_p_pid j pr))]> (procs s))
            (with_sems (if next_alloc s then <[fresh_addr s1 := 0]> (sems s)
                        else sems s) (consume s1))).
Proof.
  intros Hcfg Hp Hf Hj. eexists. split; [reflexivity|].
  unfold proc_init_waitpid.
  do 3 kstep.
  erewrite bind_Ok by (eapply scan_found; [apply Hf|apply lookup_insert_eq]).
  cbn beta. kstep. cbn.
  destruct (Z.eqb_spec j 0); [done|].
  repeat kstep. rewrite Hcfg. kstep.
  match goal with |- context [next_alloc ?x] =>
    change (next_alloc x) with (next_alloc s) end.
  ksimpl_in_all. rewrite !insert_insert_eq.
  erewrite update_proc_Ok by (cbn; apply lookup_insert_eq).
  cbn. rewrite !insert_insert_eq. reflexivity.
Qed.

(** The first half when there is memory for the PCB and the name and the
    scan finds slot [j]. *)
Lemma proc_create_register_found name s j :
  USE_SEMAPHORE_FOR_WAITPID = true ->
  memory_for 2 s = true ->
  find_free_pid (processTable s) = Ok (Some j) -> j <> 0 ->
  exists n l sm s1,
    proc_create_register name s = Ok (Some (fresh_addr s), s1) /\
    procs s1 =
      <[fresh_addr s :=
          set_p_sem (if alloc_nth 3 s then Some sm else None)
            (set_p_status 0
               (set_p_pid j
                  (unregistered_pcb n
                     (if alloc_nth 2 s then Some l else None))))]>
        (procs s) /\
    names s1 = <[n := name]> (names s) /\
    locks s1 = (if alloc_nth 2 s then <[l := false]> (locks s) else locks s) /\
    sems s1 = (if alloc_nth 3 s then <[sm := 0]> (sems s) else sems s) /\
    processTable s1 =
      {| pt_proc := <[j := fresh_addr s]> (pt_proc (processTable s));
         last_i := j; is_full := is_full (processTable s) |} /\
    cvs s1 = cvs s /\ openfiles s1 = openfiles s /\ trace s1 = trace s /\
    kproc s1 = kproc s /\ curproc s1 = curproc s /\
    ft_copy_lock s1 = ft_copy_lock s /\
    kmalloc_oracle s1 = Nat.iter 4 tail (kmalloc_oracle s) /\
    (fresh_addr s ∉ allocated s) /\ (n ∉ allocated s) /\
    (l ∉ allocated s) /\ (sm ∉ allocated s) /\
    n <> fresh_addr s /\ l <> fresh_addr s /\ l <> n /\
    sm <> fresh_addr s /\ sm <> n /\ (alloc_nth 2 s = true -> sm <> l).
Proof.
  intros Hcfg Hmem Hf Hj.
  destruct (proc_create_register_prefix name s Hmem)
    as (n & l & s0 & E & Hprocs & Hnames & Hlocks & Ht & Hsems & Hcvs & Hof
        & Htr & Hk & Hc & Hfc & Ho & Ha & Hn & Hl & Hna & Hla & Hln).
  rewrite E.
  destruct (proc_init_waitpid_sem (fresh_addr s) name
              (unregistered_pcb n (if alloc_nth 2 s then Some l else None))
              s0 j Hcfg) as (s1 & Hs1 & Einit);
    [rewrite Hprocs; apply lookup_insert_eq|rewrite Ht; exact Hf|exact Hj|].
  kstep by exact Einit.
  pose proof (fresh_addr_fresh s1) as Hsm.
  set (sm := fresh_addr s1) in *.
  assert (next_alloc s0 = alloc_nth 3 s) as ->.
  { unfold next_alloc, alloc_nth. now rewrite Ho. }
  exists n, l, sm. eexists. split; [reflexivity|].
  clearbody sm. subst s1. clear Einit E.
  rewrite not_in_allocated in Hsm. ksimpl_in_all.
  rewrite Hprocs, Hnames, Hlocks, Hsems, Hcvs, Hof in Hsm.
  rewrite Hprocs, insert_insert_eq, Hnames, Hlocks, Hsems, Hcvs, Hof, Htr,
    Hk, Hc, Hfc, Ht, Ho.
  do 12 (split; [reflexivity|]).
  split; [exact Ha|]. split; [exact Hn|]. split; [exact Hl|].
  rewrite !not_in_allocated.
  rewrite ?lookup_insert_None in Hsm.
  destruct Hsm as ([Hsm1 Hsm2] & [Hsm3 Hsm4] & Hsm5 & Hsm6 & Hsm7 & Hsm8).
  assert (locks s !! sm = None /\ (alloc_nth 2 s = true -> sm <> l))
    as [Hsm9 Hsm10].
  { destruct (alloc_nth 2 s); [|now split].
    apply lookup_insert_None in Hsm5 as [? ?]. split; [done|congruence]. }
  clear Hsm5. intuition congruence.
Qed.

(** [proc_create] when there is memory for the PCB and the name and the
    scan finds slot [j]. *)
Lemma proc_create_found name s j :
  USE_SEMAPHORE_FOR_WAITPID = true ->
  memory_for 2 s = true ->
  find_free_pid (processTable s) = Ok (Some j) -> j <> 0 ->
  is_full (processTable s) = false ->
  exists n l sm s',
    proc_create name s = Ok (Some (fresh_addr s), s') /\
    procs s' =
      <[fresh_addr s :=
          created_pcb n (if alloc_nth 2 s then Some l else None)
            (if alloc_nth 3 s then Some sm else None) j]> (procs s) /\
    names s' = <[n := name]> (names s) /\
    locks s' = (if alloc_nth 2 s then <[l := false]> (locks s) else locks s) /\
    sems s' = (if alloc_nth 3 s then <[sm := 0]> (sems s) else sems s) /\
    processTable s' =
      {| pt_proc := <[j := fresh_addr s]> (pt_proc (processTable s));
         last_i := j; is_full := false |} /\
    cvs s' = cvs s /\ openfiles s' = openfiles s /\ trace s' = trace s /\
    kproc s' = kproc s /\ curproc s' = curproc s /\
    ft_copy_lock s' = ft_copy_lock s /\
    kmalloc_oracle s' = Nat.iter 4 tail (kmalloc_oracle s) /\
    (fresh_addr s ∉ allocated s) /\ (n ∉ allocated s) /\
    (l ∉ allocated s) /\ (sm ∉ allocated s) /\
    n <> fresh_addr s /\ l <> fresh_addr s /\ l <> n /\
    sm <> fresh_addr s /\ sm <> n /\ (alloc_nth 2 s = true -> sm <> l).
Proof.
  intros Hcfg Hmem Hf Hj Hflag.
  destruct (proc_create_register_found name s j Hcfg Hmem Hf Hj)
    as (n & l & sm & s1 & E1 & Hprocs & Hnames & Hlocks & Hsems & Ht & Hcvs
        & Hof & Htr & Hk & Hc & Hfc & Ho & Hfresh).
  rewrite proc_create_split. kstep by exact E1.
  unfold proc_create_finish, is_proc_table_full. do 3 kstep.
  rewrite Ht. cbn [is_full]. rewrite Hflag. kstep. cbn beta iota.
  unfold bzero_fileTable.
  kstep by (apply update_proc_Ok; rewrite Hprocs; apply lookup_insert_eq).
  exists n, l, sm. eexists. split; [reflexivity|]. ksimpl_in_all.
  rewrite Hprocs, insert_insert_eq, Ht, Hflag.
  split; [reflexivity|]. now repeat split.
Qed.

(** [proc_create] when all four of its allocations find memory and the
    scan finds slot [j]. *)
Lemma proc_create_Ok name s j :
  USE_SEMAPHORE_FOR_WAITPID = true ->
  memory_for 4 s = true ->
  find_free_pid (processTable s) = Ok (Some j) -> j <> 0 ->
  is_full (processTable s) = false ->
  exists n l sm s',
    proc_create name s = Ok (Some (fresh_addr s), s') /\
    procs s' =
      <[fresh_addr s := created_pcb n (Some l) (Some sm) j]> (procs s) /\
    names s' = <[n := name]> (names s) /\
    locks s' = <[l := false]> (locks s) /\
    sems s' = <[sm := 0]> (sems s) /\
    processTable s' =
      {| pt_proc := <[j := fresh_addr s]> (pt_proc (processTable s));
         last_i := j; is_full := false |} /\
    cvs s' = cvs s /\ openfiles s' = openfiles s /\ trace s' = trace s /\
    kproc s' = kproc s /\ curproc s' = curproc s /\
    ft_copy_lock s' = ft_copy_lock s /\
    kmalloc_oracle s' = Nat.iter 4 tail (kmalloc_oracle s) /\
    (fresh_addr s ∉ allocated s) /\ (n ∉ allocated s) /\
    (l ∉ allocated s) /\ (sm ∉ allocated s) /\
    NoDup [fresh_addr s; n; l; sm].
Proof.
  intros Hcfg Hmem Hf Hj Hflag.
  destruct (proc_create_found name s j Hcfg (memory_for_le 4 2 s Hmem
              ltac:(lia)) Hf Hj Hflag)
    as (n & l & sm & s' & E & Hprocs & Hnames & Hlocks & Hsems & Ht & Hcvs
        & Hof & Htr & Hk & Hc & Hfc & Ho & Ha & Hn & Hl & Hsm & Hna & Hla
        & Hln & Hsa & Hsn & Hsl).
  rewrite (memory_for_alloc_nth 4 2 s Hmem) in * by lia.
  rewrite (memory_for_alloc_nth 4 3 s Hmem) in * by lia.
  exists n, l, sm, s'.
  do 17 (split; [assumption|]).
  rewrite !NoDup_cons, !not_elem_of_cons, NoDup_nil.
  specialize (Hsl eq_refl).
  repeat split; try apply not_elem_of_nil; congruence.
Qed.

(** With memory for the PCB and its name, the full flag clear and a free
    slot other than [last_i], [proc_create] returns a PCB at an address
    that was not in use, registered under a free identifier of
    [1 .. MAX_PROC], with no thread, no address space, no working
    directory, no parent, status 0, an empty file table of [OPEN_MAX]
    slots and its own copy of the name.  What [lock_create] and
    [sem_create] give is stored without a test: the lock of the file
    table is a free lock when the third allocation finds memory and
    [NULL] when it does not, and the semaphore is one at 0 when the
    fourth allocation finds memory and [NULL] when it does not.  No
    other PCB, no open file and no part of the trace changes. *)
Theorem proc_create_registers (name : string) (s : kstate) (k : Z) :
  USE_SEMAPHORE_FOR_WAITPID = true ->
  memory_for 2 s = true ->
  is_full (processTable s) = false ->
  last_i_ok (processTable s) ->
  1 <= k <= MAX_PROC -> k <> last_i (processTable s) ->
  pt_proc (processTable s) !! k = None ->
  exists p pr id s',
    proc_create name s = Ok (Some p, s') /\
    procs s !! p = None /\ procs s' !! p = Some pr /\
    (forall q, q <> p -> procs s' !! q = procs s !! q) /\
    1 <= id <= MAX_PROC /\ pt_proc (processTable s) !! id = None /\
    pt_proc (processTable s') = <[id := p]> (pt_proc (processTable s)) /\
    p_pid pr = id /\ p_numthreads pr = 0 /\ p_addrspace pr = None /\
    p_cwd pr = None /\ parent_proc pr = None /\ p_status pr = 0 /\
    fileTable pr = replicate OPEN_MAX None /\
    (exists n, p_name pr = Some n /\ names s' !! n = Some name) /\
    (if alloc_nth 2 s
     then lock_free s' (ft_lock pr) = true /\ lock_free s (ft_lock pr) = false
     else ft_lock pr = None /\ locks s' = locks s) /\
    (if alloc_nth 3 s
     then exists sm, p_sem pr = Some sm /\ sems s' !! sm = Some 0 /\
                     sems s !! sm = None
     else p_sem pr = None /\ sems s' = sems s) /\
    openfiles s' = openfiles s /\ trace s' = trace s.
Proof.
  intros Hcfg Hmem Hflag Hl Hk Hne Hfree.
  destruct (find_free_pid_total _ Hl) as [(j & Hf & Hj & Hjfree & _)|[_ Hocc]].
  2:{ destruct (Hocc k Hk Hne) as [x Hx]. congruence. }
  destruct (proc_create_found name s j Hcfg Hmem Hf) as
    (n & l & sm & s' & E & Hprocs & Hnames & Hlocks & Hsems & Htable & _
     & Hfiles & Htrace & _ & _ & _ & _ & Ha & _ & Hlf & Hsmf & _);
    [lia|done|].
  eexists (fresh_addr s), _, j, s'.
  split; [exact E|].
  split; [now apply not_in_allocated in Ha|].
  split; [rewrite Hprocs; apply lookup_insert_eq|].
  split; [intros q Hq; rewrite Hprocs; now apply lookup_insert_ne|].
  split; [done|]. split; [done|]. split; [now rewrite Htable|].
  do 7 (split; [reflexivity|]).
  split; [exists n; split; [reflexivity|rewrite Hnames; apply lookup_insert_eq]|].
  apply not_in_allocated in Hlf as (_ & _ & Hlf & _).
  apply not_in_allocated in Hsmf as (_ & _ & _ & Hsmf & _).
  split.
  { cbn. destruct (alloc_nth 2 s); [|done]. cbn. rewrite Hlocks. split.
    - apply bool_decide_eq_true_2, lookup_insert_eq.
    - apply bool_decide_eq_false_2. now rewrite Hlf. }
  split; [|done].
  cbn. destruct (alloc_nth 3 s); [|done].
  exists sm. rewrite Hsems. split; [reflexivity|].
  split; [apply lookup_insert_eq|exact Hsmf].
Qed.

Lemma proc_create_oom (name : string) (s : kstate) (rest : list bool) :
  (kmalloc_oracle s = false :: rest ->
   proc_create name s = Ok (None, with_kmalloc_oracle rest s)) /\
  (kmalloc_oracle s = true :: false :: rest ->
   proc_create name s = Ok (None, with_kmalloc_oracle rest s)).
Proof.
  assert (forall s0 r, kmalloc_oracle s0 = false :: r ->
            kmalloc_succeeds s0 = Ok (false, with_kmalloc_oracle r s0))
    as Hfail.
  { intros s0 r Hr. unfold kmalloc_succeeds. now rewrite Hr. }
  split; intros Ho; unfold proc_create.
  - unfold kmalloc_proc. kstep by (apply Hfail; exact Ho). kstep. reflexivity.
  - pose proof (fresh_addr_fresh s) as Ha.
    apply not_in_allocated in Ha as (Ha & _).
    kstep by (apply kmalloc_proc_Ok; unfold memory_for; now rewrite Ho).
    unfold kstrdup.
    kstep by (apply Hfail; unfold consume; cbn; rewrite Ho; reflexivity).
    kstep.
    kstep by (apply update_proc_Ok; cbn; apply lookup_insert_eq).
    kstep by (eapply kfree_proc_Ok; cbn; apply lookup_insert_eq).
    cbn [procs with_procs with_kmalloc_oracle consume].
    rewrite insert_insert_eq, delete_insert_eq, delete_id by exact Ha.
    unfold ret. now do 2 f_equal.
Qed.

(** When [kmalloc] finds no memory for the PCB, or none for the copy of
    the name, [proc_create] returns [NULL] and leaves the kernel state as
    it was, but for the answers of the allocator it used: the PCB
    allocated before the name is freed again, and the table and its
    full flag are not touched. *)
Theorem proc_create_no_memory (name : string) (s : kstate)
    (rest : list bool) :
  (kmalloc_oracle s = false :: rest ->
   proc_create name s = Ok (None, with_kmalloc_oracle rest s)) /\
  (kmalloc_oracle s = true :: false :: rest ->
   proc_create name s = Ok (None, with_kmalloc_oracle rest s)).
Proof. exact (proc_create_oom name s rest). Qed.

End create_ok.

(** An instance: a fourth process is created in [three_procs]; it sits
    at a new address, and memory being plentiful it has the lock of its
    file table. *)
Lemma proc_create_registers_witness :
  exists p pr s',
    proc_create (cfg := shell_config) "sh" three_procs = Ok (Some p, s') /\
    procs three_procs !! p = None /\ procs s' !! p = Some pr /\
    p_numthreads pr = 0 /\ fileTable pr = replicate 128 None /\
    lock_free s' (ft_lock pr) = true.
Proof.
  destruct (proc_create_registers (cfg := shell_config) "sh" three_procs 4)
    as (p & pr & id & s' & E & Hnew & Hp & _ & _ & _ & _ & _ & Hnt & _ & _
        & _ & _ & Hft & _ & Hlk & _).
  - reflexivity.
  - vm_compute. reflexivity.
  - vm_compute. reflexivity.
  - left. vm_compute. split; discriminate.
  - unfold MAX_PROC. lia.
  - vm_compute. discriminate.
  - vm_compute. reflexivity.
  - change (alloc_nth 2 three_procs) with true in Hlk.
    destruct Hlk as [Hlk _].
    exists p, pr, s'. repeat split; assumption.
Defined.

(** An instance: memory runs out at the copy of the name. *)
Lemma proc_create_no_memory_witness :
  proc_create (cfg := shell_config) "sh" memory_short
  = Ok (None, with_kmalloc_oracle [] memory_short).
Proof.
  apply (proc_create_no_memory (cfg := shell_config) "sh" memory_short []).
  reflexivity.
Defined.

(** ** Boot and program start *)

Section boot_facts.
Context {cfg : Config}.

(** [proc_bootstrap] creates the kernel process with [proc_create], so
    the kernel process is registered in the process table like any
    other: with memory for its PCB and name, [kproc] is a new PCB sitting
    in a slot of [1 .. MAX_PROC] that was free and carrying that
    identifier.  The full flag is clear afterwards and [sft_init] has
    been called once.  [ft_copy_lock] holds what [lock_create] gave,
    stored without a test: a new lock that nobody holds, other than the
    lock of the file table of [kproc], when that allocation (the fifth
    of the boot) finds memory, and [NULL] when it does not. *)
Theorem proc_bootstrap_registers_kproc (s : kstate) (k : Z) :
  USE_SEMAPHORE_FOR_WAITPID = true ->
  memory_for 2 s = true ->
  is_full (processTable s) = false ->
  last_i_ok (processTable s) ->
  1 <= k <= MAX_PROC -> k <> last_i (processTable s) ->
  pt_proc (processTable s) !! k = None ->
  exists kp id s',
    proc_bootstrap s = Ok (tt, s') /\
    kproc s' = Some kp /\ procs s !! kp = None /\
    1 <= id <= MAX_PROC /\ pt_proc (processTable s) !! id = None /\
    registered_as s' kp id /\
    is_full (processTable s') = false /\
    (if alloc_nth 4 s
     then exists l,
            ft_copy_lock s' = Some l /\ locks s !! l = None /\
            locks s' !! l = Some false /\
            (ft_lock <$> procs s' !! kp) <> Some (Some l)
     else ft_copy_lock s' = None) /\
    trace s' = trace s ++ [Call_sft_init].
Proof.
  intros Hcfg Hmem Hflag Hl Hk Hne Hfree.
  destruct (find_free_pid_total _ Hl) as [(j & Hf & Hj & Hjfree & _)|[_ Hocc]].
  2:{ destruct (Hocc k Hk Hne) as [x Hx]. congruence. }
  destruct (proc_create_found "[kernel]" s j Hcfg Hmem Hf) as
    (n & l & sm & s1 & E & Hprocs & Hnames & Hlocks & Hsems & Htable & Hcvs
     & Hfiles & Htrace & _ & _ & _ & Ho & Ha & Hn & Hfl & Hsm & _);
    [lia|done|].
  unfold proc_bootstrap. kstep by exact E. kstep. do 2 kstep.
  unfold sft_init. kstep.
  match goal with |- context [next_alloc ?x] =>
    pose proof (fresh_addr_fresh x) as Hc; set (c := fresh_addr x) in *;
    assert (next_alloc x = alloc_nth 4 s) as ->
      by (unfold next_alloc, alloc_nth; ksimpl_in_all; now rewrite Ho)
  end.
  apply not_in_allocated in Hc as (_ & _ & Hc & _). ksimpl_in_all.
  exists (fresh_addr s), j. eexists. split; [reflexivity|].
  unfold registered_as. ksimpl_in_all.
  split; [done|]. split; [now apply not_in_allocated in Ha|].
  split; [done|]. split; [done|].
  split.
  { split; [rewrite Htable; cbn; apply lookup_insert_eq|].
    now rewrite Hprocs, lookup_insert_eq. }
  split; [done|]. split; [|now rewrite Htrace].
  destruct (alloc_nth 4 s); [|done].
  exists c. split; [done|].
  rewrite Hlocks in Hc.
  assert (locks s !! c = None /\ (alloc_nth 2 s = true -> c <> l))
    as [Hc1 Hc2].
  { destruct (alloc_nth 2 s); [|now split].
    apply lookup_insert_None in Hc as [? ?]. split; [done|congruence]. }
  split; [done|]. split; [apply lookup_insert_eq|].
  rewrite Hprocs, lookup_insert_eq. cbn.
  destruct (alloc_nth 2 s); [|discriminate].
  specialize (Hc2 eq_refl). congruence.
Qed.

(** When [proc_create] finds no memory for the kernel process,
    [proc_bootstrap] panics. *)
Theorem proc_bootstrap_no_memory (s : kstate) (rest : list bool) :
  kmalloc_oracle s = false :: rest \/
  kmalloc_oracle s = true :: false :: rest ->
  proc_bootstrap s = Panic.
Proof.
  intros Ho.
  assert (exists s1, proc_create "[kernel]" s = Ok (None, s1)) as [s1 E].
  { destruct (proc_create_oom "[kernel]" s rest) as [H1 H2].
    destruct Ho as [Ho|Ho]; eauto. }
  unfold proc_bootstrap. kstep by exact E. kstep. reflexivity.
Qed.

(** [proc_create_runprogram] returns a new process without an address
    space whose working directory is that of the current process; when
    that directory is not [NULL] its reference count is raised by one
    [VOP_INCREF] call, the only call made.  The PCB of the current
    process is not changed. *)
Theorem proc_create_runprogram_inherits_cwd (name : string) (s : kstate)
    (k : Z) (cur : ptr) (cr : proc) :
  USE_SEMAPHORE_FOR_WAITPID = true ->
  memory_for 2 s = true ->
  is_full (processTable s) = false ->
  last_i_ok (processTable s) ->
  1 <= k <= MAX_PROC -> k <> last_i (processTable s) ->
  pt_proc (processTable s) !! k = None ->
  curproc s = Some cur -> procs s !! cur = Some cr ->
  exists p pr s',
    proc_create_runprogram name s = Ok (Some p, s') /\
    procs s !! p = None /\ procs s' !! p = Some pr /\
    p_cwd pr = p_cwd cr /\ p_addrspace pr = None /\
    p_numthreads pr = 0 /\ fileTable pr = replicate OPEN_MAX None /\
    procs s' !! cur = Some cr /\
    trace s' = trace s ++ match p_cwd cr with
                          | Some v => [Call_VOP_INCREF v]
                          | None => []
                          end.
Proof.
  intros Hcfg Hmem Hflag Hl Hk Hne Hfree Hcur Hcr.
  destruct (find_free_pid_total _ Hl) as [(j & Hf & Hj & Hjfree & _)|[_ Hocc]].
  2:{ destruct (Hocc k Hk Hne) as [x Hx]. congruence. }
  destruct (proc_create_found name s j Hcfg Hmem Hf) as
    (n & l & sm & s1 & E & Hprocs & _ & _ & _ & _ & _ & _ & Htrace & _
     & Hcur1 & _ & _ & Ha & _); [lia|done|].
  apply not_in_allocated in Ha as (Ha & _).
  assert (cur <> fresh_addr s) as Hne' by congruence.
  unfold proc_create_runprogram. kstep by exact E.
  kstep by (apply update_proc_Ok; rewrite Hprocs; apply lookup_insert_eq).
  kstep. ksimpl_in_all. rewrite Hcur1, Hcur. kstep.
  kstep by (apply load_proc_Ok; cbn;
            rewrite Hprocs, !lookup_insert_ne by done; exact Hcr).
  exists (fresh_addr s).
  destruct (p_cwd cr) as [v|] eqn:Hcwd.
  - unfold VOP_INCREF. do 3 kstep.
    eexists _, _. split; [reflexivity|]. ksimpl_in_all.
    rewrite Hprocs, !insert_insert_eq, lookup_insert_eq,
      lookup_insert_ne, Htrace by done.
    repeat split; try done.
  - do 2 kstep.
    eexists _, _. split; [reflexivity|]. ksimpl_in_all.
    rewrite Hprocs, !insert_insert_eq, lookup_insert_eq,
      lookup_insert_ne, Htrace, app_nil_r by done.
    repeat split; try done.
Qed.

End boot_facts.

(** An instance: boot from power-on. *)
Lemma proc_bootstrap_registers_kproc_witness :
  exists kp id s',
    proc_bootstrap (cfg := shell_config) boot_state = Ok (tt, s') /\
    kproc s' = Some kp /\ 1 <= id <= MAX_PROC /\ registered_as s' kp id.
Proof.
  destruct (proc_bootstrap_registers_kproc (cfg := shell_config) boot_state 1)
    as (kp & id & s' & E & Hk & _ & Hid & _ & Hreg & _).
  - reflexivity.
  - reflexivity.
  - reflexivity.
  - right. split; reflexivity.
  - unfold MAX_PROC. lia.
  - discriminate.
  - reflexivity.
  - exists kp, id, s'. split; [exact E|]. split; [exact Hk|].
    split; [exact Hid|exact Hreg].
Defined.

(** An instance: boot with no memory at all. *)
Lemma proc_bootstrap_no_memory_witness :
  proc_bootstrap (cfg := shell_config) (with_kmalloc_oracle [false] boot_state)
  = Panic.
Proof.
  apply (proc_bootstrap_no_memory (cfg := shell_config) _ []).
  left. reflexivity.
Defined.

(** An instance: the kernel process, in the directory at 200, starts a
    program. *)
Lemma proc_create_runprogram_inherits_cwd_witness :
  exists p pr s',
    proc_create_runprogram (cfg := shell_config) "sh" kernel_in_dir
    = Ok (Some p, s') /\
    procs s' !! p = Some pr /\ p_cwd pr = Some 200%positive /\
    trace s' = trace kernel_in_dir ++ [Call_VOP_INCREF 200%positive].
Proof.
  assert (exists cr, procs kernel_in_dir !! 1%positive = Some cr /\
                     p_cwd cr = Some 200%positive) as (cr & Hcr & Hcwd).
  { eexists. split; [vm_compute; reflexivity|reflexivity]. }
  assert (curproc kernel_in_dir = Some 1%positive) as Hcur
    by (vm_compute; reflexivity).
  destruct (proc_create_runprogram_inherits_cwd (cfg := shell_config) "sh"
              kernel_in_dir 4 1 cr)
    as (p & pr & s' & E & _ & Hp & Hpc & _ & _ & _ & _ & Htr).
  - reflexivity.
  - vm_compute. reflexivity.
  - vm_compute. reflexivity.
  - left. vm_compute. split; discriminate.
  - unfold MAX_PROC. lia.
  - vm_compute. discriminate.
  - vm_compute. reflexivity.
  - exact Hcur.
  - exact Hcr.
  - exists p, pr, s'. rewrite Hcwd in Hpc, Htr. repeat split; assumption.
Defined.

(** ** What [proc_destroy] asks for *)

Lemma files_frame_refl s : files_frame s s.
Proof. now repeat split. Qed.

Lemma files_frame_trans s1 s2 s3 :
  files_frame s1 s2 -> files_frame s2 s3 -> files_frame s1 s3.
Proof. unfold files_frame. intuition congruence. Qed.

Lemma int_pred_inv x s c s' : int_pred x s = Ok (c, s') -> s' = s.
Proof.
  unfold int_pred. destruct (x =? INT_MIN); [discriminate|].
  now intros [_ ->]%ret_inv.
Qed.

Lemma update_openfile_inv h f s u s' :
  update_openfile h f s = Ok (u, s') ->
  exists o, s' = with_openfiles (<[h := f o]> (openfiles s)) s.
Proof.
  unfold update_openfile. intros E.
  apply bind_inv in E as (o & s1 & [_ ->]%load_openfile_inv & E).
  apply modify_inv in E. eauto.
Qed.

Section destroy_inv.
Context {cfg : Config}.

(** One turn of the file-table loop touches PCBs, handles, locks and the
    trace only. *)
Lemma proc_destroy_fd_frame p fd s s' :
  proc_destroy_fd p fd s = Ok (tt, s') -> files_frame s s'.
Proof.
  unfold proc_destroy_fd. intros E.
  apply bind_inv in E as (slot & s1 & ->%ft_get_inv & E).
  apply bind_inv in E as ([] & s2 & E2 & E).
  apply ft_set_inv in E as (pr & _ & ->).
  apply (files_frame_trans _ s2); [|now repeat split].
  destruct slot as [h|]; [|apply ret_inv in E2 as [_ ->]; apply files_frame_refl].
  apply bind_inv in E2 as (o & s3 & [_ ->]%load_openfile_inv & E2).
  apply bind_inv in E2 as ([] & s3 & (a & _ & _ & ->)%lock_acquire_inv & E2).
  apply bind_inv in E2 as (c & s3 & ->%int_pred_inv & E2).
  apply bind_inv in E2 as ([] & s3 & (o' & ->)%update_openfile_inv & E2).
  destruct (c =? 0).
  - apply bind_inv in E2 as ([] & s3 & E3 & E2).
    apply bind_inv in E2 as ([] & s4 & (b & _ & _ & ->)%lock_release_inv & E2).
    apply lock_destroy_inv in E2 as (d & _ & _ & ->).
    destruct (vn o).
    + apply modify_inv in E3 as ->. now repeat split.
    + apply ret_inv in E3 as [_ ->]. now repeat split.
  - apply lock_release_inv in E2 as (b & _ & _ & ->). now repeat split.
Qed.

Lemma proc_destroy_guards (po : option ptr) (s s' : kstate) :
  proc_destroy po s = Ok (tt, s') ->
  exists p pr,
    po = Some p /\ procs s !! p = Some pr /\
    Some p <> kproc s /\ p_numthreads pr = 0 /\
    0 < p_pid pr <= MAX_PROC /\
    procs s' !! p = None /\
    pt_proc (processTable s') !! p_pid pr = None /\
    is_full (processTable s') = false /\
    kproc s' = kproc s.
Proof.
  intros E. destruct po as [p|]; [|discriminate]. unfold proc_destroy in E.
  apply bind_inv in E as (s0 & s0' & [-> ->]%get_state_inv & E).
  apply bind_inv in E as ([] & s0 & [Hk ->]%KASSERT_inv & E).
  apply negb_true_iff, bool_decide_eq_false_1 in Hk.
  apply bind_inv in E as (pr & s0 & [Hp ->]%load_proc_inv & E).
  apply bind_inv in E as ([] & s1 & E1 & E).
  destruct (proc_destroy_cwd p pr s Hp)
    as (s1' & pr1 & E1' & Hprocs1 & Hf1 & _ & Hq1).
  rewrite E1' in E1. injection E1 as ->.
  apply bind_inv in E as (pr1' & s1' & [Hp1 ->]%load_proc_inv & E).
  rewrite Hprocs1, lookup_insert_eq in Hp1. injection Hp1 as <-.
  apply bind_inv in E as ([] & s2 & E2 & E).
  destruct (proc_destroy_addrspace p pr1 s1)
    as (s2' & pr2 & E2' & Hprocs2 & Hf2 & Hq2).
  { rewrite Hprocs1. apply lookup_insert_eq. }
  rewrite E2' in E2. injection E2 as ->.
  apply bind_inv in E as (pr2' & s2' & [Hp2 ->]%load_proc_inv & E).
  rewrite Hprocs2, lookup_insert_eq in Hp2. injection Hp2 as <-.
  apply bind_inv in E as ([] & s2' & [Hnt ->]%KASSERT_inv & E).
  pose proof (same_teardown_fields_trans _ _ _ Hf1 Hf2) as (Hpid & Hnt' & _).
  pose proof (quiet_trans _ _ _ Hq1 Hq2) as ((Ht2 & _ & Hk2 & _) & _).
  apply bind_inv in E as ([] & s3 & E3 & E).
  unfold spinlock_cleanup in E3.
  apply bind_inv in E3 as ([] & s3' & (pr2' & Hp2 & ->)%update_proc_inv & E3).
  apply modify_inv in E3 as ->.
  rewrite Hprocs2, lookup_insert_eq in Hp2. injection Hp2 as <-.
  apply bind_inv in E as ([] & s4 & E4 & E).
  apply proc_end_waitpid_inv in E4
    as (pr3 & Hp3 & Hr3 & Ht4 & _ & _ & _ & _ & Hk4 & _).
  cbn in Hp3. rewrite lookup_insert_eq in Hp3. injection Hp3 as <-.
  cbn [p_pid set_p_lock] in Hr3, Ht4. cbn in Ht4, Hk4.
  apply bind_inv in E as ([] & s5 & E5 & E).
  assert (files_frame s4 s5) as (Ht5 & _ & Hk5 & _).
  { apply (for_loop_preserves (files_frame s4)) in E5;
      [done| |apply files_frame_refl].
    intros i x [] x' Ex Hx. apply (files_frame_trans _ _ _ Hx).
    now apply proc_destroy_fd_frame in Ex. }
  apply bind_inv in E as (pr5 & s5' & [Hp5 ->]%load_proc_inv & E).
  apply bind_inv in E as ([] & s6 & (fl & _ & _ & ->)%lock_destroy_inv & E).
  apply bind_inv in E as ([] & s7 & E7 & E).
  assert (processTable s7 = processTable s5 /\ kproc s7 = kproc s5)
    as [Ht7 Hk7].
  { unfold kfree_name in E7. destruct (p_name pr5) as [n|].
    - cbn in E7. destruct (names s5 !! n); [|discriminate].
      now injection E7 as <-.
    - now apply ret_inv in E7 as [_ ->]. }
  unfold kfree_proc in E.
  apply bind_inv in E as (pr7 & s7' & [_ ->]%load_proc_inv & E).
  apply modify_inv in E as ->. cbn.
  exists p, pr. split; [done|]. split; [done|]. split; [done|].
  split; [rewrite <- Hnt'; lia|]. split; [now rewrite <- Hpid|].
  split; [apply lookup_delete_eq|].
  rewrite Ht7, Ht5, Ht4, Hk7, Hk5, Hk4, Hk2, Hpid. cbn.
  split; [apply lookup_delete_eq|]. done.
Qed.

(** [proc_destroy] returns only when it was given a live PCB other than
    the kernel process, with no thread attached and an identifier in
    [1 .. MAX_PROC]; the PCB is then freed, the slot of its identifier
    is empty and the full flag is clear.  In every other case it fails
    an assertion or goes wrong: it never destroys the kernel process or
    a process that still has threads. *)
Theorem proc_destroy_requires (po : option ptr) (s s' : kstate) :
  proc_destroy po s = Ok (tt, s') ->
  exists p pr,
    po = Some p /\ procs s !! p = Some pr /\
    Some p <> kproc s /\ p_numthreads pr = 0 /\
    0 < p_pid pr <= MAX_PROC /\
    procs s' !! p = None /\
    pt_proc (processTable s') !! p_pid pr = None /\
    is_full (processTable s') = false /\
    kproc s' = kproc s.
Proof. exact (proc_destroy_guards po s s'). Qed.

End destroy_inv.

(** An instance: the process of pid 2 of a kernel of two processes is
    destroyed. *)
Lemma proc_destroy_requires_witness :
  exists pr s',
    proc_destroy (cfg := shell_config) (Some 6%positive) two_procs_and_raw
    = Ok (tt, s') /\
    procs two_procs_and_raw !! 6%positive = Some pr /\
    p_numthreads pr = 0 /\ p_pid pr = 2 /\
    procs s' !! 6%positive = None /\
    pt_proc (processTable s') !! 2 = None.
Proof.
  pose (s' := run_from (proc_destroy (cfg := shell_config) (Some 6%positive))
                two_procs_and_raw).
  assert (proc_destroy (cfg := shell_config) (Some 6%positive)
            two_procs_and_raw = Ok (tt, s')) as E
    by (vm_compute; reflexivity).
  clearbody s'.
  destruct (proc_destroy_requires (cfg := shell_config) _ _ _ E)
    as (p & pr & Hpo & Hp & _ & Hnt & _ & Hfreed & Hslot & _).
  injection Hpo as <-.
  assert (p_pid pr = 2) as Hpid.
  { assert (p_pid <$> procs two_procs_and_raw !! 6%positive = Some 2) as H2
      by (vm_compute; reflexivity).
    rewrite Hp in H2. now injection H2. }
  exists pr, s'. rewrite Hpid in Hslot.
  split; [exact E|]. split; [exact Hp|]. split; [exact Hnt|].
  split; [exact Hpid|]. split; [exact Hfreed|exact Hslot].
Defined.

(** ** What [proc_destroy] frees *)

Lemma ft_get_slot p fd s x s' :
  ft_get p fd s = Ok (x, s') ->
  s' = s /\ exists pr, procs s !! p = Some pr /\ fileTable pr !! fd = Some x.
Proof.
  unfold ft_get. intros E.
  apply bind_inv in E as (pr & s1 & [Hp ->]%load_proc_inv & E).
  destruct (fileTable pr !! fd) as [y|] eqn:Hy; [|discriminate].
  apply ret_inv in E as [-> ->]. eauto.
Qed.

Section destroy_heap.
Context {cfg : Config}.

(** One turn of the file-table loop writes one slot of the file table
    of [p] and no other part of any PCB. *)
Lemma proc_destroy_fd_procs p fd s s' :
  proc_destroy_fd p fd s = Ok (tt, s') ->
  exists pr,
    procs s !! p = Some pr /\
    procs s' = <[p := set_fileTable (<[fd := None]> (fileTable pr)) pr]>
                 (procs s).
Proof.
  unfold proc_destroy_fd. intros E.
  apply bind_inv in E as (slot & s1 & ->%ft_get_inv & E).
  apply bind_inv in E as ([] & s2 & E2 & E).
  apply ft_set_inv in E as (pr & Hpr & ->).
  assert (procs s2 = procs s) as Hsame.
  { destruct slot as [h|]; [|now apply ret_inv in E2 as [_ ->]].
    apply bind_inv in E2 as (o & s3 & [_ ->]%load_openfile_inv & E2).
    apply bind_inv in E2 as ([] & s3 & (a & _ & _ & ->)%lock_acquire_inv & E2).
    apply bind_inv in E2 as (c & s3 & ->%int_pred_inv & E2).
    apply bind_inv in E2 as ([] & s3 & (o' & ->)%update_openfile_inv & E2).
    destruct (c =? 0).
    - apply bind_inv in E2 as ([] & s3 & E3 & E2).
      apply bind_inv in E2
        as ([] & s4 & (b & _ & _ & ->)%lock_release_inv & E2).
      apply lock_destroy_inv in E2 as (d & _ & _ & ->).
      destruct (vn o).
      + now apply modify_inv in E3 as ->.
      + now apply ret_inv in E3 as [_ ->].
    - now apply lock_release_inv in E2 as (b & _ & _ & ->). }
  rewrite Hsame in Hpr. exists pr. split; [done|]. cbn. now rewrite Hsame.
Qed.

(** On an empty slot a turn touches neither a lock nor a handle. *)
Lemma proc_destroy_fd_empty p fd s s' pr :
  proc_destroy_fd p fd s = Ok (tt, s') ->
  procs s !! p = Some pr -> table_empty (fileTable pr) ->
  locks s' = locks s /\ openfiles s' = openfiles s /\ trace s' = trace s.
Proof.
  unfold proc_destroy_fd. intros E Hp Hempty.
  apply bind_inv in E as (slot & s1 & [-> (pr' & Hp' & Hslot)]%ft_get_slot & E).
  assert (pr' = pr) as -> by congruence.
  assert (slot = None) as ->.
  { unfold table_empty in Hempty. rewrite Forall_lookup in Hempty.
    exact (Hempty _ _ Hslot). }
  apply bind_inv in E as ([] & s2 & [_ ->]%ret_inv & E).
  now apply ft_set_inv in E as (pr2 & _ & ->).
Qed.

(** The file-table loop as a whole. *)
Lemma proc_destroy_loop_frame p n :
  forall lo s s' pr,
    for_loop lo n (proc_destroy_fd p) s = Ok (tt, s') ->
    procs s !! p = Some pr ->
    files_frame s s' /\
    (exists ft, procs s' = <[p := set_fileTable ft pr]> (procs s) /\
                (table_empty (fileTable pr) -> table_empty ft)) /\
    (table_empty (fileTable pr) ->
     locks s' = locks s /\ openfiles s' = openfiles s /\ trace s' = trace s).
Proof.
  induction n as [|n IH]; intros lo s s' pr E Hp.
  - apply ret_inv in E as [_ ->]. split; [apply files_frame_refl|].
    split; [|done]. exists (fileTable pr). split; [|done].
    symmetry. apply insert_id. rewrite Hp. now destruct pr.
  - rewrite for_loop_unfold in E.
    apply bind_inv in E as ([] & s1 & E1 & E).
    pose proof (proc_destroy_fd_frame _ _ _ _ E1) as Hf1.
    pose proof (proc_destroy_fd_empty _ _ _ _ _ E1 Hp) as He1.
    apply proc_destroy_fd_procs in E1 as (pr' & Hp' & Hprocs1).
    assert (pr' = pr) as -> by congruence.
    set (pr1 := set_fileTable (<[lo := None]> (fileTable pr)) pr) in *.
    destruct (IH (S lo) s1 s' pr1 E) as (Hf & (ft & Hprocs & Hft) & He).
    { rewrite Hprocs1. apply lookup_insert_eq. }
    split; [exact (files_frame_trans _ _ _ Hf1 Hf)|].
    assert (table_empty (fileTable pr) -> table_empty (fileTable pr1)) as Hkeep.
    { intros Hempty. unfold pr1, table_empty. cbn. now apply Forall_insert. }
    split.
    + exists ft. split; [|auto].
      rewrite Hprocs, Hprocs1, insert_insert_eq. reflexivity.
    + intros Hempty. destruct (He1 Hempty) as (Hl1 & Ho1 & Ht1).
      destruct (He (Hkeep Hempty)) as (Hl & Ho & Ht).
      split; [congruence|]. split; congruence.
Qed.

(** What is left of the kernel heap when [proc_destroy] returns, in the
    semaphore build. *)
Lemma proc_destroy_heap p pr s s' :
  USE_SEMAPHORE_FOR_WAITPID = true ->
  proc_destroy (Some p) s = Ok (tt, s') -> procs s !! p = Some pr ->
  exists sm fl,
    p_sem pr = Some sm /\ ft_lock pr = Some fl /\
    procs s' = delete p (procs s) /\
    names s' = match p_name pr with
               | Some n => delete n (names s)
               | None => names s
               end /\
    sems s' = delete sm (sems s) /\ cvs s' = cvs s /\
    locks s' !! fl = None /\
    last_i (processTable s') = last_i (processTable s) /\
    pt_proc (processTable s') = delete (p_pid pr) (pt_proc (processTable s)) /\
    (table_empty (fileTable pr) ->
     locks s' = delete fl (locks s) /\ openfiles s' = openfiles s /\
     trace s' = trace s ++ release_events s p pr
                ++ [Call_spinlock_cleanup p]).
Proof.
  intros Hcfg E Hp. unfold proc_destroy in E.
  apply bind_inv in E as (s0 & s0' & [-> ->]%get_state_inv & E).
  apply bind_inv in E as ([] & s0 & [Hk ->]%KASSERT_inv & E).
  apply bind_inv in E as (pr0 & s0 & [Hp0 ->]%load_proc_inv & E).
  assert (pr0 = pr) as -> by congruence.
  apply bind_inv in E as ([] & s1 & E1 & E).
  destruct (proc_destroy_cwd p pr s Hp)
    as (s1' & pr1 & E1' & Hprocs1 & Hf1 & Has1 & Hq1).
  assert (trace s1 = trace s ++ match p_cwd pr with
                                | Some v => [Call_VOP_DECREF v]
                                | None => []
                                end) as Htr1.
  { destruct (p_cwd pr) as [v|].
    - apply bind_inv in E1 as ([] & s1'' & ->%modify_inv & E1).
      now apply update_proc_inv in E1 as (? & _ & ->).
    - apply ret_inv in E1 as [_ ->]. now rewrite app_nil_r. }
  rewrite E1' in E1. injection E1 as ->.
  apply bind_inv in E as (pr1' & s1' & [Hp1 ->]%load_proc_inv & E).
  rewrite Hprocs1, lookup_insert_eq in Hp1. injection Hp1 as <-.
  apply bind_inv in E as ([] & s2 & E2 & E).
  destruct (proc_destroy_addrspace p pr1 s1)
    as (s2' & pr2 & E2' & Hprocs2 & Hf2 & Hq2).
  { rewrite Hprocs1. apply lookup_insert_eq. }
  assert (trace s2
          = trace s1 ++
            match p_addrspace pr1 with
            | Some a =>
              (if bool_decide (Some p = curproc s1)
               then [Call_as_deactivate] else []) ++ [Call_as_destroy a]
            | None => []
            end) as Htr2.
  { destruct (p_addrspace pr1) as [a|] eqn:Ha1.
    2:{ apply ret_inv in E2 as [_ ->]. now rewrite app_nil_r. }
    apply bind_inv in E2 as (s1a & s1b & [-> ->]%get_state_inv & E2).
    apply bind_inv in E2 as (r & s2a & Er & E2).
    case_bool_decide as Hcur.
    - apply bind_inv in Er as (r' & s2b & Er' & Er).
      rewrite (proc_setas_Ok None p pr1 s1) in Er'
        by (try done; rewrite Hprocs1; apply lookup_insert_eq).
      injection Er' as <- <-.
      apply bind_inv in Er as ([] & s2c & ->%modify_inv & Er).
      apply ret_inv in Er as [-> ->]. rewrite Ha1 in E2.
      apply modify_inv in E2 as ->. cbn. now rewrite <- app_assoc.
    - apply bind_inv in Er as (pr1' & s2b & [Hp1' ->]%load_proc_inv & Er).
      apply bind_inv in Er as ([] & s2c & (? & _ & ->)%update_proc_inv & Er).
      apply ret_inv in Er as [-> ->].
      rewrite Hprocs1, lookup_insert_eq in Hp1'. injection Hp1' as <-.
      rewrite Ha1 in E2. apply modify_inv in E2 as ->. reflexivity. }
  rewrite E2' in E2. injection E2 as ->.
  apply bind_inv in E as (pr2' & s2' & [Hp2 ->]%load_proc_inv & E).
  rewrite Hprocs2, lookup_insert_eq in Hp2. injection Hp2 as <-.
  apply bind_inv in E as ([] & s2' & [Hnt ->]%KASSERT_inv & E).
  pose proof (same_teardown_fields_trans _ _ _ Hf1 Hf2)
    as (Hpid & _ & Hsem & _ & _ & Hfl & Hft & Hname).
  pose proof (quiet_trans _ _ _ Hq1 Hq2)
    as ((Ht2 & _ & _ & _ & Hnm2 & Hsm2 & Hcv2 & _) & Hof2 & Hlk2 & _).
  assert (curproc s1 = curproc s) as Hcur1 by (destruct Hq1 as ((_ & _ & _ & Hc & _) & _); exact Hc).
  apply bind_inv in E as ([] & s3 & E3 & E).
  unfold spinlock_cleanup in E3.
  apply bind_inv in E3 as ([] & s3' & (pr2' & Hp2 & ->)%update_proc_inv & E3).
  apply modify_inv in E3 as ->.
  rewrite Hprocs2, lookup_insert_eq in Hp2. injection Hp2 as <-.
  apply bind_inv in E as ([] & s4 & E4 & E).
  pose proof E4 as E4'. unfold proc_end_waitpid in E4'.
  apply bind_inv in E4' as ([] & s40 & [_ ->]%ret_inv & E4').
  apply bind_inv in E4' as (pr3 & s40 & [Hp3 ->]%load_proc_inv & E4').
  cbn in Hp3. rewrite lookup_insert_eq in Hp3. injection Hp3 as <-.
  apply bind_inv in E4' as ([] & s40 & [_ ->]%KASSERT_inv & E4').
  apply bind_inv in E4' as ([] & s41 & [_ ->]%table_set_inv & E4').
  apply bind_inv in E4' as ([] & s42 & ->%modify_inv & E4').
  apply bind_inv in E4' as ([] & s43 & [_ ->]%ret_inv & E4').
  rewrite Hcfg in E4'. cbn [p_sem set_p_lock] in E4'.
  apply sem_destroy_inv in E4' as (sm & Hsm & _ & ->).
  clear E4.
  match type of E with
  | bind _ _ ?x = _ => set (s4 := x) in *
  end.
  apply bind_inv in E as ([] & s5 & E5 & E).
  destruct (proc_destroy_loop_frame p OPEN_MAX 0 s4 s5 (set_p_lock false pr2) E5)
    as ((Ht5 & _ & _ & _ & Hnm5 & Hsm5 & Hcv5 & _) & (ft & Hprocs5 & _) & He5).
  { unfold s4. cbn. apply lookup_insert_eq. }
  apply bind_inv in E as (pr5 & s5' & [Hp5 ->]%load_proc_inv & E).
  rewrite Hprocs5, lookup_insert_eq in Hp5. injection Hp5 as <-.
  cbn [ft_lock p_name set_fileTable set_p_lock] in E.
  apply bind_inv in E as ([] & s6 & (fl & Hfl6 & _ & ->)%lock_destroy_inv & E).
  apply bind_inv in E as ([] & s7 & E7 & E).
  unfold kfree_proc in E.
  apply bind_inv in E as (pr7 & s7' & [_ ->]%load_proc_inv & E).
  apply modify_inv in E as ->.
  assert (s7 = with_names
                 (match p_name pr2 with
                  | Some n => delete n (names s5)
                  | None => names s5
                  end) (with_locks (delete fl (locks s5)) s5)) as ->.
  { unfold kfree_name in E7. destruct (p_name pr2) as [n|].
    - cbn in E7. destruct (names s5 !! n); [|discriminate].
      now injection E7 as <-.
    - apply ret_inv in E7 as [_ ->]. cbn. now destruct s5. }
  exists sm, fl. cbn.
  split; [congruence|]. split; [congruence|].
  split.
  { rewrite Hprocs5. unfold s4. cbn. rewrite Hprocs2, Hprocs1.
    now rewrite !insert_insert_eq, delete_insert_eq. }
  split.
  { rewrite Hname, Hnm5. unfold s4. cbn. now rewrite Hnm2. }
  split; [rewrite Hsm5; unfold s4; cbn; now rewrite Hsm2|].
  split; [rewrite Hcv5; unfold s4; cbn; now rewrite Hcv2|].
  split; [apply lookup_delete_eq|].
  split; [rewrite Ht5; unfold s4; cbn; now rewrite Ht2|].
  split; [rewrite Ht5; unfold s4; cbn; now rewrite Ht2, Hpid|].
  intros Hempty.
  destruct He5 as (Hl5 & Ho5 & Htr5); [cbn; now rewrite Hft|].
  rewrite Hl5, Ho5, Htr5. unfold s4. cbn.
  rewrite Hlk2, Hof2, Htr2, Htr1, Has1, Hcur1. unfold release_events.
  now rewrite <- !app_assoc.
Qed.

End destroy_heap.

(** ** From creation to destruction *)

Lemma omap_replicate_None {A} n : omap id (replicate n (@None A)) = [].
Proof. induction n as [|n IH]; [done|]. exact IH. Qed.

Lemma forallb_replicate {A} (f : A -> bool) n x :
  f x = true -> forallb f (replicate n x) = true.
Proof. intros Hx. induction n as [|n IH]; [done|]. cbn. now rewrite Hx. Qed.

Lemma table_empty_replicate n : table_empty (replicate n None).
Proof. apply Forall_replicate. reflexivity. Qed.

Section round_trip.
Context {cfg : Config}.

(** When [proc_destroy] returns, in the semaphore build, it has freed
    the PCB, the name, the semaphore and the file-table lock of the
    process and released its slot; every other PCB, name and semaphore,
    every condition variable and [last_i] are as they were. *)
Theorem proc_destroy_frees_its_own (p : ptr) (pr : proc) (s s' : kstate) :
  USE_SEMAPHORE_FOR_WAITPID = true ->
  proc_destroy (Some p) s = Ok (tt, s') -> procs s !! p = Some pr ->
  procs s' = delete p (procs s) /\
  names s' = match p_name pr with
             | Some n => delete n (names s)
             | None => names s
             end /\
  (exists sm, p_sem pr = Some sm /\ sems s' = delete sm (sems s)) /\
  cvs s' = cvs s /\
  (exists fl, ft_lock pr = Some fl /\ locks s' !! fl = None) /\
  pt_proc (processTable s') = delete (p_pid pr) (pt_proc (processTable s)) /\
  last_i (processTable s') = last_i (processTable s).
Proof.
  intros Hcfg E Hp.
  destruct (proc_destroy_heap p pr s s' Hcfg E Hp)
    as (sm & fl & Hsm & Hfl & Hprocs & Hnames & Hsems & Hcvs & Hlock & Hlast
        & Htable & _).
  eauto 12.
Qed.

(** Destroying a process whose file table is empty (semaphore build)
    makes these calls and no other, in this order: one [VOP_DECREF] if
    it has a working directory; if it has an address space,
    [as_deactivate] when it is the current process and then one
    [as_destroy]; and the [spinlock_cleanup] of its PCB.  No open file is
    touched. *)
Theorem proc_destroy_releases (p : ptr) (pr : proc) (s : kstate) :
  USE_SEMAPHORE_FOR_WAITPID = true ->
  destroy_ready s p = true -> procs s !! p = Some pr ->
  table_empty (fileTable pr) ->
  exists s',
    proc_destroy (Some p) s = Ok (tt, s') /\
    trace s' = trace s ++ release_events s p pr
               ++ [Call_spinlock_cleanup p] /\
    openfiles s' = openfiles s.
Proof.
  intros Hcfg Hready Hp Hempty.
  destruct (proc_destroy_Ok p s Hready) as (pr' & s' & _ & E & _).
  destruct (proc_destroy_heap p pr s s' Hcfg E Hp)
    as (sm & fl & _ & _ & _ & _ & _ & _ & _ & _ & _ & Hrest).
  destruct (Hrest Hempty) as (_ & Hfiles & Htrace).
  exists s'. split; [exact E|]. split; [exact Htrace|exact Hfiles].
Qed.

(** A process just created can be destroyed. *)
Lemma created_destroy_ready (s s1 : kstate) (a n l sm : ptr) (j : Z) :
  USE_SEMAPHORE_FOR_WAITPID = true ->
  1 <= j <= MAX_PROC -> kproc s1 <> Some a ->
  procs s1 !! a = Some (created_pcb n (Some l) (Some sm) j) ->
  is_Some (names s1 !! n) -> locks s1 !! l = Some false ->
  is_Some (sems s1 !! sm) ->
  destroy_ready s1 a = true.
Proof.
  intros Hcfg Hj Hk Hp Hn Hl Hsm. unfold destroy_ready. rewrite Hp.
  unfold rendezvous_live, owned_locks. rewrite Hcfg.
  cbn [created_pcb p_numthreads p_pid p_sem fileTable ft_lock p_name].
  rewrite omap_replicate_None. cbn [remove_dups fmap list_fmap app].
  rewrite !andb_true_iff. split_and!.
  - apply negb_true_iff, bool_decide_eq_false_2. congruence.
  - reflexivity.
  - lia.
  - lia.
  - now apply bool_decide_eq_true_2.
  - apply bool_decide_eq_true_2, length_replicate.
  - now apply forallb_replicate.
  - cbn. now apply bool_decide_eq_true_2.
  - apply bool_decide_eq_true_2. apply NoDup_singleton.
  - now apply bool_decide_eq_true_2.
Qed.

(** Creating a process, with memory for its PCB, its name, the lock of
    its file table and its semaphore, and destroying it again leaks
    nothing: PCBs, names, locks, semaphores, condition variables, open
    files and the slots of the table are as before the creation.  What
    remains is the [spinlock_cleanup] call in the trace and [last_i],
    which stays at the identifier the process had, so that the next
    process gets the following one.  (The kernel process, if there is
    one, is taken to be a live PCB.) *)
Theorem proc_create_then_destroy (name : string) (s : kstate) (k : Z) :
  USE_SEMAPHORE_FOR_WAITPID = true ->
  memory_for 4 s = true ->
  is_full (processTable s) = false ->
  last_i_ok (processTable s) ->
  1 <= k <= MAX_PROC -> k <> last_i (processTable s) ->
  pt_proc (processTable s) !! k = None ->
  (forall kp, kproc s = Some kp -> is_Some (procs s !! kp)) ->
  exists p id s1 s2,
    proc_create name s = Ok (Some p, s1) /\
    p_pid <$> procs s1 !! p = Some id /\
    proc_destroy (Some p) s1 = Ok (tt, s2) /\
    procs s2 = procs s /\ names s2 = names s /\ locks s2 = locks s /\
    sems s2 = sems s /\ cvs s2 = cvs s /\ openfiles s2 = openfiles s /\
    pt_proc (processTable s2) = pt_proc (processTable s) /\
    is_full (processTable s2) = false /\
    last_i (processTable s2) = id /\
    trace s2 = trace s ++ [Call_spinlock_cleanup p].
Proof.
  intros Hcfg Hmem Hflag Hl Hk Hne Hfree Hkp.
  destruct (find_free_pid_total _ Hl) as [(j & Hf & Hj & Hjfree & _)|[_ Hocc]].
  2:{ destruct (Hocc k Hk Hne) as [x Hx]. congruence. }
  destruct (proc_create_Ok name s j Hcfg Hmem Hf) as
    (n & l & sm & s1 & E & Hprocs & Hnames & Hlocks & Hsems & Htable & Hcvs
     & Hfiles & Htrace & Hkproc & _ & _ & _ & Ha & Hn & Hfl & Hsm & _);
    [lia|done|].
  apply not_in_allocated in Ha as (Ha & _).
  apply not_in_allocated in Hn as (_ & Hn & _).
  apply not_in_allocated in Hfl as (_ & _ & Hfl & _).
  apply not_in_allocated in Hsm as (_ & _ & _ & Hsm & _).
  set (a := fresh_addr s) in *.
  assert (kproc s <> Some a) as Hkp'.
  { intros Heq. destruct (Hkp _ Heq) as [x Hx]. congruence. }
  assert (procs s1 !! a = Some (created_pcb n (Some l) (Some sm) j)) as Hp1
    by (rewrite Hprocs; apply lookup_insert_eq).
  assert (destroy_ready s1 a = true) as Hready.
  { apply (created_destroy_ready s s1 a n l sm j); try done.
    - congruence.
    - rewrite Hnames, lookup_insert_eq. eauto.
    - rewrite Hlocks. apply lookup_insert_eq.
    - rewrite Hsems, lookup_insert_eq. eauto. }
  destruct (proc_destroy_Ok a s1 Hready)
    as (pr1 & s2 & _ & E2 & _ & Ht2 & _).
  destruct (proc_destroy_heap a _ s1 s2 Hcfg E2 Hp1)
    as (sm' & fl' & Hsm' & Hfl' & Hprocs2 & Hnames2 & Hsems2 & Hcvs2 & _
        & Hlast2 & Htable2 & Hrest).
  cbn in Hsm', Hfl'. injection Hsm' as <-. injection Hfl' as <-.
  destruct Hrest as (Hlocks2 & Hfiles2 & Htrace2);
    [apply table_empty_replicate|].
  exists a, j, s1, s2.
  split; [exact E|]. split; [now rewrite Hp1|]. split; [exact E2|].
  split; [rewrite Hprocs2, Hprocs; now apply delete_insert_id|].
  split; [rewrite Hnames2; cbn; rewrite Hnames; now apply delete_insert_id|].
  split; [rewrite Hlocks2, Hlocks; now apply delete_insert_id|].
  split; [rewrite Hsems2, Hsems; now apply delete_insert_id|].
  split; [congruence|]. split; [congruence|].
  split; [rewrite Htable2, Htable; cbn; now apply delete_insert_id|].
  split; [now rewrite Ht2|].
  split; [now rewrite Hlast2, Htable|].
  now rewrite Htrace2, Htrace.
Qed.

End round_trip.

(** An instance: the process of pid 2 of a kernel of two processes is
    destroyed; its PCB at 6 and its semaphore at 9 are freed. *)
Lemma proc_destroy_frees_its_own_witness :
  exists s',
    proc_destroy (cfg := shell_config) (Some 6%positive) two_procs_and_raw
    = Ok (tt, s') /\
    procs s' = delete 6%positive (procs two_procs_and_raw) /\
    sems s' = delete 9%positive (sems two_procs_and_raw).
Proof.
  pose (s' := run_from (proc_destroy (cfg := shell_config) (Some 6%positive))
                two_procs_and_raw).
  assert (proc_destroy (cfg := shell_config) (Some 6%positive)
            two_procs_and_raw = Ok (tt, s')) as E
    by (vm_compute; reflexivity).
  clearbody s'.
  assert (exists pr, procs two_procs_and_raw !! 6%positive = Some pr /\
                     p_sem pr = Some 9%positive) as (pr & Hp & Hsem).
  { eexists. split; [vm_compute; reflexivity|reflexivity]. }
  destruct (proc_destroy_frees_its_own (cfg := shell_config) 6 pr
              two_procs_and_raw s' eq_refl E Hp)
    as (Hprocs & _ & (sm & Hsm & Hsems) & _).
  exists s'. split; [exact E|]. split; [exact Hprocs|].
  rewrite Hsem in Hsm. injection Hsm as <-. exact Hsems.
Defined.

(** An instance: a fourth process is created in [three_procs] and
    destroyed again. *)
Lemma proc_create_then_destroy_witness :
  exists p s1 s2,
    proc_create (cfg := shell_config) "sh" three_procs = Ok (Some p, s1) /\
    proc_destroy (cfg := shell_config) (Some p) s1 = Ok (tt, s2) /\
    procs s2 = procs three_procs /\ locks s2 = locks three_procs /\
    sems s2 = sems three_procs /\
    pt_proc (processTable s2) = pt_proc (processTable three_procs).
Proof.
  destruct (proc_create_then_destroy (cfg := shell_config) "sh" three_procs 4)
    as (p & id & s1 & s2 & E1 & _ & E2 & Hprocs & _ & Hlocks & Hsems & _ & _
        & Htable & _).
  - reflexivity.
  - vm_compute. reflexivity.
  - vm_compute. reflexivity.
  - left. vm_compute. split; discriminate.
  - unfold MAX_PROC. lia.
  - vm_compute. discriminate.
  - vm_compute. reflexivity.
  - intros kp Heq. vm_compute in Heq. injection Heq as <-.
    vm_compute. eauto.
  - exists p, s1, s2. split; [exact E1|]. split; [exact E2|].
    split; [exact Hprocs|]. split; [exact Hlocks|].
    split; [exact Hsems|exact Htable].
Defined.

(** An instance: process A, running, with a working directory (vnode
    200) and an address space (300), is destroyed. *)
Lemma proc_destroy_releases_witness :
  exists s',
    proc_destroy (cfg := shell_config) (Some 6%positive) user_running
    = Ok (tt, s') /\
    trace s' = trace user_running
               ++ [Call_VOP_DECREF 200%positive; Call_as_deactivate;
                   Call_as_destroy 300%positive;
                   Call_spinlock_cleanup 6%positive].
Proof.
  assert (exists pr, procs user_running !! 6%positive = Some pr /\
                     release_events user_running 6 pr
                     = [Call_VOP_DECREF 200%positive; Call_as_deactivate;
                        Call_as_destroy 300%positive] /\
                     fileTable pr = replicate 128 None)
    as (pr & Hp & Hev & Hft).
  { eexists. split; [vm_compute; reflexivity|].
    split; [vm_compute; reflexivity|reflexivity]. }
  destruct (proc_destroy_releases (cfg := shell_config) 6 pr user_running)
    as (s' & E & Htrace & _).
  - reflexivity.
  - vm_compute. reflexivity.
  - exact Hp.
  - rewrite Hft. apply table_empty_replicate.
  - exists s'. split; [exact E|]. rewrite Htrace, Hev. reflexivity.
Defined.

(** ** The two halves of [proc_create] *)

Section halves.
Context {cfg : Config}.

(** Memory for the allocations to come is memory for those that come
    after the first [k]. *)
Lemma memory_for_later k n s s1 :
  memory_for (k + n) s = true ->
  kmalloc_oracle s1 = Nat.iter k tail (kmalloc_oracle s) ->
  memory_for n s1 = true.
Proof.
  unfold memory_for. intros Hall ->. rewrite iter_tail_drop.
  rewrite forallb_forall in *. intros b Hb. apply Hall.
  apply list_elem_of_In, elem_of_take in Hb as (i & Hi & Hlt).
  rewrite lookup_drop in Hi.
  apply list_elem_of_In, elem_of_take. exists (k + i)%nat.
  split; [done|lia].
Qed.

(** Two calls of [proc_create] for the last slot the scan can find, with
    memory for all that both allocate, the second running between the
    registration of the first and its test of the full flag.  The second finds nothing and sets the flag; the
    first then sees the flag, frees its PCB and returns [NULL] like the
    second, although a slot was there for it; and the slot is left
    holding the address of the freed PCB, so that a lookup of that
    identifier reads freed memory. *)
Theorem proc_create_race (name1 name2 : string) (s : kstate) (j : Z) :
  USE_SEMAPHORE_FOR_WAITPID = true ->
  memory_for 7 s = true ->
  is_full (processTable s) = false ->
  last_i_ok (processTable s) ->
  1 <= j <= MAX_PROC -> PID_MIN <= j -> j <> last_i (processTable s) ->
  pt_proc (processTable s) !! j = None ->
  (forall k, 1 <= k <= MAX_PROC -> k <> j ->
             is_Some (pt_proc (processTable s) !! k)) ->
  exists p1 p2 s1 s2 s3 s4,
    proc_create_register name1 s = Ok (Some p1, s1) /\
    proc_create_register name2 s1 = Ok (Some p2, s2) /\
    proc_create_finish (Some p1) s2 = Ok (None, s3) /\
    proc_create_finish (Some p2) s3 = Ok (None, s4) /\
    pt_proc (processTable s4) !! j = Some p1 /\
    procs s4 !! p1 = None /\
    proc_search_pid j s4 = Undefined.
Proof.
  intros Hcfg Hmem Hflag Hlast Hj Hmin Hne Hfree Hocc.
  assert (find_free_pid (processTable s) = Ok (Some j)) as Hf.
  { destruct (find_free_pid_total _ Hlast) as [(i & Hf & Hi & Hifree & _)|[_ Hn]].
    - destruct (decide (i = j)) as [->|Hij]; [done|].
      destruct (Hocc i Hi Hij) as [x Hx]. congruence.
    - destruct (Hn j Hj Hne) as [x Hx]. congruence. }
  destruct (proc_create_register_found name1 s j Hcfg
              (memory_for_le 7 2 s Hmem ltac:(lia)) Hf)
    as (n1 & l1 & sm1 & s1 & E1 & Hprocs1 & Hnames1 & Hlocks1 & _ & Ht1 & _
        & _ & _ & _ & _ & _ & Ho1 & _); [lia|].
  rewrite (memory_for_alloc_nth 7 2 s Hmem) in Hprocs1, Hlocks1 by lia.
  set (p1 := fresh_addr s) in *.
  match type of Hprocs1 with _ = <[_ := ?x]> _ => set (pr1 := x) in * end.
  assert (procs s1 !! p1 = Some pr1) as Hp1
    by (rewrite Hprocs1; apply lookup_insert_eq).
  assert (p_name pr1 = Some n1) as Hn1 by reflexivity.
  assert (ft_lock pr1 = Some l1) as Hl1 by reflexivity.
  clearbody pr1.
  assert (find_free_pid (processTable s1) = Ok None) as Hf1.
  { apply find_free_pid_skips_last; rewrite Ht1; cbn; [lia|].
    intros k Hk Hkj. rewrite lookup_insert_ne by congruence. auto. }
  assert (memory_for 3 s1 = true) as Hmem1
    by exact (memory_for_later 4 3 s s1 Hmem Ho1).
  destruct (proc_create_register_full name2 s1)
    as (n2 & l2 & pr2 & s2 & E2 & Hprocs2 & Hn2 & Hl2 & _ & Hnames2 & Hlocks2
        & Ht2 & _ & _ & _ & _ & _ & _ & _ & Hp2 & Hn2f & Hl2f);
    [exact (memory_for_le 3 2 s1 Hmem1 ltac:(lia))|exact Hf1|].
  rewrite (memory_for_alloc_nth 3 2 s1 Hmem1) in Hl2, Hlocks2 by lia.
  set (p2 := fresh_addr s1) in *.
  assert (p1 <> p2) as Hp12 by congruence.
  assert (n1 <> n2) as Hn12.
  { intros <-. rewrite Hnames1, lookup_insert_eq in Hn2f. discriminate. }
  assert (l1 <> l2) as Hl12.
  { intros <-. rewrite Hlocks1, lookup_insert_eq in Hl2f. discriminate. }
  destruct (proc_create_finish_full p1 pr1 n1 l1 s2)
    as (s3 & E3 & Hprocs3 & Hnames3 & Hlocks3 & _ & Ht3 & _); try done.
  { rewrite Hprocs2, lookup_insert_ne by done. exact Hp1. }
  { rewrite Hnames2, lookup_insert_ne, Hnames1, lookup_insert_eq by done.
    eauto. }
  { rewrite Hlocks2, lookup_insert_ne, Hlocks1 by done.
    apply lookup_insert_eq. }
  { now rewrite Ht2. }
  destruct (proc_create_finish_full p2 pr2 n2 l2 s3)
    as (s4 & E4 & Hprocs4 & _ & _ & _ & Ht4 & _); try done.
  { rewrite Hprocs3, lookup_delete_ne, Hprocs2 by done.
    apply lookup_insert_eq. }
  { rewrite Hnames3, lookup_delete_ne, Hnames2, lookup_insert_eq by done.
    eauto. }
  { rewrite Hlocks3, lookup_delete_ne, Hlocks2 by done.
    apply lookup_insert_eq. }
  { now rewrite Ht3, Ht2. }
  assert (pt_proc (processTable s4) !! j = Some p1) as Hslot.
  { rewrite Ht4, Ht3, Ht2, Ht1. cbn. apply lookup_insert_eq. }
  assert (procs s4 !! p1 = None) as Hgone.
  { rewrite Hprocs4, lookup_delete_ne, Hprocs3 by done.
    apply lookup_delete_eq. }
  exists p1, p2, s1, s2, s3, s4.
  split; [exact E1|]. split; [exact E2|]. split; [exact E3|].
  split; [exact E4|]. split; [exact Hslot|]. split; [exact Hgone|].
  unfold proc_search_pid.
  assert ((j <? PID_MIN) || (j >? MAX_PROC) = false) as -> by lia.
  kstep. kstep by (apply table_get_Ok; unfold in_table_bounds; lia).
  rewrite Hslot. kstep. unfold bind, load_proc. now rewrite Hgone.
Qed.

(** On a table that is in order [proc_create] stops at the assertion of
    [lock_destroy] when its rollback runs with [NULL] for the lock of
    the file table.  In every other case, whatever the allocator
    answers, it returns and leaves the table in order: when it returns
    [NULL] no PCB and no slot has changed; otherwise the PCB is a new one
    and sits, with its identifier, in a slot that was free. *)
Theorem proc_create_keeps_table (name : string) (s : kstate) :
  USE_SEMAPHORE_FOR_WAITPID = true -> table_ok s ->
  (rollback_without_lock s /\ proc_create name s = Panic) \/
  (~ rollback_without_lock s /\
   exists r s',
     proc_create name s = Ok (r, s') /\ table_ok s' /\
     create_outcome s r s').
Proof.
  intros Hcfg (Hinv & Hlast & Hflag).
  assert (forall rest,
            kmalloc_oracle s = false :: rest \/
            kmalloc_oracle s = true :: false :: rest ->
            ~ rollback_without_lock s /\
            exists r s',
              proc_create name s = Ok (r, s') /\ table_ok s' /\
              create_outcome s r s') as Hoom.
  { intros rest Ho. split.
    - intros (Hm & _). unfold memory_for in Hm.
      destruct Ho as [Ho|Ho]; rewrite Ho in Hm; discriminate.
    - exists None, (with_kmalloc_oracle rest s).
      destruct (proc_create_oom name s rest) as [H1 H2].
      split; [destruct Ho; auto|]. now split. }
  assert (memory_for 2 s = true ->
          (rollback_without_lock s /\ proc_create name s = Panic) \/
          (~ rollback_without_lock s /\
           exists r s',
             proc_create name s = Ok (r, s') /\ table_ok s' /\
             create_outcome s r s')) as Hmem.
  { intros Hmem.
    destruct (find_free_pid_total _ Hlast)
      as [(j & Hf & Hj & Hjfree & _)|[Hf _]].
    - right. split; [intros (_ & _ & Hn); congruence|].
      assert (is_full (processTable s) = false) as Hnot.
      { destruct (is_full (processTable s)) eqn:Hb; [|done].
        rewrite (Hflag Hb) in Hf. discriminate. }
      destruct (proc_create_found name s j Hcfg Hmem Hf) as
        (n & l & sm & s' & E & Hprocs & _ & _ & _ & Htable & _ & _ & _ & _
         & _ & _ & _ & Ha & _); [lia|done|].
      apply not_in_allocated in Ha as (Ha & _).
      exists (Some (fresh_addr s)), s'. split; [exact E|]. split.
      + split; [|split].
        * intros i q Hq Hi. rewrite Htable in Hq. cbn in Hq. rewrite Hprocs.
          destruct (decide (i = j)) as [->|Hne].
          -- rewrite lookup_insert_eq in Hq. injection Hq as <-.
             now rewrite lookup_insert_eq.
          -- rewrite lookup_insert_ne in Hq by congruence.
             pose proof (Hinv i q Hq Hi) as Hlive.
             rewrite lookup_insert_ne; [done|].
             intros <-. rewrite Ha in Hlive. discriminate.
        * left. rewrite Htable. cbn. lia.
        * intros Hb. rewrite Htable in Hb. discriminate.
      + split; [done|]. exists j. split; [done|]. split.
        * rewrite Htable. cbn. apply lookup_insert_eq.
        * now rewrite Hprocs, lookup_insert_eq.
    - destruct (alloc_nth 2 s) eqn:Hb3.
      + right. split; [intros (_ & Hn & _); congruence|].
        assert (memory_for 3 s = true) as Hmem3.
        { revert Hmem Hb3. unfold memory_for, alloc_nth.
          destruct (kmalloc_oracle s) as [|[|] [|[|] [|[|] rest]]];
            cbn; auto. }
        destruct (proc_create_full_rolls_back name s Hmem3 Hf)
          as (s' & E & Hpt & Hli & Hfl & Hprocs & _).
        exists None, s'. split; [exact E|]. split.
        * split; [|split].
          -- unfold table_inv. now rewrite Hpt, Hprocs.
          -- unfold last_i_ok. now rewrite Hpt, Hli.
          -- intros _. unfold find_free_pid. now rewrite Hpt, Hli.
        * split; [exact Hprocs|exact Hpt].
      + left. split; [done|]. now apply proc_create_full_no_lock. }
  destruct (kmalloc_oracle s) as [|[|] [|[|] rest]] eqn:Ho.
  - apply Hmem. unfold memory_for. now rewrite Ho.
  - apply Hmem. unfold memory_for. now rewrite Ho.
  - apply Hmem. unfold memory_for. now rewrite Ho.
  - right. apply (Hoom rest). now right.
  - right. apply (Hoom []). now left.
  - right. apply (Hoom (true :: rest)). now left.
  - right. apply (Hoom (false :: rest)). now left.
Qed.

End halves.

Lemma slots_taken_upto (t : gmap Z ptr) (n : nat) :
  forallb (fun i => bool_decide (is_Some (t !! Z.of_nat i))) (seq 1 n) = true ->
  forall k, 1 <= k <= Z.of_nat n -> is_Some (t !! k).
Proof.
  intros Hall k Hk. rewrite forallb_forall in Hall.
  specialize (Hall (Z.to_nat k)). rewrite Z2Nat.id in Hall by lia.
  apply (bool_decide_eq_true_1 _), Hall, in_seq. lia.
Qed.

(** An instance: a creation in a kernel of three processes, where
    memory is plentiful. *)
Lemma proc_create_keeps_table_witness :
  table_ok three_procs /\
  exists r s',
    proc_create (cfg := shell_config) "sh" three_procs = Ok (r, s') /\
    table_ok s' /\ create_outcome three_procs r s'.
Proof.
  assert (table_ok three_procs) as Hok.
  { split; [apply (bool_decide_unpack _); vm_compute; exact I|].
    split; [left; vm_compute; split; discriminate|].
    intros Hb. vm_compute in Hb. discriminate. }
  split; [exact Hok|].
  destruct (proc_create_keeps_table (cfg := shell_config) "sh" three_procs
              eq_refl Hok) as [[(_ & Hb & _) _]|[_ H]].
  - vm_compute in Hb. discriminate.
  - exact H.
Defined.

(** An instance: pids 1 to 99 are taken and two calls of [proc_create]
    race for pid 100. *)
Lemma proc_create_race_witness :
  exists p1 p2 s1 s2 s3 s4,
    proc_create_register (cfg := shell_config) "a" one_slot_left
    = Ok (Some p1, s1) /\
    proc_create_register (cfg := shell_config) "b" s1 = Ok (Some p2, s2) /\
    proc_create_finish (cfg := shell_config) (Some p1) s2 = Ok (None, s3) /\
    proc_create_finish (cfg := shell_config) (Some p2) s3 = Ok (None, s4) /\
    pt_proc (processTable s4) !! 100 = Some p1 /\
    procs s4 !! p1 = None /\
    proc_search_pid (cfg := shell_config) 100 s4 = Undefined.
Proof.
  apply (proc_create_race (cfg := shell_config) "a" "b" one_slot_left 100).
  - reflexivity.
  - vm_compute. reflexivity.
  - vm_compute. reflexivity.
  - left. vm_compute. split; discriminate.
  - unfold MAX_PROC. lia.
  - vm_compute. discriminate.
  - vm_compute. discriminate.
  - vm_compute. reflexivity.
  - intros k Hk Hne.
    apply (slots_taken_upto _ 99); [vm_compute; reflexivity|].
    unfold MAX_PROC in Hk. lia.
Defined.

(** ** Threads attached to a process *)

Lemma lift_Ok {A} (m : K A) ts a s' :
  m (kern ts) = Ok (a, s') -> lift m ts = Ok (a, with_kern s' ts).
Proof. intros E. unfold lift. now rewrite E. Qed.

Lemma lift_inv {A} (m : K A) ts a ts' :
  lift m ts = Ok (a, ts') ->
  exists s', m (kern ts) = Ok (a, s') /\ ts' = with_kern s' ts.
Proof.
  unfold lift. destruct (m (kern ts)) as [[a' s']| | | |]; try discriminate.
  intros [= -> <-]. eauto.
Qed.

Lemma load_t_proc_inv t ts v ts' :
  load_t_proc t ts = Ok (v, ts') -> t_proc ts !! t = Some v /\ ts' = ts.
Proof.
  unfold load_t_proc. destruct (t_proc ts !! t); [|discriminate].
  now intros [= -> ->].
Qed.

Lemma store_t_proc_inv t v ts u ts' :
  store_t_proc t v ts = Ok (u, ts') ->
  ts' = with_t_proc (<[t := v]> (t_proc ts)) ts.
Proof.
  unfold store_t_proc. destruct (t_proc ts !! t); [|discriminate].
  now intros [= <-].
Qed.

(** Attaching a thread that was free adds one to the count of its new
    process and leaves the other counts. *)
Lemma attached_attach (m : gmap ptr (option ptr)) t p q :
  m !! t = Some None ->
  size (filter (fun kv : ptr * option ptr => kv.2 = Some q)
          (<[t := Some p]> m))
  = (size (filter (fun kv : ptr * option ptr => kv.2 = Some q) m)
     + if decide (q = p) then 1 else 0)%nat.
Proof.
  intros Ht. destruct (decide (q = p)) as [->|Hne].
  - rewrite map_filter_insert_True by done.
    rewrite map_size_insert_None; [lia|].
    apply map_lookup_filter_None_2. right. intros x Hx. cbn. congruence.
  - rewrite map_filter_insert_not'; [lia| |].
    + cbn. congruence.
    + intros y Hy. cbn. congruence.
Qed.

Lemma attached_detach (m : gmap ptr (option ptr)) t p q :
  m !! t = Some (Some p) ->
  size (filter (fun kv : ptr * option ptr => kv.2 = Some q) m)
  = (size (filter (fun kv : ptr * option ptr => kv.2 = Some q)
             (<[t := None]> m))
     + if decide (q = p) then 1 else 0)%nat.
Proof.
  intros Ht.
  rewrite <- (attached_attach (<[t := None]> m) t p q)
    by apply lookup_insert_eq.
  now rewrite insert_insert_eq, insert_id.
Qed.

Section thread_link.
Context {cfg : Config} {cnt : Counter}.

Lemma proc_addthread_Ok p t pr ts :
  t_proc ts !! t = Some None -> procs (kern ts) !! p = Some pr ->
  p_numthreads pr <> NUMTHREADS_MAX ->
  proc_addthread p t ts
  = Ok (0, with_t_proc (<[t := Some p]> (t_proc ts))
             (with_kern
                (with_procs
                   (<[p := set_p_numthreads (p_numthreads pr + 1) pr]>
                      (procs (kern ts))) (kern ts)) ts)).
Proof.
  intros Ht Hp Hmax. unfold proc_addthread.
  kstep by (unfold load_t_proc; rewrite Ht; reflexivity).
  rewrite bool_decide_eq_true_2 by done. kstep.
  assert ((p_numthreads pr =? NUMTHREADS_MAX) = false) as Hb by lia.
  erewrite bind_Ok.
  2:{ apply lift_Ok. kstep. kstep by (apply load_proc_Ok; exact Hp).
      unfold numthreads_succ. rewrite Hb. kstep.
      kstep by (apply update_proc_Ok; exact Hp). reflexivity. }
  cbn beta. kstep.
  kstep by (unfold store_t_proc; cbn; rewrite Ht; reflexivity).
  kstep. reflexivity.
Qed.

Lemma proc_remthread_Ok p t pr ts :
  t_proc ts !! t = Some (Some p) -> procs (kern ts) !! p = Some pr ->
  0 < p_numthreads pr ->
  proc_remthread t ts
  = Ok (tt, with_t_proc (<[t := None]> (t_proc ts))
              (with_kern
                 (with_procs
                    (<[p := set_p_numthreads (p_numthreads pr - 1) pr]>
                       (procs (kern ts))) (kern ts)) ts)).
Proof.
  intros Ht Hp Hpos. unfold proc_remthread.
  kstep by (unfold load_t_proc; rewrite Ht; reflexivity).
  assert ((0 <? p_numthreads pr) = true) as Hb by lia.
  erewrite bind_Ok.
  2:{ apply lift_Ok. kstep. kstep by (apply load_proc_Ok; exact Hp).
      rewrite Hb. kstep. kstep by (apply update_proc_Ok; exact Hp).
      reflexivity. }
  cbn beta. kstep.
  kstep by (unfold store_t_proc; cbn; rewrite Ht; reflexivity).
  reflexivity.
Qed.

(** Attaching a free thread to a process and removing it again leaves
    the kernel exactly as it was, as long as the thread counter has room
    for one more. *)
Theorem proc_addthread_then_remthread (p t : ptr) (pr : proc)
    (ts : tstate) :
  t_proc ts !! t = Some None -> procs (kern ts) !! p = Some pr ->
  0 <= p_numthreads pr -> p_numthreads pr <> NUMTHREADS_MAX ->
  (proc_addthread p t >> proc_remthread t) ts = Ok (tt, ts).
Proof.
  intros Ht Hp Hpos Hmax.
  kstep by (apply (proc_addthread_Ok p t pr); assumption).
  rewrite (proc_remthread_Ok p t (set_p_numthreads (p_numthreads pr + 1) pr)).
  - cbn. rewrite !insert_insert_eq.
    replace (p_numthreads pr + 1 - 1) with (p_numthreads pr) by lia.
    assert (set_p_numthreads (p_numthreads pr)
              (set_p_numthreads (p_numthreads pr + 1) pr) = pr) as ->
      by now destruct pr.
    rewrite !insert_id by done.
    destruct ts as [s m]. cbn. rewrite with_procs_twice, with_procs_same.
    reflexivity.
  - cbn. apply lookup_insert_eq.
  - cbn. apply lookup_insert_eq.
  - cbn. lia.
Qed.

(** The thread count of every process stays the number of threads
    attached to it.  [proc_addthread], when it returns on a counter that
    is not at its largest value, returns 0 with the thread attached to
    the process and the counts in order; [proc_remthread] on an attached
    thread of a live process returns (its assertion on the count holds),
    with the thread free and the counts in order. *)
Theorem thread_count_kept (ts : tstate) :
  threads_counted ts ->
  (forall p t r ts',
     proc_addthread p t ts = Ok (r, ts') ->
     (forall pr, procs (kern ts) !! p = Some pr ->
                 p_numthreads pr <> NUMTHREADS_MAX) ->
     r = 0 /\ t_proc ts !! t = Some None /\
     t_proc ts' !! t = Some (Some p) /\ threads_counted ts') /\
  (forall p t pr,
     t_proc ts !! t = Some (Some p) -> procs (kern ts) !! p = Some pr ->
     exists ts',
       proc_remthread t ts = Ok (tt, ts') /\
       t_proc ts' !! t = Some None /\ threads_counted ts').
Proof.
  intros Hinv. split.
  - intros p t r ts' E Hmax. pose proof E as E0. unfold proc_addthread in E.
    apply bind_inv in E as (tp & ts0 & [Ht ->]%load_t_proc_inv & E).
    apply bind_inv in E as ([] & ts0 & [Hnone ->]%KASSERT_inv & E).
    apply bool_decide_eq_true_1 in Hnone as ->.
    apply bind_inv in E as ([] & ts1 & E1 & _).
    apply lift_inv in E1 as (s1 & E1 & _).
    apply bind_inv in E1 as ([] & s0 & [_ ->]%ret_inv & E1).
    apply bind_inv in E1 as ([] & s0' & E1 & _).
    apply bind_inv in E1 as (pr & s0'' & [Hp ->]%load_proc_inv & _).
    specialize (Hmax pr Hp).
    rewrite (proc_addthread_Ok p t pr ts Ht Hp Hmax) in E0.
    injection E0 as <- <-.
    split; [done|]. split; [done|]. split; [cbn; apply lookup_insert_eq|].
    intros q qr Hq. unfold attached. cbn in Hq |- *.
    rewrite (attached_attach _ t p q Ht).
    destruct (decide (q = p)) as [->|Hne].
    + rewrite lookup_insert_eq in Hq. injection Hq as <-. cbn.
      rewrite (Hinv p pr Hp). unfold attached. lia.
    + rewrite lookup_insert_ne in Hq by done.
      rewrite (Hinv q qr Hq). unfold attached. lia.
  - intros p t pr Ht Hp.
    assert (0 < p_numthreads pr) as Hpos.
    { rewrite (Hinv p pr Hp). unfold attached.
      assert (size (filter (fun kv : ptr * option ptr => kv.2 = Some p)
                      (t_proc ts)) <> 0%nat); [|lia].
      apply (map_size_ne_0_lookup_2 _ t). exists (Some p).
      now apply map_lookup_filter_Some_2. }
    eexists. split; [now apply (proc_remthread_Ok p t pr)|].
    split; [cbn; apply lookup_insert_eq|].
    intros q qr Hq. unfold attached. cbn in Hq |- *.
    pose proof (attached_detach _ t p q Ht) as Hd.
    destruct (decide (q = p)) as [->|Hne].
    + rewrite lookup_insert_eq in Hq. injection Hq as <-. cbn.
      rewrite (Hinv p pr Hp). unfold attached. lia.
    + rewrite lookup_insert_ne in Hq by done.
      rewrite (Hinv q qr Hq). unfold attached. lia.
Qed.

(** [proc_destroy] of a live PCB whose thread count is not zero gets as
    far as the assertion on [p_numthreads], at the latest, and stops
    there: what comes before (giving up the working directory and the
    address space) cannot block or go wrong. *)
Lemma proc_destroy_busy (p : ptr) (pr : proc) (s : kstate) :
  procs s !! p = Some pr -> p_numthreads pr <> 0 ->
  proc_destroy (Some p) s = Panic.
Proof.
  intros Hp Hnt. unfold proc_destroy. kstep.
  destruct (bool_decide (Some p = kproc s)) eqn:Hk; [reflexivity|].
  cbn [negb]. do 2 kstep.
  assert ((p_numthreads pr =? 0) = false) as Hz by lia.
  assert (exists s1 pr1,
            match p_cwd pr with
            | Some cwd =>
              VOP_DECREF (Some cwd) >> update_proc p (set_p_cwd None)
            | None => ret tt
            end s = Ok (tt, s1) /\
            procs s1 !! p = Some pr1 /\ curproc s1 = curproc s /\
            p_numthreads pr1 = p_numthreads pr /\
            p_addrspace pr1 = p_addrspace pr) as (s1 & pr1 & E1 & Hp1 & Hc1
                                                  & Hn1 & Ha1).
  { destruct (p_cwd pr) as [cwd|].
    - unfold VOP_DECREF, emit. kstep.
      erewrite update_proc_Ok by (cbn; exact Hp).
      eexists _, _. split; [reflexivity|]. cbn.
      rewrite lookup_insert_eq. repeat split.
    - exists s, pr. repeat split. exact Hp. }
  kstep by exact E1. kstep by (apply load_proc_Ok; exact Hp1).
  assert (exists s2 pr2,
            match p_addrspace pr1 with
            | Some _ =>
              let* s0 := get_state in
              let* a :=
                (if bool_decide (Some p = curproc s0)
                 then let* a := proc_setas None in as_deactivate >> ret a
                 else
                   let* pr0 := load_proc p in
                   update_proc p (set_p_addrspace None) >>
                   ret (p_addrspace pr0)) in
              as_destroy a
            | None => ret tt
            end s1 = Ok (tt, s2) /\
            procs s2 !! p = Some pr2 /\
            p_numthreads pr2 = p_numthreads pr) as (s2 & pr2 & E2 & Hp2 & Hn2).
  { destruct (p_addrspace pr1) as [a|] eqn:Has.
    2:{ exists s1, pr1. repeat split; assumption. }
    kstep. destruct (bool_decide (Some p = curproc s1)) eqn:Hcur.
    - apply (bool_decide_eq_true_1 _) in Hcur.
      unfold proc_setas. kstep. rewrite <- Hcur. repeat kstep.
      unfold as_deactivate, emit. repeat kstep.
      rewrite Has. unfold as_destroy, emit.
      eexists _, _. split; [reflexivity|]. cbn.
      rewrite lookup_insert_eq. split; [reflexivity|exact Hn1].
    - repeat kstep. rewrite Has. unfold as_destroy, emit.
      eexists _, _. split; [reflexivity|]. cbn.
      rewrite lookup_insert_eq. split; [reflexivity|exact Hn1]. }
  kstep by exact E2. kstep by (apply load_proc_Ok; exact Hp2).
  rewrite Hn2, Hz. reflexivity.
Qed.

(** [proc_destroy] of a live process that has a thread attached stops
    at a failed assertion: with the counts in order its [p_numthreads]
    is not zero, so the run ends at [KASSERT(proc->p_numthreads == 0)]
    when it has not already ended at [KASSERT(proc != kproc)].  It does
    not return, and neither blocks nor touches freed memory on the
    way. *)
Theorem proc_destroy_needs_no_thread (p t : ptr) (pr : proc) (ts : tstate) :
  threads_counted ts -> t_proc ts !! t = Some (Some p) ->
  procs (kern ts) !! p = Some pr ->
  lift (proc_destroy (Some p)) ts = Panic.
Proof.
  intros Hinv Ht Hp. unfold lift.
  rewrite (proc_destroy_busy p pr (kern ts) Hp); [reflexivity|].
  rewrite (Hinv p pr Hp). unfold attached.
  assert (size (filter (fun kv : ptr * option ptr => kv.2 = Some p)
                  (t_proc ts)) <> 0%nat); [|lia].
  apply (map_size_ne_0_lookup_2 _ t). exists (Some p).
  now apply map_lookup_filter_Some_2.
Qed.

End thread_link.

(** An instance: a thread is attached to process A and removed again. *)
Lemma proc_addthread_then_remthread_witness :
  (proc_addthread (cnt := unsigned_counter) 6 500 >> proc_remthread 500)
    one_thread
  = Ok (tt, one_thread).
Proof.
  assert (exists pr, procs (kern one_thread) !! 6%positive = Some pr /\
                     p_numthreads pr = 0) as (pr & Hp & Hnt).
  { eexists. split; [vm_compute; reflexivity|reflexivity]. }
  apply (proc_addthread_then_remthread (cnt := unsigned_counter) 6 500 pr).
  - vm_compute. reflexivity.
  - exact Hp.
  - rewrite Hnt. lia.
  - rewrite Hnt. discriminate.
Defined.

(** An instance: the counts are in order before and after a thread is
    attached to process A. *)
Lemma thread_count_kept_witness :
  threads_counted one_thread /\
  proc_addthread (cnt := unsigned_counter) 6 500 one_thread
  = Ok (0, thread_attached) /\
  threads_counted thread_attached.
Proof.
  assert (threads_counted one_thread) as Hinv.
  { change (map_Forall
              (fun p pr => p_numthreads pr = Z.of_nat (attached one_thread p))
              (procs (kern one_thread))).
    apply (bool_decide_unpack _). vm_compute. exact I. }
  assert (proc_addthread (cnt := unsigned_counter) 6 500 one_thread
          = Ok (0, thread_attached)) as E by (vm_compute; reflexivity).
  split; [exact Hinv|]. split; [exact E|].
  destruct (thread_count_kept (cnt := unsigned_counter) one_thread Hinv)
    as [Hadd _].
  destruct (Hadd 6%positive 500%positive 0 thread_attached E)
    as (_ & _ & _ & Hinv'); [|exact Hinv'].
  intros pr Hpr.
  assert (p_numthreads <$> procs (kern one_thread) !! 6%positive = Some 0)
    as H0 by (vm_compute; reflexivity).
  rewrite Hpr in H0. injection H0 as ->. discriminate.
Defined.

(** An instance: process A cannot be destroyed while the thread is
    attached to it. *)
Lemma proc_destroy_needs_no_thread_witness :
  t_proc thread_attached !! 500%positive = Some (Some 6%positive) /\
  lift (proc_destroy (cfg := shell_config) (Some 6%positive)) thread_attached
  = Panic.
Proof.
  split; [vm_compute; reflexivity|].
  assert (exists pr, procs (kern thread_attached) !! 6%positive = Some pr)
    as [pr Hp] by (eexists; vm_compute; reflexivity).
  apply (proc_destroy_needs_no_thread (cfg := shell_config) 6 500 pr).
  - change (map_Forall
              (fun p pr =>
                 p_numthreads pr = Z.of_nat (attached thread_attached p))
              (procs (kern thread_attached))).
    apply (bool_decide_unpack _). vm_compute. exact I.
  - vm_compute. reflexivity.
  - exact Hp.
Defined.

(** ** Severing parent links twice *)

Lemma parent_has_pid_sever t m pid k pr :
  parent_has_pid (sever t m pid k) pid pr = parent_has_pid m pid pr.
Proof.
  unfold parent_has_pid. destruct (parent_proc pr) as [par|]; [|done].
  rewrite sever_lookup. destruct (m !! par) as [r|]; [|done]. cbn.
  now destruct (_ && _).
Qed.

Lemma sever_sever t m pid k :
  sever t (sever t m pid k) pid k = sever t m pid k.
Proof.
  apply map_eq. intros q. rewrite !sever_lookup.
  destruct (m !! q) as [pr|]; [|done]. cbn. f_equal.
  destruct (bool_decide (in_slots_below t k q)); cbn; [|done].
  destruct (parent_has_pid m pid pr) eqn:Hp; cbn.
  - reflexivity.
  - now rewrite parent_has_pid_sever, Hp.
Qed.

Section parent_again.
Context {cfg : Config}.

Lemma links_ok_sever s pid k :
  links_ok s ->
  links_ok (with_procs (sever (pt_proc (processTable s)) (procs s) pid k) s).
Proof.
  intros Hok i p Hp Hi. cbn in Hp |- *. specialize (Hok i p Hp Hi).
  unfold pcb_links_ok in *. rewrite sever_lookup.
  destruct (procs s !! p) as [pr|]; [|done]. cbn.
  destruct (_ && _); cbn; [done|].
  destruct (parent_proc pr) as [par|]; [|done].
  apply bool_decide_eq_true_1 in Hok as [r Hr].
  apply bool_decide_eq_true_2. rewrite sever_lookup, Hr. cbn. eauto.
Qed.

(** Once [proc_rm_parent_link pid] has run, running it again changes
    nothing: no process is left whose parent has identifier [pid]. *)
Theorem proc_rm_parent_link_twice (pid : Z) (s : kstate) :
  PID_MIN <= pid <= MAX_PROC -> links_ok s ->
  exists s',
    proc_rm_parent_link pid s = Ok (tt, s') /\
    proc_rm_parent_link pid s' = Ok (tt, s') /\
    forall q pr, in_table s' q -> procs s' !! q = Some pr ->
                 parent_has_pid (procs s') pid pr = false.
Proof.
  intros Hpid Hok. eexists. split; [now apply proc_rm_parent_link_Ok|].
  split.
  - rewrite proc_rm_parent_link_Ok; [|done|now apply links_ok_sever].
    cbn. now rewrite sever_sever, with_procs_twice.
  - intros q pr Hin Hq. cbn in Hq, Hin |- *.
    rewrite parent_has_pid_sever. rewrite sever_lookup in Hq.
    destruct (procs s !! q) as [pr0|]; [|done]. cbn in Hq.
    injection Hq as <-.
    fold (in_table s q).
    rewrite (bool_decide_eq_true_2 (in_table s q)) by exact Hin. cbn.
    destruct (parent_has_pid (procs s) pid pr0) eqn:Hp; [reflexivity|done].
Qed.

End parent_again.

(** An instance: the links to pid 1 are severed twice in a kernel where
    the process of pid 2 is a child of the kernel process. *)
Lemma proc_rm_parent_link_twice_witness :
  exists s',
    proc_rm_parent_link (cfg := shell_config) 1 child_of_kernel = Ok (tt, s') /\
    proc_rm_parent_link (cfg := shell_config) 1 s' = Ok (tt, s').
Proof.
  destruct (proc_rm_parent_link_twice (cfg := shell_config) 1 child_of_kernel)
    as (s' & E1 & E2 & _).
  - vm_compute. split; discriminate.
  - apply (bool_decide_unpack _). vm_compute. exact I.
  - exists s'. split; assumption.
Defined.
